(** * The lint visitor of the CSS language service (src/services/lint.ts)

  A shallow embedding of [LintVisitor]: the accumulated marker list and
  the keyframes index are threaded explicitly, node accessors of the
  parser's syntax tree are projections of a node record, and the helpers
  imported from other modules are section variables. *)

From Stdlib Require Import ZArith String Ascii List Lia.
From stdpp Require Import base list strings gmap.

Set Warnings "-register-all".
Local Open Scope Z_scope.

(** ** JavaScript string and array primitives used by the visitor

    A JavaScript string is a sequence of UTF-16 code units.  The strings
    of this development are the sequences of code units below 256 (the
    characters of Latin-1), one [ascii] for each code unit; a text with
    another character is outside them.  Positions and lengths count code
    units, as the offsets of the syntax tree do. *)

Module JS.

(** [s.length] *)
Definition strlen (s : string) : Z := Z.of_nat (String.length s).

(** [s.charAt(i)]: the one-character string at [i], the empty string
    when [i] is out of range. *)
Definition charAt (s : string) (i : Z) : string :=
  if i <? 0 then ""
  else match String.get (Z.to_nat i) s with
       | Some c => String c ""
       | None => ""
       end.

(** [s.substr(start, len)]: a negative [start] counts from the end, the
    length is clamped to what is left of the string. *)
Definition substr (s : string) (start len : Z) : string :=
  let size := strlen s in
  let from := if start <? 0 then Z.max (size + start) 0 else Z.min start size in
  let n := Z.min (Z.max len 0) (size - from) in
  String.substring (Z.to_nat from) (Z.to_nat n) s.

(** [s.substr(start)] *)
Definition substr_from (s : string) (start : Z) : string :=
  substr s start (strlen s).

(** The lower-case form of a code unit below 256: the letters [A] to [Z]
    (65 to 90) and the accented capitals U+00C0 to U+00DE (192 to 222)
    but for the multiplication sign U+00D7 (215) have theirs 32 further
    on; every other one is its own. *)
Definition lower_ascii (c : ascii) : ascii :=
  let n := nat_of_ascii c in
  if (((65 <=? n) && (n <=? 90))
      || ((192 <=? n) && (n <=? 222) && negb (n =? 215)))%nat
  then ascii_of_nat (n + 32) else c.

(** [s.toLowerCase()] *)
Fixpoint toLowerCase (s : string) : string :=
  match s with
  | EmptyString => EmptyString
  | String c r => String (lower_ascii c) (toLowerCase r)
  end.

(** The first index of [xs] whose element passes [is_x], or [-1]. *)
Fixpoint indexOf_by {A : Type} (is_x : A -> bool) (xs : list A) : Z :=
  match xs with
  | [] => -1
  | y :: r =>
      if is_x y then 0
      else let k := indexOf_by is_x r in if k =? -1 then -1 else k + 1
  end.

(** [xs.indexOf(x)] on an array of strings. *)
Definition indexOf (xs : list string) (x : string) : Z :=
  indexOf_by (fun y => String.eqb y x) xs.

(** [xs.indexOf(x)] on an array of strings and [null]: [null] is not
    strictly equal to any string. *)
Definition indexOf_nullable (xs : list (option string)) (x : string) : Z :=
  indexOf_by (fun y => match y with Some y' => String.eqb y' x | None => false end) xs.

(** Whether a string is truthy: every string but the empty one. *)
Definition truthy (s : string) : bool :=
  match s with EmptyString => false | String _ _ => true end.

(** The white space and line terminators [trim] strips, among the code
    units below 256: tab, line feed, vertical tab, form feed, carriage
    return (9 to 13), space (32) and no-break space U+00A0 (160). *)
Definition is_space (c : ascii) : bool :=
  let n := nat_of_ascii c in
  ((n =? 32) || ((9 <=? n) && (n <=? 13)) || (n =? 160))%nat.

Fixpoint trimStart (s : list ascii) : list ascii :=
  match s with
  | c :: r => if is_space c then trimStart r else s
  | [] => []
  end.

(** [s.trim()] *)
Definition trim (s : string) : string :=
  string_of_list_ascii
    (List.rev (trimStart (List.rev (trimStart (list_ascii_of_string s))))).

(** [s.indexOf(c, from)] for a one-character needle: positions are
    counted from the start of [s]. *)
Fixpoint indexOfChar_from (s : string) (c : ascii) (from : nat) (pos : Z) : Z :=
  match s with
  | EmptyString => -1
  | String d r =>
      match from with
      | O => if Ascii.eqb d c then pos else indexOfChar_from r c O (pos + 1)
      | S from' => indexOfChar_from r c from' (pos + 1)
      end
  end.

(** Whether a property key is an array index: the canonical decimal
    numeral of an integer from 0 to 2^32 - 2, that is [0] alone or digits
    that do not start with [0]; and the integer it stands for. *)
Definition is_digit (c : ascii) : bool :=
  let n := nat_of_ascii c in ((48 <=? n) && (n <=? 57))%nat.

Fixpoint decimal (s : string) (acc : Z) : option Z :=
  match s with
  | EmptyString => Some acc
  | String c r =>
      if is_digit c then decimal r (10 * acc + (Z.of_nat (nat_of_ascii c) - 48))
      else None
  end.

Definition arrayIndex (key : string) : option Z :=
  match key with
  | EmptyString => None
  | String c r =>
      if Ascii.eqb c "0" && negb (String.eqb r "") then None
      else
        match decimal key 0 with
        | Some k => if k <? 2 ^ 32 - 1 then Some k else None
        | None => None
        end
  end.

(** The 32-bit signed integer a number is converted to by the bitwise
    operators. *)
Definition toInt32 (x : Z) : Z := (x + 2 ^ 31) mod 2 ^ 32 - 2 ^ 31.

(** [a & b] *)
Definition band (a b : Z) : Z := Z.land (toInt32 a) (toInt32 b).

End JS.

(** ** Plain objects used as tables

    [validProperties] and the [data] of a grouping index are plain
    objects ([{}]): reading a key yields the object's own property or,
    when it has none of that name, the property it inherits from
    [Object.prototype]. *)

Module JSObject.

(** The names of the properties every plain object inherits.  What is
    inherited under each is a function, and under [__proto__] the
    prototype object: all of them truthy, and none of them an object
    with a [names] or [nodes] array. *)
Definition inherited : list string :=
  ["constructor"; "hasOwnProperty"; "isPrototypeOf"; "propertyIsEnumerable";
   "toLocaleString"; "toString"; "valueOf";
   "__defineGetter__"; "__defineSetter__"; "__lookupGetter__"; "__lookupSetter__";
   "__proto__"].

(** [obj[key] = true] on an object given by the set of its own keys, all
    of them holding [true]: the key becomes an own key, but for
    [__proto__], whose inherited setter ignores a value that is no
    object. *)
Definition set_true (obj : gset string) (key : string) : gset string :=
  if String.eqb key "__proto__" then obj else obj ∪ {[ key ]}.

(** Whether [obj[key]] is truthy for such an object: the key is its own
    or inherited. *)
Definition truthy_at (obj : gset string) (key : string) : bool :=
  bool_decide (key ∈ obj) || bool_decide (key ∈ inherited).

(** The keys in the order [for ... in] enumerates them: the array
    indices in ascending order, then the other keys in the order they
    were created.  [insert_index] puts an entry with the array index [k]
    into a list sorted by index. *)
Fixpoint insert_index {A : Type} (k : Z) (x : string * A) (sorted : list (Z * (string * A)))
    : list (Z * (string * A)) :=
  match sorted with
  | [] => [(k, x)]
  | (k', y) :: rest =>
      if k <? k' then (k, x) :: sorted else (k', y) :: insert_index k x rest
  end.

Definition enumerate {A : Type} (created : list (string * A)) : list (string * A) :=
  let indices :=
    fold_left
      (fun sorted item =>
         match JS.arrayIndex (fst item) with
         | Some k => insert_index k item sorted
         | None => sorted
         end)
      created [] in
  List.map snd indices
  ++ List.filter
       (fun item => match JS.arrayIndex (fst item) with Some _ => false | None => true end)
       created.

End JSObject.

(** ** Message templates (vscode-nls, default bundle)

  [localize(key, message, ...args)] without a loaded translation formats
  the default [message]: every [{n}] (a brace, digits, a brace) is
  replaced by the argument selected by the first digit. *)

Module nls.

Definition is_digit (c : ascii) : bool :=
  let n := nat_of_ascii c in ((48 <=? n) && (n <=? 57))%nat.

Definition arg_at (args : list string) (d : ascii) : string :=
  match args !! (nat_of_ascii d - 48)%nat with
  | Some a => a
  | None => "undefined"
  end.

(** [pending] is [None] outside a placeholder and [Some ds] after an
    opening brace followed by the digits [ds] (in reading order). *)
Fixpoint format_from (pending : option string) (args : list string)
    (message : string) : string :=
  match message with
  | EmptyString =>
      match pending with
      | None => ""
      | Some ds => String "{" ds
      end
  | String c rest =>
      match pending with
      | None =>
          if Ascii.eqb c "{" then format_from (Some "") args rest
          else String c (format_from None args rest)
      | Some ds =>
          if is_digit c then format_from (Some (ds +:+ String c "")) args rest
          else if Ascii.eqb c "}" then
            match ds with
            | EmptyString => String "{" (String "}" (format_from None args rest))
            | String d _ => arg_at args d +:+ format_from None args rest
            end
          else if Ascii.eqb c "{" then
            String "{" ds +:+ format_from (Some "") args rest
          else String "{" ds +:+ String c (format_from None args rest)
      end
  end.

Definition format (message : string) (args : list string) : string :=
  match args with
  | [] => message
  | _ => format_from None args message
  end.

Definition localize (key message : string) (args : list string) : string :=
  format message args.

End nls.

(** ** The rule identifiers (services/lintRules) *)

Module Rules.

Inductive Rule : Set :=
| AllVendorPrefixes
| IncludeStandardPropertyWhenUsingVendorPrefix
| DuplicateDeclarations
| EmptyRuleSet
| ImportStatemement
| BewareOfBoxModelSize
| UniversalSelector
| ZeroWithUnit
| RequiredPropertiesForFontFace
| HexColorLength
| ArgsInColorFunction
| UnknownProperty
| UnknownAtRules
| IEStarHack
| UnknownVendorSpecificProperty
| PropertyIgnoredDueToDisplay
| AvoidImportant
| AvoidFloat
| AvoidIdSelector.

#[global] Instance Rule_eq_dec : EqDecision Rule.
Proof. solve_decision. Defined.

End Rules.

Import Rules (Rule).

(** ** The syntax tree (parser/cssNodes), as the visitor consumes it *)

Module nodes.

(** Type tags of the node kinds the analyzer meets. *)
Inductive NodeType : Set :=
| Undefined | Identifier | Stylesheet | Ruleset | Selector | SimpleSelector
| ClassSelector | IdentifierSelector | ElementNameSelector | PseudoSelector
| Declarations | Declaration | CustomPropertyDeclaration | Property
| Expression | BinaryExpression | Term | Operator | StringLiteral
| NumericValue | HexColorValue | Function | FunctionArgument | Nodelist
| Prio | Import | Keyframe | KeyframeSelector | FontFace | UnknownAtRule.

#[global] Instance NodeType_eq_dec : EqDecision NodeType.
Proof. solve_decision. Defined.

(** [INumericValue], what [NumericValue.getValue()] returns. *)
Record INumericValue : Set := { value : string; unit : option string }.

(** The class of a node with the sub-nodes and values its accessors
    return.  [CNode] is the plain [Node] class, used for every type tag
    without accessors of its own. *)
Inductive Class (N : Type) : Type :=
| CNode
| CIdentifier (containsInterpolation : bool)
| CProperty (identifier : option N) (name : string)
| CDeclaration (property : option N) (value : option N) (fullPropertyName : string)
| CDeclarations
| CRuleSet (selectors : N) (declarations : option N)
| CFontFace (declarations : option N)
| CKeyframe (keyword : option N) (identifier : option N)
| CFunction (identifier : option N) (arguments : N)
| CBinaryExpression
| CNumericValue (numeric : INumericValue).

Arguments CNode {N}.
Arguments CIdentifier {N}.
Arguments CProperty {N}.
Arguments CDeclaration {N}.
Arguments CDeclarations {N}.
Arguments CRuleSet {N}.
Arguments CFontFace {N}.
Arguments CKeyframe {N}.
Arguments CFunction {N}.
Arguments CBinaryExpression {N}.
Arguments CNumericValue {N}.

Inductive Node : Type :=
  mkNode {
    type : NodeType;
    offset : Z;
    length : Z;
    children : list Node;
    cls : Class Node
  }.

(** [Level]: the severity of a marker. *)
Inductive Level : Set := Ignore | Warning | Error.

(** Modelled from the spec: the numbers of the [Level] enumeration
    (parser/cssNodes, not among the sources), which are combined into a
    bitmask of severity levels: a bit each. *)
Definition Level_value (l : Level) : Z :=
  match l with Ignore => 1 | Warning => 2 | Error => 4 end.

(** [Level.Warning | Level.Error], the default filter of [getEntries]. *)
Definition Level_default_filter : Z := Z.lor (Level_value Warning) (Level_value Error).

(** [Marker]: a finding, built once by [addEntry] and never changed. *)
Record Marker : Type :=
  mkMarker {
    getNode : Node;
    getRule : Rule;
    getLevel : Level;
    getMessage : option string
  }.

(** *** Accessors of every node (parser/cssNodes, not among the sources) *)

(** Modelled from the spec: [node.getText()], the literal text of a node:
    the slice of the source [text] the tree was parsed from, at the offset
    and of the length of the node. *)
Definition getText (text : string) (n : Node) : string :=
  JS.substr text (offset n) (length n).

(** Modelled from the spec: [node.matches(str)], whether the node is
    literally [str]. *)
Definition matches (text : string) (n : Node) (str : string) : bool :=
  (length n =? JS.strlen str) && String.eqb (getText text n) str.

(** Modelled from the spec: child navigation, [node.getChild(index)],
    [node.getChildren()] and [node.hasChildren()]. *)
Definition getChild (n : Node) (index : nat) : option Node := children n !! index.

Definition getChildren (n : Node) : list Node := children n.

Definition hasChildren (n : Node) : bool :=
  match children n with [] => false | _ :: _ => true end.

(** Modelled from the spec: [node.accept(visitor)], the depth-first walk
    in document order: the visitor function is called on the node and says
    whether to descend into its children; [S] is the state the callback
    closes over. *)
Fixpoint accept {S : Type} (visitor : Node -> S -> bool * S) (n : Node) (s : S) : S :=
  let '(descend, s1) := visitor n s in
  if descend then
    (fix accept_children (cs : list Node) (s : S) : S :=
       match cs with
       | [] => s
       | c :: cs' => accept_children cs' (accept visitor c s)
       end) (children n) s1
  else s1.

(** Modelled from the spec: parent navigation, [node.findParent(type)]:
    the node itself or its nearest ancestor with the type tag; [ancestors]
    is the parent chain of the node, the parent first. *)
Definition findParent (n : Node) (ancestors : list Node) (t : NodeType) : option Node :=
  List.find (fun a => bool_decide (type a = t)) (n :: ancestors).

(** *** Accessors of the node classes (parser/cssNodes, not among the
    sources)

    Modelled from the spec: the node-specific accessors return what the
    class of the node holds.  Each is called on a node of its class only
    (the static types of the visitor say so); on a node of another class
    the sub-node is reported absent. *)

Definition instanceof_Declaration (n : Node) : bool :=
  match cls n with CDeclaration _ _ _ => true | _ => false end.

Definition instanceof_BinaryExpression (n : Node) : bool :=
  match cls n with CBinaryExpression => true | _ => false end.

Definition Identifier_containsInterpolation (n : Node) : bool :=
  match cls n with CIdentifier b => b | _ => false end.

Definition Property_getIdentifier (n : Node) : option Node :=
  match cls n with CProperty i _ => i | _ => None end.

Definition Property_getName (n : Node) : string :=
  match cls n with CProperty _ s => s | _ => "" end.

Definition Declaration_getProperty (n : Node) : option Node :=
  match cls n with CDeclaration p _ _ => p | _ => None end.

Definition Declaration_getValue (n : Node) : option Node :=
  match cls n with CDeclaration _ v _ => v | _ => None end.

Definition Declaration_getFullPropertyName (n : Node) : string :=
  match cls n with CDeclaration _ _ s => s | _ => "unknown" end.

(** Modelled from the spec: [Declaration.getNonPrefixedPropertyName]
    (parser/cssNodes, not among the sources) gives the de-prefixed root
    of a vendor-prefixed property name: what follows the dash that closes
    the leading [-vendor-] prefix, and the name itself when there is no
    such prefix. *)
Definition Declaration_getNonPrefixedPropertyName (n : Node) : string :=
  let propertyName := Declaration_getFullPropertyName n in
  if String.eqb (JS.charAt propertyName 0) "-" then
    let vendorPrefixEnd := JS.indexOfChar_from propertyName "-" 1 0 in
    if vendorPrefixEnd =? -1 then propertyName
    else JS.substr_from propertyName (vendorPrefixEnd + 1)
  else propertyName.

(** Modelled from the spec: a selector or argument list that is missing
    is an empty list, at no place of the source (offset and length [-1]). *)
Definition emptyNodelist : Node := mkNode Nodelist (-1) (-1) [] CNode.

Definition RuleSet_getSelectors (n : Node) : Node :=
  match cls n with CRuleSet s _ => s | _ => emptyNodelist end.

Definition BodyDeclaration_getDeclarations (n : Node) : option Node :=
  match cls n with
  | CRuleSet _ d => d
  | CFontFace d => d
  | _ => None
  end.

Definition Keyframe_getKeyword (n : Node) : option Node :=
  match cls n with CKeyframe k _ => k | _ => None end.

Definition Keyframe_getName (text : string) (n : Node) : string :=
  match cls n with
  | CKeyframe _ (Some i) => getText text i
  | _ => ""
  end.

Definition Function_getName (text : string) (n : Node) : string :=
  match cls n with
  | CFunction (Some i) _ => getText text i
  | _ => ""
  end.

Definition Function_getArguments (n : Node) : Node :=
  match cls n with CFunction _ a => a | _ => emptyNodelist end.

Definition NumericValue_getValue (n : Node) : INumericValue :=
  match cls n with
  | CNumericValue v => v
  | _ => {| value := ""; unit := None |}
  end.

End nodes.

Import nodes (Node, mkNode, NodeType, Class, Level, Marker, mkMarker).

(** ** services/lintUtil: the property table of a block *)

(** Modelled from the spec: [Element] (services/lintUtil, not among the
    sources), a declaration node wrapped with its normalized (lower-cased)
    full property name.  [ref] is the identity of the object, its slot in
    the property table it was created for; two elements are the same
    object ([===]) exactly when their [ref] agree. *)
Record Element : Type :=
  mkElement {
    ref : nat;
    fullPropertyName : string;
    node : Node
  }.

Definition new_Element (slot : nat) (decl : Node) : Element :=
  {| ref := slot;
     fullPropertyName := JS.toLowerCase (nodes.Declaration_getFullPropertyName decl);
     node := decl |}.

(** One side of the box model: whether it contributes and by which
    declarations. *)
Record BoxSide : Type := { side_value : bool; side_properties : list Element }.

(** What [calculateBoxModel] returns. *)
Record BoxModel : Type :=
  {
    width : option Element;
    height : option Element;
    top : BoxSide;
    right : BoxSide;
    bottom : BoxSide;
    left : BoxSide
  }.

(** ** The grouping index *)

Module NodesByRootMap.

Record Entry : Type := { nodes : list Node; names : list string }.

(** [data], a plain object: its own entries by root, in the order the
    roots were first added.  [for ... in] enumerates them as
    [JSObject.enumerate] has it. *)
Definition t : Type := list (string * Entry).

Definition empty : t := [].

Definition push_node (ns : list Node) (n : option Node) : list Node :=
  match n with
  | Some x => ns ++ [x]
  | None => ns
  end.

(** [add] on the roots no object inherits.  For a root of
    [JSObject.inherited], [this.data[root]] is the inherited value, which
    has no [names] array, and [entry.names.push] ends the walk with a
    [TypeError]: [add] does not stand for that abrupt end, it gives such
    a root an entry like any other, and what is proved of a walk is
    proved of the walks that return. *)
Fixpoint add (root name : string) (n : option Node) (data : t) : t :=
  match data with
  | [] => [(root, {| nodes := push_node [] n; names := [name] |})]
  | (k, entry) :: rest =>
      if String.eqb k root
      then (k, {| nodes := push_node (nodes entry) n; names := names entry ++ [name] |}) :: rest
      else (k, entry) :: add root name n rest
  end.

End NodesByRootMap.

(** ** Collaborators of the visitor *)

(** The at-rule description the knowledge base returns. *)
Record IAtDirectiveData : Type := { at_name : string; at_description : option string }.

Record CSSDataManager : Type :=
  {
    isKnownProperty : string -> bool;
    isStandardProperty : string -> bool;
    getAtDirective : string -> option IAtDirectiveData
  }.

(** [getRule] resolves the severity of a rule; [getSetting_ValidProperties]
    is [getSetting(Settings.ValidProperties)], the string entries of the
    array when it is one. *)
Record LintConfigurationSettings : Type :=
  {
    getRule : Rule -> Level;
    getSetting_ValidProperties : option (list string)
  }.

(** ** The visitor *)

(** The fields of the class.  [validProperties] is a plain object used as
    a set of names, given by its own keys: the constructor sets each to
    [true]. *)
Record LintVisitor : Type :=
  mkLintVisitor {
    warnings : list Marker;
    settings : LintConfigurationSettings;
    keyframes : NodesByRootMap.t;
    documentText : string;
    validProperties : gset string;
    cssDataManager : CSSDataManager
  }.

Definition set_warnings (v : LintVisitor) (ws : list Marker) : LintVisitor :=
  {| warnings := ws;
     settings := settings v;
     keyframes := keyframes v;
     documentText := documentText v;
     validProperties := validProperties v;
     cssDataManager := cssDataManager v |}.

Definition set_keyframes (v : LintVisitor) (k : NodesByRootMap.t) : LintVisitor :=
  {| warnings := warnings v;
     settings := settings v;
     keyframes := k;
     documentText := documentText v;
     validProperties := validProperties v;
     cssDataManager := cssDataManager v |}.

(** [LintVisitor.prefixes] *)
Definition prefixes : list string := ["-s2-"].

(** The constructor. *)
Definition new_LintVisitor (text : string) (settings : LintConfigurationSettings)
    (cssDataManager : CSSDataManager) : LintVisitor :=
  {| warnings := [];
     settings := settings;
     keyframes := NodesByRootMap.empty;
     documentText := text;
     validProperties :=
       match getSetting_ValidProperties settings with
       | Some properties =>
           fold_left
             (fun valid p =>
                let name := JS.toLowerCase (JS.trim p) in
                if JS.truthy name then JSObject.set_true valid name else valid)
             properties ∅
       | None => ∅
       end;
     cssDataManager := cssDataManager |}.

(** [this.validProperties[name]], as the tests of the visitor read it:
    for its truth. *)
Definition isValid (v : LintVisitor) (name : string) : bool :=
  JSObject.truthy_at (validProperties v) name.

Definition isValidPropertyDeclaration (v : LintVisitor) (element : Element) : bool :=
  isValid v (fullPropertyName element).

Definition fetch (input : list Element) (s : string) : list Element :=
  List.filter (fun curr => String.eqb (fullPropertyName curr) s) input.

Definition findValueInExpression (v : LintVisitor) (expression : Node) (val : string) : bool :=
  nodes.accept
    (fun n (found : bool) =>
       let found :=
         if bool_decide (nodes.type n = nodes.Identifier) && nodes.matches (documentText v) n val
         then true else found in
       (negb found, found))
    expression false.

Definition fetchWithValue (v : LintVisitor) (input : list Element) (s val : string)
    : list Element :=
  List.filter
    (fun inputElement =>
       String.eqb (fullPropertyName inputElement) s &&
       match nodes.Declaration_getValue (node inputElement) with
       | Some expression => findValueInExpression v expression val
       | None => false
       end)
    input.

Definition getEntries (v : LintVisitor) (filter : Z) : list Marker :=
  List.filter
    (fun entry => negb (JS.band (nodes.Level_value (nodes.getLevel entry)) filter =? 0))
    (warnings v).

Definition addEntry (n : Node) (rule : Rule) (details : option string)
    (v : LintVisitor) : LintVisitor :=
  let entry := mkMarker n rule (getRule (settings v) rule) details in
  set_warnings v (warnings v ++ [entry]).

(** The first loop of [getMissingNames]: an actual name clears the first
    slot of the clone that still holds it. *)
Definition clearExpected (expectedClone : list (option string)) (name : string)
    : list (option string) :=
  let k := JS.indexOf_nullable expectedClone name in
  if k =? -1 then expectedClone else <[ Z.to_nat k := None ]> expectedClone.

(** The second loop: the slots left are joined through the two message
    templates. *)
Definition joinName (result : option string) (curr : option string) : option string :=
  match curr with
  | Some c =>
      if JS.truthy c then
        match result with
        | None => Some (nls.localize "namelist.single" "'{0}'" [c])
        | Some r => Some (nls.localize "namelist.concatenated" "{0}, '{1}'" [r; c])
        end
      else result
  | None => result
  end.

Definition getMissingNames (expected actual : list string) : option string :=
  let expectedClone := fold_left clearExpected actual (List.map Some expected) in
  fold_left joinName expectedClone None.

Definition visitUnknownAtRule (n : Node) (v : LintVisitor) : bool * LintVisitor :=
  match nodes.getChild n 0 with
  | None => (false, v)
  | Some atRuleName =>
      let text := nodes.getText (documentText v) atRuleName in
      match getAtDirective (cssDataManager v) text with
      | Some _ => (false, v)
      | None =>
          (true, addEntry atRuleName Rules.UnknownAtRules
                   (Some ("Unknown at rule " +:+ text)) v)
      end
  end.

Definition visitKeyframe (n : Node) (v : LintVisitor) : bool * LintVisitor :=
  match nodes.Keyframe_getKeyword n with
  | None => (false, v)
  | Some keyword =>
      let text := nodes.getText (documentText v) keyword in
      (true,
       set_keyframes v
         (NodesByRootMap.add (nodes.Keyframe_getName (documentText v) n) text
            (if String.eqb text "@keyframes" then None else Some keyword)
            (keyframes v)))
  end.

(** The loop body of [validateKeyframes] has the one statement [continue],
    behind a test: both ways round the state is handed on as it is. *)
Definition validateKeyframes (v : LintVisitor) : bool * LintVisitor :=
  let v' :=
    fold_left
      (fun (v : LintVisitor) (item : string * NodesByRootMap.Entry) =>
         let actual := NodesByRootMap.names (snd item) in
         let needsStandard := JS.indexOf actual "@keyframes" =? -1 in
         if negb needsStandard && (List.length actual =? 1)%nat
         then v (* continue *)
         else v)
      (JSObject.enumerate (keyframes v)) v in
  (true, v').

Definition completeValidations (v : LintVisitor) : LintVisitor :=
  snd (validateKeyframes v).

Definition visitSimpleSelector (n : Node) (v : LintVisitor) : bool * LintVisitor :=
  let firstChar := JS.charAt (documentText v) (nodes.offset n) in
  if (nodes.length n =? 1) && String.eqb firstChar "*"
  then (true, addEntry n Rules.UniversalSelector None v)
  else (true, v).

Definition visitIdentifierSelector (n : Node) (v : LintVisitor) : bool * LintVisitor :=
  (true, addEntry n Rules.AvoidIdSelector None v).

Definition visitImport (n : Node) (v : LintVisitor) : bool * LintVisitor :=
  (true, addEntry n Rules.ImportStatemement None v).

Definition visitPrio (n : Node) (v : LintVisitor) : bool * LintVisitor :=
  (true, addEntry n Rules.AvoidImportant None v).

Definition isCSSDeclaration (n : Node) : bool :=
  if nodes.instanceof_Declaration n then
    match nodes.Declaration_getValue n with
    | None => false
    | Some _ =>
        match nodes.Declaration_getProperty n with
        | None => false
        | Some property =>
            match nodes.Property_getIdentifier property with
            | None => false
            | Some identifier => negb (nodes.Identifier_containsInterpolation identifier)
            end
        end
    end
  else false.

Definition visitHexColorValue (n : Node) (v : LintVisitor) : bool * LintVisitor :=
  let length := nodes.length n in
  if negb (length =? 9) && negb (length =? 7) && negb (length =? 5) && negb (length =? 4)
  then (false, addEntry n Rules.HexColorLength None v)
  else (false, v).

(** The callback [visitFunction] hands to [accept]: a binary expression is
    counted and not entered. *)
Definition countBinaryExpression (n : Node) (actualAttrCount : Z) : bool * Z :=
  if nodes.instanceof_BinaryExpression n
  then (false, actualAttrCount + 1)
  else (true, actualAttrCount).

Definition visitFunction (n : Node) (v : LintVisitor) : bool * LintVisitor :=
  let fnName := JS.toLowerCase (nodes.Function_getName (documentText v) n) in
  let expectedAttrCount :=
    if String.eqb fnName "rgb(" || String.eqb fnName "hsl(" then 3
    else if String.eqb fnName "rgba(" || String.eqb fnName "hsla(" then 4
    else -1 in
  if negb (expectedAttrCount =? -1) then
    let actualAttrCount :=
      nodes.accept countBinaryExpression (nodes.Function_getArguments n) 0 in
    if negb (actualAttrCount =? expectedAttrCount)
    then (true, addEntry n Rules.ArgsInColorFunction None v)
    else (true, v)
  else (true, v).

Definition visitFontFace (n : Node) (v : LintVisitor) : bool * LintVisitor :=
  match nodes.BodyDeclaration_getDeclarations n with
  | None => (false, v)
  | Some declarations =>
      let '(definesSrc, definesFontFamily, containsUnknowns) :=
        fold_left
          (fun (st : bool * bool * bool) (child : Node) =>
             let '(definesSrc, definesFontFamily, containsUnknowns) := st in
             if isCSSDeclaration child then
               let name :=
                 match nodes.Declaration_getProperty child with
                 | Some property => JS.toLowerCase (nodes.Property_getName property)
                 | None => "" (* isCSSDeclaration: the property is there *)
                 end in
               (if String.eqb name "src" then true else definesSrc,
                if String.eqb name "font-family" then true else definesFontFamily,
                containsUnknowns)
             else (definesSrc, definesFontFamily, true))
          (nodes.getChildren declarations) (false, false, false) in
      if negb containsUnknowns && (negb definesSrc || negb definesFontFamily)
      then (true, addEntry n Rules.RequiredPropertiesForFontFace None v)
      else (true, v)
  end.

(** ** The visits that call into imported helpers *)

Section Imported.

(** [calculateBoxModel] of services/lintUtil and [union] of utils/arrays. *)
Variable calculateBoxModel : list Element -> BoxModel.
Variable union : list Element -> list Element -> list Element.

(** [languageFacts.units.length], the table of length units, and the test
    [parseFloat(s) === 0.0]. *)
Variable units_length : list string.
Variable parseFloat_is_zero : string -> bool.

(** The property table: an [Element] for every child of the declarations
    node that is a [Declaration], in order. *)
Definition propertyTable_of (declarations : Node) : list Element :=
  fold_left
    (fun (propertyTable : list Element) (element : Node) =>
       if nodes.instanceof_Declaration element
       then propertyTable ++ [new_Element (List.length propertyTable) element]
       else propertyTable)
    (nodes.getChildren declarations) [].

(** Beware of box-model size: run once for [width] with the right and left
    sides and once for [height] with the top and bottom sides. *)
Definition bewareOfBoxModelSize (dimension : option Element) (first second : BoxSide)
    (v : LintVisitor) : LintVisitor :=
  match dimension with
  | Some dim =>
      let properties : list Element := [] in
      let properties :=
        if side_value first then union properties (side_properties first) else properties in
      let properties :=
        if side_value second then union properties (side_properties second) else properties in
      if negb (List.length properties =? 0)%nat then
        let v :=
          fold_left
            (fun v item => addEntry (node item) Rules.BewareOfBoxModelSize None v)
            properties v in
        addEntry (node dim) Rules.BewareOfBoxModelSize None v
      else v
  | None => v
  end.

(** Properties ignored due to display. *)
Definition propertyIgnoredDueToDisplay (propertyTable : list Element) (v : LintVisitor)
    : LintVisitor :=
  let displayElems := fetchWithValue v propertyTable "display" "inline-block" in
  let v :=
    if (0 <? List.length displayElems)%nat then
      fold_left
        (fun v elem =>
           let n := node elem in
           match nodes.Declaration_getValue n with
           | Some value =>
               if negb (nodes.matches (documentText v) value "none") then
                 addEntry n Rules.PropertyIgnoredDueToDisplay
                   (Some (nls.localize "rule.propertyIgnoredDueToDisplayInlineBlock"
                      "inline-block is ignored due to the float. If 'float' has a value other than 'none', the box is floated and 'display' is treated as 'block'"
                      [])) v
               else v
           | None => v
           end)
        (fetch propertyTable "float") v
    else v in
  let displayElems := fetchWithValue v propertyTable "display" "block" in
  if (0 <? List.length displayElems)%nat then
    fold_left
      (fun v elem =>
         addEntry (node elem) Rules.PropertyIgnoredDueToDisplay
           (Some (nls.localize "rule.propertyIgnoredDueToDisplayBlock"
              "Property is ignored due to the display. With 'display: block', vertical-align should not be used."
              [])) v)
      (fetch propertyTable "vertical-align") v
  else v.

(** Avoid 'float'. *)
Definition avoidFloat (propertyTable : list Element) (v : LintVisitor) : LintVisitor :=
  fold_left
    (fun v element =>
       if negb (isValidPropertyDeclaration v element)
       then addEntry (node element) Rules.AvoidFloat None v
       else v)
    (fetch propertyTable "float") v.

(** [value && this.documentText.charAt(value.offset) !== '-'] for the value
    of a declaration. *)
Definition valueNotDashed (v : LintVisitor) (decl : Node) : bool :=
  match nodes.Declaration_getValue decl with
  | Some value => negb (String.eqb (JS.charAt (documentText v) (nodes.offset value)) "-")
  | None => false
  end.

(** Don't use duplicate declarations. *)
Definition duplicateDeclarations (propertyTable : list Element) (v : LintVisitor)
    : LintVisitor :=
  fold_left
    (fun v element =>
       if negb (String.eqb (fullPropertyName element) "background")
          && negb (isValid v (fullPropertyName element)) then
         if valueNotDashed v (node element) then
           let elements := fetch propertyTable (fullPropertyName element) in
           if (1 <? List.length elements)%nat then
             fold_left
               (fun v ek =>
                  if valueNotDashed v (node ek) && negb (ref ek =? ref element)%nat
                  then addEntry (node element) Rules.DuplicateDeclarations None v
                  else v)
               elements v
           else v
         else v
       else v)
    propertyTable v.

(** What the loop over the property table carries in the last part of
    [visitRuleSet]. *)
Record VendorState : Type :=
  {
    vs_visitor : LintVisitor;
    propertiesBySuffix : NodesByRootMap.t;
    containsUnknowns : bool
  }.

(** [addEntry(decl.getProperty()!, rule, details)] *)
Definition addEntry_property (decl : Node) (rule : Rule) (details : option string)
    (v : LintVisitor) : LintVisitor :=
  match nodes.Declaration_getProperty decl with
  | Some property => addEntry property rule details v
  | None => v (* isCSSDeclaration: the property is there *)
  end.

Definition checkProperty (st : VendorState) (element : Element) : VendorState :=
  let v := vs_visitor st in
  let decl := node element in
  if isCSSDeclaration decl then
    let name := fullPropertyName element in
    let firstChar := JS.charAt name 0 in
    if String.eqb firstChar "-" then
      if negb (String.eqb (JS.charAt name 1) "-") then
        let v :=
          if negb (isKnownProperty (cssDataManager v) name) && negb (isValid v name)
          then addEntry_property decl Rules.UnknownVendorSpecificProperty None v
          else v in
        let nonPrefixedName := nodes.Declaration_getNonPrefixedPropertyName decl in
        {| vs_visitor := v;
           propertiesBySuffix :=
             NodesByRootMap.add nonPrefixedName name (nodes.Declaration_getProperty decl)
               (propertiesBySuffix st);
           containsUnknowns := containsUnknowns st |}
      else st
    else
      let fullName := name in
      let hack := String.eqb firstChar "*" || String.eqb firstChar "_" in
      let v := if hack then addEntry_property decl Rules.IEStarHack None v else v in
      let name := if hack then JS.substr_from name 1 else name in
      let v :=
        if negb (isKnownProperty (cssDataManager v) fullName)
           && negb (isKnownProperty (cssDataManager v) name) then
          if negb (isValid v name) then
            addEntry_property decl Rules.UnknownProperty
              (Some (nls.localize "property.unknownproperty.detailed"
                 "Unknown property: '{0}'" [nodes.Declaration_getFullPropertyName decl])) v
          else v
        else v in
      {| vs_visitor := v;
         propertiesBySuffix := NodesByRootMap.add name name None (propertiesBySuffix st);
         containsUnknowns := containsUnknowns st |}
  else
    {| vs_visitor := v;
       propertiesBySuffix := propertiesBySuffix st;
       containsUnknowns := true |}.

(** The vendor-specific names expected beside [suffix]. *)
Definition expectedNames (v : LintVisitor) (suffix : string) : list string :=
  fold_left
    (fun expected prefix =>
       if isStandardProperty (cssDataManager v) (prefix +:+ suffix)
       then expected ++ [prefix +:+ suffix]
       else expected)
    prefixes [].

(** The body of the loop over the roots of [propertiesBySuffix]. *)
Definition checkRoot (v : LintVisitor) (item : string * NodesByRootMap.Entry) : LintVisitor :=
  let suffix := fst item in
  let entry := snd item in
  let actual := NodesByRootMap.names entry in
  let needsStandard :=
    isStandardProperty (cssDataManager v) suffix && (JS.indexOf actual suffix =? -1) in
  if negb needsStandard && (List.length actual =? 1)%nat then v (* continue *)
  else
    let expected := expectedNames v suffix in
    let missingVendorSpecific := getMissingNames expected actual in
    let missing_truthy :=
      match missingVendorSpecific with Some m => JS.truthy m | None => false end in
    if missing_truthy || needsStandard then
      fold_left
        (fun v n =>
           let v :=
             if needsStandard then
               addEntry n Rules.IncludeStandardPropertyWhenUsingVendorPrefix
                 (Some (nls.localize "property.standard.missing"
                    "Also define the standard property '{0}' for compatibility" [suffix])) v
             else v in
           match missingVendorSpecific with
           | Some m =>
               if JS.truthy m then
                 addEntry n Rules.AllVendorPrefixes
                   (Some (nls.localize "property.vendorspecific.missing"
                      "Always include all vendor specific properties: Missing: {0}" [m])) v
               else v
           | None => v
           end)
        (NodesByRootMap.nodes entry) v
    else v.

(** Unknown property, and: when using a vendor-prefixed property, use them
    all. *)
Definition vendorPrefixes (n : Node) (propertyTable : list Element) (v : LintVisitor)
    : LintVisitor :=
  let isExportBlock := nodes.matches (documentText v) (nodes.RuleSet_getSelectors n) ":export" in
  if negb isExportBlock then
    let st :=
      fold_left checkProperty propertyTable
        {| vs_visitor := v;
           propertiesBySuffix := NodesByRootMap.empty;
           containsUnknowns := false |} in
    if negb (containsUnknowns st)
    then fold_left checkRoot (JSObject.enumerate (propertiesBySuffix st)) (vs_visitor st)
    else vs_visitor st
  else v.

Definition visitRuleSet (n : Node) (v : LintVisitor) : bool * LintVisitor :=
  match nodes.BodyDeclaration_getDeclarations n with
  | None => (false, v) (* syntax error *)
  | Some declarations =>
      let v :=
        if negb (nodes.hasChildren declarations)
        then addEntry (nodes.RuleSet_getSelectors n) Rules.EmptyRuleSet None v
        else v in
      let propertyTable := propertyTable_of declarations in
      let boxModel := calculateBoxModel propertyTable in
      let v := bewareOfBoxModelSize (width boxModel) (right boxModel) (left boxModel) v in
      let v := bewareOfBoxModelSize (height boxModel) (top boxModel) (bottom boxModel) v in
      let v := propertyIgnoredDueToDisplay propertyTable v in
      let v := avoidFloat propertyTable v in
      let v := duplicateDeclarations propertyTable v in
      let v := vendorPrefixes n propertyTable v in
      (true, v)
  end.

Definition visitNumericValue (n : Node) (ancestors : list Node) (v : LintVisitor)
    : bool * LintVisitor :=
  let funcDecl := nodes.findParent n ancestors nodes.Function in
  let inCalc :=
    match funcDecl with
    | Some f => String.eqb (nodes.Function_getName (documentText v) f) "calc"
    | None => false
    end in
  if inCalc then (true, v)
  else
    match nodes.findParent n ancestors nodes.Declaration with
    | Some decl =>
        match nodes.Declaration_getValue decl with
        | Some declValue =>
            let value := nodes.NumericValue_getValue n in
            let unit_truthy :=
              match nodes.unit value with Some u => JS.truthy u | None => false end in
            let unit_lower :=
              match nodes.unit value with Some u => JS.toLowerCase u | None => "" end in
            if negb unit_truthy || (JS.indexOf units_length unit_lower =? -1) then (true, v)
            else if parseFloat_is_zero (nodes.value value) && unit_truthy
                    && negb (isValid v (nodes.Declaration_getFullPropertyName decl))
            then (true, addEntry n Rules.ZeroWithUnit None v)
            else (true, v)
        | None => (true, v)
        end
    | None => (true, v)
    end.

Definition visitNode (n : Node) (ancestors : list Node) (v : LintVisitor)
    : bool * LintVisitor :=
  match nodes.type n with
  | nodes.UnknownAtRule => visitUnknownAtRule n v
  | nodes.Keyframe => visitKeyframe n v
  | nodes.FontFace => visitFontFace n v
  | nodes.Ruleset => visitRuleSet n v
  | nodes.SimpleSelector => visitSimpleSelector n v
  | nodes.Function => visitFunction n v
  | nodes.NumericValue => visitNumericValue n ancestors v
  | nodes.Import => visitImport n v
  | nodes.HexColorValue => visitHexColorValue n v
  | nodes.Prio => visitPrio n v
  | nodes.IdentifierSelector => visitIdentifierSelector n v
  | _ => (true, v)
  end.

(** [node.acceptVisitor(visitor)]: the depth-first walk; every node is
    visited together with its parent chain (the parent first), which stands
    for its [parent] link. *)
Fixpoint acceptVisitor (n : Node) (ancestors : list Node) (v : LintVisitor) : LintVisitor :=
  let '(descend, v1) := visitNode n ancestors v in
  if descend then
    (fix accept_children (cs : list Node) (v : LintVisitor) : LintVisitor :=
       match cs with
       | [] => v
       | c :: cs' => accept_children cs' (acceptVisitor c (n :: ancestors) v)
       end) (nodes.children n) v1
  else v1.

(** [LintVisitor.entries] *)
Definition entries (n : Node) (text : string) (settings : LintConfigurationSettings)
    (cssDataManager : CSSDataManager) (entryFilter : option Z) : list Marker :=
  let visitor := new_LintVisitor text settings cssDataManager in
  let visitor := acceptVisitor n [] visitor in
  let visitor := completeValidations visitor in
  getEntries visitor
    (match entryFilter with Some f => f | None => nodes.Level_default_filter end).

End Imported.

(** ** Notions the properties are stated with *)

(** A severity mask holds a level when they share a bit (as integers, with
    no conversion to 32 bits). *)
Definition mask_has (M : Z) (l : Level) : Prop := Z.land (nodes.Level_value l) M <> 0.

#[global] Instance mask_has_dec M l : Decision (mask_has M l).
Proof. unfold mask_has. apply _. Defined.

(** The markers of one rule, in order. *)
Definition markersOf (rule : Rule) (ws : list Marker) : list Marker :=
  List.filter (fun m => bool_decide (nodes.getRule m = rule)) ws.

(** The missing names as the specification words them: the expected
    names, in their order, that no actual name is left to match; an actual
    name matches one expected name at most. *)
Fixpoint remove_first (x : string) (l : list string) : option (list string) :=
  match l with
  | [] => None
  | y :: r =>
      if String.eqb y x then Some r
      else match remove_first x r with
           | Some r' => Some (y :: r')
           | None => None
           end
  end.

Fixpoint missingNames (expected actual : list string) : list string :=
  match expected with
  | [] => []
  | e :: expected' =>
      match remove_first e actual with
      | Some actual' => missingNames expected' actual'
      | None => e :: missingNames expected' actual
      end
  end.

(** The list as the specification words it: the first name quoted alone,
    every further name appended after a comma, quoted. *)
Definition renderNames (missing : list string) : option string :=
  match missing with
  | [] => None
  | first :: rest =>
      Some (fold_left (fun prior next => prior +:+ ", '" +:+ next +:+ "'") rest
              ("'" +:+ first +:+ "'"))
  end.

Definition getMissingNames_spec (expected actual : list string) : option string :=
  renderNames (missingNames expected actual).

(** The names a clone of the expected names still holds, and a list
    without the first occurrence of a name. *)
Fixpoint survivors (clone : list (option string)) : list string :=
  match clone with
  | [] => []
  | Some x :: r => x :: survivors r
  | None :: r => survivors r
  end.

Definition remove1 (x : string) (l : list string) : list string :=
  default l (remove_first x l).

(** The binary expressions below a node that no other binary expression
    encloses: a binary expression counts for one, whatever it holds. *)
Fixpoint outermostBinaryExpressions (n : Node) : Z :=
  if nodes.instanceof_BinaryExpression n then 1
  else
    (fix sum (cs : list Node) : Z :=
       match cs with
       | [] => 0
       | c :: cs' => outermostBinaryExpressions c + sum cs'
       end) (nodes.children n).

(** The argument count a color function is held to, by its lower-cased
    name. *)
Definition expectedColorArguments (fnName : string) : option Z :=
  if bool_decide (fnName ∈ ["rgb("; "hsl("]) then Some 3
  else if bool_decide (fnName ∈ ["rgba("; "hsla("]) then Some 4
  else None.

(** The visitor after it has added the markers [ms]. *)
Definition emit (v : LintVisitor) (ms : list Marker) : LintVisitor :=
  set_warnings v (warnings v ++ ms).

(** A pass [f] adds markers that satisfy [Q] and nothing else. *)
Definition adds (Q : Marker -> Prop) (f : LintVisitor -> LintVisitor) : Prop :=
  forall v, exists ms, f v = emit v ms /\ Forall Q ms.

(** A marker of one of the rules [rs]. *)
Definition ruleIn (rs : list Rule) (m : Marker) : Prop := nodes.getRule m ∈ rs.

(** The rules of the passes of [visitRuleSet] that run before the
    duplicate check. *)
Definition earlyRules : list Rule :=
  [Rules.EmptyRuleSet; Rules.BewareOfBoxModelSize; Rules.PropertyIgnoredDueToDisplay;
   Rules.AvoidFloat].

(** The rules of the last part of [visitRuleSet]. *)
Definition vendorRules : list Rule :=
  [Rules.UnknownVendorSpecificProperty; Rules.IEStarHack; Rules.UnknownProperty;
   Rules.IncludeStandardPropertyWhenUsingVendorPrefix; Rules.AllVendorPrefixes].

(** A declaration the duplicate check looks at: not [background],
    nothing truthy under its name in [validProperties], its value not
    starting with a dash. *)
Definition flaggable (v : LintVisitor) (e : Element) : bool :=
  negb (String.eqb (fullPropertyName e) "background")
  && negb (isValid v (fullPropertyName e))
  && valueNotDashed v (node e).

(** The declarations of a block with a given name whose value does not
    start with a dash. *)
Definition sameName (v : LintVisitor) (table : list Element) (name : string)
    : list Element :=
  List.filter
    (fun ek => String.eqb (fullPropertyName ek) name && valueNotDashed v (node ek))
    table.

(** Those of them that are another object than [e]. *)
Definition rivals (v : LintVisitor) (table : list Element) (e : Element) : list Element :=
  List.filter (fun ek => negb (ref ek =? ref e)%nat) (sameName v table (fullPropertyName e)).

(** The duplicate markers of a block: for every declaration looked at, in
    order, one marker on it for each of its rivals. *)
Definition duplicateMarkers (v : LintVisitor) (table : list Element) : list Marker :=
  flat_map
    (fun e =>
       if flaggable v e then
         List.map
           (fun _ => mkMarker (node e) Rules.DuplicateDeclarations
                       (getRule (settings v) Rules.DuplicateDeclarations) None)
           (rivals v table e)
       else [])
    table.

Definition INumericValue_eq_dec (a b : nodes.INumericValue) : {a = b} + {a <> b}.
Proof. decide equality; [apply (option_eq_dec (A:=string)) | apply string_dec]. Defined.

Definition Class_eq_dec {N} (dec : forall x y : N, {x = y} + {x <> y}) (a b : Class N) :
  {a = b} + {a <> b}.
Proof.
  decide equality; try apply string_dec; try apply Bool.bool_dec;
    try apply INumericValue_eq_dec; try (decide equality).
Defined.

Fixpoint Node_eq_dec (a b : Node) {struct a} : {a = b} + {a <> b}.
Proof.
  destruct a as [t o l cs c], b as [t' o' l' cs' c'].
  destruct (decide (t = t')) as [<-|]; [|right; congruence].
  destruct (Z.eq_dec o o') as [<-|]; [|right; congruence].
  destruct (Z.eq_dec l l') as [<-|]; [|right; congruence].
  destruct (List.list_eq_dec Node_eq_dec cs cs') as [<-|]; [|right; congruence].
  destruct (Class_eq_dec Node_eq_dec c c') as [<-|]; [|right; congruence].
  left; reflexivity.
Defined.

#[global] Instance Node_EqDecision : EqDecision Node := Node_eq_dec.

(** The markers of one rule on one node. *)
Definition markersOn (rule : Rule) (n : Node) (ws : list Marker) : list Marker :=
  List.filter
    (fun m => bool_decide (nodes.getRule m = rule) && bool_decide (nodes.getNode m = n))
    ws.

(** ** Sample documents *)

Definition sample_settings : LintConfigurationSettings :=
  {| getRule := fun _ => nodes.Warning; getSetting_ValidProperties := None |}.

(** A knowledge base given by its tables. *)
Definition sample_data (known standard atDirectives : list string) : CSSDataManager :=
  {| isKnownProperty := fun name => bool_decide (name ∈ known);
     isStandardProperty := fun name => bool_decide (name ∈ standard);
     getAtDirective := fun name =>
       if bool_decide (name ∈ atDirectives)
       then Some {| at_name := name; at_description := None |}
       else None |}.

(** [@foo { }]: an at-rule the parser does not know, its name the first
    child. *)
Definition atfoo_text : string := "@foo { }".
Definition atfoo_name : Node := mkNode nodes.Undefined 0 4 [] nodes.CNode.
Definition atfoo_rule : Node := mkNode nodes.UnknownAtRule 0 8 [atfoo_name] nodes.CNode.
Definition atfoo_visitor : LintVisitor :=
  new_LintVisitor atfoo_text sample_settings (sample_data [] [] ["@media"]).

Definition atfoo_known_visitor : LintVisitor :=
  new_LintVisitor atfoo_text sample_settings (sample_data [] [] ["@foo"]).

(** Builders for the value trees of the samples: a number is a term in a
    binary expression. *)
Definition sample_number (offset length : Z) (value : string) (unit : option string) : Node :=
  mkNode nodes.BinaryExpression offset length
    [mkNode nodes.Term offset length
       [mkNode nodes.NumericValue offset length []
          (nodes.CNumericValue {| nodes.value := value; nodes.unit := unit |})]
       nodes.CNode]
    nodes.CBinaryExpression.

(** A function argument holding one number. *)
Definition sample_argument (offset length : Z) (value : string) : Node :=
  mkNode nodes.FunctionArgument offset length
    [mkNode nodes.Expression offset length [sample_number offset length value None]
       nodes.CNode]
    nodes.CNode.

(** A function node: its identifier (the first [nameLength] characters)
    and its argument list (from [argsOffset] to the closing parenthesis)
    are its children. *)
Definition sample_function (offset length nameLength argsOffset : Z) (args : list Node)
    : Node :=
  let identifier := mkNode nodes.Identifier offset nameLength [] (nodes.CIdentifier false) in
  let arguments :=
    mkNode nodes.Nodelist argsOffset (offset + length - 1 - argsOffset) args nodes.CNode in
  mkNode nodes.Function offset length [identifier; arguments]
    (nodes.CFunction (Some identifier) arguments).

(** Color functions as the parser builds them: the identifier of a
    function is its name, without the parenthesis that follows, so that
    [getName()] is [rgb] and [rgba] (as it is [calc] for the function
    [visitNumericValue] looks for). *)
Definition rgb123_text : string := "rgb(1,2,3)".
Definition rgb123 : Node :=
  sample_function 0 10 3 4
    [sample_argument 4 1 "1"; sample_argument 6 1 "2"; sample_argument 8 1 "3"].

Definition rgb12_text : string := "rgb(1,2)".
Definition rgb12 : Node :=
  sample_function 0 8 3 4 [sample_argument 4 1 "1"; sample_argument 6 1 "2"].

Definition rgba123_text : string := "rgba(1,2,3)".
Definition rgba123 : Node :=
  sample_function 0 11 4 5
    [sample_argument 5 1 "1"; sample_argument 7 1 "2"; sample_argument 9 1 "3"].

(** [rgb(1+2,3,4)]: the sum is a binary expression around the binary
    expression of its left operand. *)
Definition rgb_sum_text : string := "rgb(1+2,3,4)".
Definition rgb_sum : Node :=
  sample_function 0 12 3 4
    [mkNode nodes.FunctionArgument 4 3
       [mkNode nodes.Expression 4 3
          [mkNode nodes.BinaryExpression 4 3
             [sample_number 4 1 "1" None;
              mkNode nodes.Operator 5 1 [] nodes.CNode;
              mkNode nodes.Term 6 1
                [mkNode nodes.NumericValue 6 1 []
                   (nodes.CNumericValue {| nodes.value := "2"; nodes.unit := None |})]
                nodes.CNode]
             nodes.CBinaryExpression]
          nodes.CNode]
       nodes.CNode;
     sample_argument 8 1 "3"; sample_argument 10 1 "4"].

Definition sample_visitor (text : string) : LintVisitor :=
  new_LintVisitor text sample_settings (sample_data [] [] []).

(** A node inside a tree, reached by child indices from the root,
    together with its parent chain (the parent first). *)
Fixpoint nodeAt (path : list nat) (n : Node) (ancestors : list Node) : Node * list Node :=
  match path with
  | [] => (n, ancestors)
  | i :: path' =>
      match nodes.children n !! i with
      | Some c => nodeAt path' c (n :: ancestors)
      | None => (n, ancestors)
      end
  end.

(** A value that is one term: a number, an identifier or a function. *)
Definition sample_term (inner : Node) : Node :=
  mkNode nodes.BinaryExpression (nodes.offset inner) (nodes.length inner)
    [mkNode nodes.Term (nodes.offset inner) (nodes.length inner) [inner] nodes.CNode]
    nodes.CBinaryExpression.

Definition sample_identifier (offset length : Z) : Node :=
  mkNode nodes.Identifier offset length [] (nodes.CIdentifier false).

Definition sample_value (offset length : Z) (terms : list Node) : Node :=
  mkNode nodes.Expression offset length terms nodes.CNode.

(** A declaration: its property (an identifier of [nameLength]
    characters) and its value are its children. *)
Definition sample_declaration (offset length nameLength : Z) (fullName : string)
    (value : Node) : Node :=
  let identifier := sample_identifier offset nameLength in
  let property :=
    mkNode nodes.Property offset nameLength [identifier]
      (nodes.CProperty (Some identifier) fullName) in
  mkNode nodes.Declaration offset length [property; value]
    (nodes.CDeclaration (Some property) (Some value) fullName).

(** A rule set [.a { ... }]: the selector list (one class selector of
    [selectorLength] characters) and the declarations are its children. *)
Definition sample_ruleset (offset length selectorLength : Z) (decls : list Node) : Node :=
  let selectors :=
    mkNode nodes.Nodelist offset selectorLength
      [mkNode nodes.Selector offset selectorLength
         [mkNode nodes.SimpleSelector offset selectorLength
            [mkNode nodes.ClassSelector offset selectorLength [] nodes.CNode]
            nodes.CNode]
         nodes.CNode]
      nodes.CNode in
  let declarations :=
    mkNode nodes.Declarations (offset + selectorLength + 1) (length - selectorLength - 1)
      decls nodes.CDeclarations in
  mkNode nodes.Ruleset offset length [selectors; declarations]
    (nodes.CRuleSet selectors (Some declarations)).

(** Length units and numerals for the samples: [sample_is_zero] knows a
    few numerals that [parseFloat] reads as zero. *)
Definition sample_units : list string := ["em"; "px"; "pt"; "cm"].
Definition sample_is_zero (s : string) : bool := bool_decide (s ∈ ["0"; "0.0"; ".0"; "00"]).

(** [.a { width: 0px; }] *)
Definition zero_plain_text : string := ".a { width: 0px; }".
Definition zero_plain : Node :=
  sample_ruleset 0 18 2
    [sample_declaration 5 10 5 "width"
       (sample_value 12 3 [sample_number 12 3 "0" (Some "px")])].

(** [.a { width: calc(0px + 1px); }]: the sum is the one argument of
    [calc], whose [getName()] is [calc]. *)
Definition zero_calc_text : string := ".a { width: calc(0px + 1px); }".
Definition zero_calc : Node :=
  sample_ruleset 0 30 2
    [sample_declaration 5 22 5 "width"
       (sample_value 12 15
          [sample_term
             (sample_function 12 15 4 17
                [mkNode nodes.FunctionArgument 17 9
                   [sample_value 17 9
                      [mkNode nodes.BinaryExpression 17 9
                         [sample_number 17 3 "0" (Some "px");
                          mkNode nodes.Operator 21 1 [] nodes.CNode;
                          mkNode nodes.Term 23 3
                            [mkNode nodes.NumericValue 23 3 []
                               (nodes.CNumericValue
                                  {| nodes.value := "1"; nodes.unit := Some "px" |})]
                            nodes.CNode]
                         nodes.CBinaryExpression]]
                   nodes.CNode])])].



(** Stand-ins for the imported helpers: no box-model finding, and the
    union by object identity. *)
Definition sample_calculateBoxModel (_ : list Element) : BoxModel :=
  let none := {| side_value := false; side_properties := [] |} in
  {| width := None; height := None; top := none; right := none;
     bottom := none; left := none |}.

Definition sample_union (a b : list Element) : list Element :=
  fold_left
    (fun result item =>
       if existsb (fun x => (ref x =? ref item)%nat) result then result
       else result ++ [item])
    b a.

(** [.a { color: red; color: blue; }] *)
Definition red_blue_text : string := ".a { color: red; color: blue; }".
Definition red_blue_1 : Node :=
  sample_declaration 5 10 5 "color"
    (sample_value 12 3 [sample_term (sample_identifier 12 3)]).
Definition red_blue_2 : Node :=
  sample_declaration 17 11 5 "color"
    (sample_value 24 4 [sample_term (sample_identifier 24 4)]).
Definition red_blue : Node := sample_ruleset 0 31 2 [red_blue_1; red_blue_2].

(** [.a { color: red; color: -blue; }] *)
Definition red_dash_text : string := ".a { color: red; color: -blue; }".
Definition red_dash_2 : Node :=
  sample_declaration 17 12 5 "color"
    (sample_value 24 5 [sample_term (sample_identifier 24 5)]).
Definition red_dash : Node := sample_ruleset 0 32 2 [red_blue_1; red_dash_2].

(** [.a { color: red; color: blue; color: green; }] *)
Definition three_colors_text : string := ".a { color: red; color: blue; color: green; }".
Definition three_colors_3 : Node :=
  sample_declaration 30 12 5 "color"
    (sample_value 37 5 [sample_term (sample_identifier 37 5)]).
Definition three_colors : Node :=
  sample_ruleset 0 45 2 [red_blue_1; red_blue_2; three_colors_3].

(** [.a { -s2-foo: 1; foo: 1; }], [.a { -s2-foo: 1; }] and
    [:export { -s2-foo: 1; }] *)
Definition s2foo_foo_text : string := ".a { -s2-foo: 1; foo: 1; }".
Definition s2foo_decl : Node :=
  sample_declaration 5 10 7 "-s2-foo" (sample_value 14 1 [sample_number 14 1 "1" None]).
Definition foo_decl : Node :=
  sample_declaration 17 6 3 "foo" (sample_value 22 1 [sample_number 22 1 "1" None]).
Definition s2foo_foo : Node := sample_ruleset 0 26 2 [s2foo_decl; foo_decl].

Definition s2foo_text : string := ".a { -s2-foo: 1; }".
Definition s2foo : Node := sample_ruleset 0 18 2 [s2foo_decl].

Definition export_text : string := ":export { -s2-foo: 1; }".
Definition export_decl : Node :=
  sample_declaration 10 10 7 "-s2-foo" (sample_value 19 1 [sample_number 19 1 "1" None]).
Definition export_block : Node := sample_ruleset 0 23 7 [export_decl].

(** [:export { constructor: red; constructor: blue; }] *)
Definition export_constructors_text : string :=
  ":export { constructor: red; constructor: blue; }".
Definition export_constructors_declarations : Node :=
  mkNode nodes.Declarations 8 40
    [sample_declaration 10 16 11 "constructor"
       (sample_value 23 3 [sample_term (sample_identifier 23 3)]);
     sample_declaration 28 17 11 "constructor"
       (sample_value 41 4 [sample_term (sample_identifier 41 4)])]
    nodes.CDeclarations.
Definition export_constructors : Node :=
  sample_ruleset 0 48 7
    [sample_declaration 10 16 11 "constructor"
       (sample_value 23 3 [sample_term (sample_identifier 23 3)]);
     sample_declaration 28 17 11 "constructor"
       (sample_value 41 4 [sample_term (sample_identifier 41 4)])].

(** A visitor whose knowledge base knows [foo] and [-s2-foo] as standard
    properties. *)
Definition foo_visitor (text : string) : LintVisitor :=
  new_LintVisitor text sample_settings
    (sample_data ["foo"; "-s2-foo"; "color"] ["foo"; "-s2-foo"] []).

(** [#abcde] and [#abc]; the first is given a child that would be flagged
    if it were visited. *)
Definition hex_color_text : string := "#abcde".
Definition hex_color : Node :=
  mkNode nodes.HexColorValue 0 6 [mkNode nodes.IdentifierSelector 0 6 [] nodes.CNode]
    nodes.CNode.
Definition hex_short_text : string := "#abc".
Definition hex_short : Node := mkNode nodes.HexColorValue 0 4 [] nodes.CNode.

(** A knowledge base for whole-document runs. *)
Definition sample_knowledge : CSSDataManager :=
  sample_data ["width"; "color"; "foo"; "-s2-foo"] ["foo"; "-s2-foo"] [].

(** A marker shown by its rule and the text of its node. *)
Definition showMarkers (text : string) (ms : list Marker) : list (Rule * string) :=
  List.map (fun m => (nodes.getRule m, nodes.getText text (nodes.getNode m))) ms.

(** ** Notions of the further properties *)

(** The own entry of a root in a grouping index, and the roots in the
    order they were created. *)
Definition index_lookup (root : string) (data : NodesByRootMap.t)
    : option NodesByRootMap.Entry :=
  option_map snd (List.find (fun item => String.eqb (fst item) root) data).

Definition index_roots (data : NodesByRootMap.t) : list string := List.map fst data.

(** The entry a root has before anything was added under it. *)
Definition index_fresh : NodesByRootMap.Entry :=
  {| NodesByRootMap.nodes := []; NodesByRootMap.names := [] |}.

(** A sequence of calls of [add] on a new index. *)
Definition index_of_calls (calls : list (string * string * option Node)) : NodesByRootMap.t :=
  fold_left
    (fun data call => NodesByRootMap.add (fst (fst call)) (snd (fst call)) (snd call) data)
    calls NodesByRootMap.empty.

(** The nodes of a tree in document order: a node, then the nodes of its
    children. *)
Fixpoint subtree (n : Node) : list Node :=
  n :: (fix below (cs : list Node) : list Node :=
          match cs with
          | [] => []
          | c :: cs' => subtree c ++ below cs'
          end) (nodes.children n).

(** An identifier node that is literally [val]. *)
Definition isIdentifier (text : string) (val : string) (n : Node) : bool :=
  bool_decide (nodes.type n = nodes.Identifier) && nodes.matches text n val.

(** The lower-cased name of the property of a declaration, as
    [visitFontFace] reads it, and whether a genuine declaration of a list
    has that name. *)
Definition propertyNameOf (decl : Node) : string :=
  match nodes.Declaration_getProperty decl with
  | Some property => JS.toLowerCase (nodes.Property_getName property)
  | None => ""
  end.

Definition definesProperty (name : string) (children : list Node) : bool :=
  existsb (fun c => isCSSDeclaration c && String.eqb (propertyNameOf c) name) children.

(** [@font-face { src: url(a); }] *)
Definition fontface_text : string := "@font-face { src: url(a); }".
Definition fontface_src : Node :=
  mkNode nodes.Declaration 13 11
    [mkNode nodes.Property 13 3 [sample_identifier 13 3]
       (nodes.CProperty (Some (sample_identifier 13 3)) "src");
     sample_value 18 6 [sample_term (mkNode nodes.Undefined 18 6 [] nodes.CNode)]]
    (nodes.CDeclaration
       (Some (mkNode nodes.Property 13 3 [sample_identifier 13 3]
                (nodes.CProperty (Some (sample_identifier 13 3)) "src")))
       (Some (sample_value 18 6 [sample_term (mkNode nodes.Undefined 18 6 [] nodes.CNode)]))
       "src").
Definition fontface_declarations : Node :=
  mkNode nodes.Declarations 11 16 [fontface_src] nodes.CDeclarations.
Definition fontface : Node :=
  mkNode nodes.FontFace 0 27 [fontface_declarations]
    (nodes.CFontFace (Some fontface_declarations)).

(** [.a { width: 0; }] and [.a { width: 1px; }] *)
Definition zero_bare_text : string := ".a { width: 0; }".
Definition zero_bare : Node :=
  sample_ruleset 0 16 2
    [sample_declaration 5 8 5 "width" (sample_value 12 1 [sample_number 12 1 "0" None])].

Definition one_px_text : string := ".a { width: 1px; }".
Definition one_px : Node :=
  sample_ruleset 0 18 2
    [sample_declaration 5 10 5 "width"
       (sample_value 12 3 [sample_number 12 3 "1" (Some "px")])].

(** [.a { display: inline-block; float: left; }] as identifier values. *)
Definition inline_float_text : string := ".a { display: inline-block; float: left; }".
Definition inline_float_display : Node :=
  sample_declaration 5 21 7 "display"
    (sample_value 14 12 [sample_term (sample_identifier 14 12)]).
Definition inline_float_float : Node :=
  sample_declaration 28 11 5 "float"
    (sample_value 35 4 [sample_term (sample_identifier 35 4)]).
Definition inline_float : Node :=
  sample_ruleset 0 42 2 [inline_float_display; inline_float_float].

(** What the passes of [visitRuleSet] add on a block with the property
    table [table], pass by pass: the marker of an empty block; *)
Definition emptyRuleSetMarkers (n declarations : Node) (v : LintVisitor) : list Marker :=
  match nodes.getChildren declarations with
  | [] =>
      [mkMarker (nodes.RuleSet_getSelectors n) Rules.EmptyRuleSet
         (getRule (settings v) Rules.EmptyRuleSet) None]
  | _ :: _ => []
  end.

(** the markers of one dimension of the box model: with a side that
    contributes, one on every declaration of the sides and one on the
    dimension; *)
Definition boxModelMarkers (union : list Element -> list Element -> list Element)
    (dimension : option Element) (first second : BoxSide) (v : LintVisitor) : list Marker :=
  let level := getRule (settings v) Rules.BewareOfBoxModelSize in
  match dimension with
  | Some dim =>
      let sides := if side_value first then union [] (side_properties first) else [] in
      let sides := if side_value second then union sides (side_properties second) else sides in
      match sides with
      | [] => []
      | _ :: _ =>
          List.map (fun item => mkMarker (node item) Rules.BewareOfBoxModelSize level None) sides
          ++ [mkMarker (node dim) Rules.BewareOfBoxModelSize level None]
      end
  | None => []
  end.

(** whether a declaration of the table is named [name] and has the
    identifier [val] in its value; *)
Definition declares (v : LintVisitor) (table : list Element) (name val : string) : bool :=
  existsb
    (fun e =>
       String.eqb (fullPropertyName e) name
       && existsb (isIdentifier (documentText v) val)
            (match nodes.Declaration_getValue (node e) with
             | Some expression => subtree expression
             | None => []
             end))
    table.

(** the markers of the display check: beside [display: inline-block], one
    on every [float] whose value is not [none]; beside [display: block],
    one on every [vertical-align]; *)
Definition displayMarkers (v : LintVisitor) (table : list Element) : list Marker :=
  let level := getRule (settings v) Rules.PropertyIgnoredDueToDisplay in
  (if declares v table "display" "inline-block" then
     List.map
       (fun e =>
          mkMarker (node e) Rules.PropertyIgnoredDueToDisplay level
            (Some "inline-block is ignored due to the float. If 'float' has a value other than 'none', the box is floated and 'display' is treated as 'block'"))
       (List.filter
          (fun e =>
             match nodes.Declaration_getValue (node e) with
             | Some value => negb (nodes.matches (documentText v) value "none")
             | None => false
             end)
          (fetch table "float"))
   else [])
  ++ (if declares v table "display" "block" then
        List.map
          (fun e =>
             mkMarker (node e) Rules.PropertyIgnoredDueToDisplay level
               (Some "Property is ignored due to the display. With 'display: block', vertical-align should not be used."))
          (fetch table "vertical-align")
      else []).

(** the markers on [float]: one on every declaration named [float],
    unless the name is declared valid. *)
Definition floatMarkers (v : LintVisitor) (table : list Element) : list Marker :=
  if isValid v "float" then []
  else
    List.map
      (fun e => mkMarker (node e) Rules.AvoidFloat (getRule (settings v) Rules.AvoidFloat) None)
      (fetch table "float").

(** [.a { }] *)
Definition empty_block_text : string := ".a { }".
Definition empty_block : Node := sample_ruleset 0 6 2 [].

(** [.a { width: 1px; padding: 2px; }], with a stand-in for
    [calculateBoxModel] that finds the width and the padding on its right
    and left sides. *)
Definition width_padding_text : string := ".a { width: 1px; padding: 2px; }".
Definition width_padding_width : Node :=
  sample_declaration 5 10 5 "width" (sample_value 12 3 [sample_number 12 3 "1" (Some "px")]).
Definition width_padding_padding : Node :=
  sample_declaration 17 12 7 "padding"
    (sample_value 26 3 [sample_number 26 3 "2" (Some "px")]).
Definition width_padding : Node :=
  sample_ruleset 0 32 2 [width_padding_width; width_padding_padding].

Definition width_padding_boxModel (table : list Element) : BoxModel :=
  let none := {| side_value := false; side_properties := [] |} in
  let padded := {| side_value := true; side_properties := fetch table "padding" |} in
  {| width := List.head (fetch table "width"); height := None; top := none;
     right := padded; bottom := none; left := padded |}.

(** The last part of [visitRuleSet], declaration by declaration: a marker
    on the property node of a declaration; *)
Definition onProperty (v : LintVisitor) (e : Element) (rule : Rule) (details : option string)
    : list Marker :=
  match nodes.Declaration_getProperty (node e) with
  | Some property => [mkMarker property rule (getRule (settings v) rule) details]
  | None => []
  end.

(** a name written with a star or underscore hack, and a name with a
    vendor prefix (one leading dash, not two); *)
Definition isHack (name : string) : bool :=
  String.eqb (JS.charAt name 0) "*" || String.eqb (JS.charAt name 0) "_".

Definition isVendorName (name : string) : bool :=
  String.eqb (JS.charAt name 0) "-" && negb (String.eqb (JS.charAt name 1) "-").

(** the markers one declaration of the table gets for its own name. *)
Definition propertyMarkers (v : LintVisitor) (e : Element) : list Marker :=
  let name := fullPropertyName e in
  let known := isKnownProperty (cssDataManager v) in
  if isCSSDeclaration (node e) then
    if String.eqb (JS.charAt name 0) "-" then
      if isVendorName name && negb (known name) && negb (isValid v name)
      then onProperty v e Rules.UnknownVendorSpecificProperty None
      else []
    else
      let bare := if isHack name then JS.substr_from name 1 else name in
      (if isHack name then onProperty v e Rules.IEStarHack None else [])
      ++ (if negb (known name) && negb (known bare) && negb (isValid v bare)
          then onProperty v e Rules.UnknownProperty
                 (Some (nls.localize "property.unknownproperty.detailed"
                          "Unknown property: '{0}'"
                          [nodes.Declaration_getFullPropertyName (node e)]))
          else [])
  else [].

(** The rules of the markers a declaration gets for its own name, and
    those of the markers that ask for the other spellings of a name. *)
Definition propertyRules : list Rule :=
  [Rules.UnknownVendorSpecificProperty; Rules.IEStarHack; Rules.UnknownProperty].

Definition completionRules : list Rule :=
  [Rules.IncludeStandardPropertyWhenUsingVendorPrefix; Rules.AllVendorPrefixes].

(** The nodes a grouping index holds. *)
Definition index_nodes (data : NodesByRootMap.t) : list Node :=
  flat_map (fun item => NodesByRootMap.nodes (snd item)) data.

(** [.a { -s2-foo: 1; color: }]: the second declaration has no value. *)
Definition s2foo_colorless_text : string := ".a { -s2-foo: 1; color: }".
Definition colorless_decl : Node :=
  mkNode nodes.Declaration 17 6
    [mkNode nodes.Property 17 5 [sample_identifier 17 5]
       (nodes.CProperty (Some (sample_identifier 17 5)) "color")]
    (nodes.CDeclaration
       (Some (mkNode nodes.Property 17 5 [sample_identifier 17 5]
                (nodes.CProperty (Some (sample_identifier 17 5)) "color")))
       None "color").
Definition s2foo_colorless : Node := sample_ruleset 0 25 2 [s2foo_decl; colorless_decl].


(** A marker whose severity is the one the settings resolve its rule
    to. *)
Definition levelled (s : LintConfigurationSettings) (m : Marker) : Prop :=
  nodes.getLevel m = getRule s (nodes.getRule m).

(** What a visitor [v'] reached from a visitor [v] has in common with it:
    the same settings, text, valid names and knowledge base; the markers
    of [v] with levelled markers after them; and in its keyframes index no
    new node that reads [@keyframes]. *)
Record advances (v v' : LintVisitor) : Prop :=
  {
    adv_settings : settings v' = settings v;
    adv_text : documentText v' = documentText v;
    adv_valid : validProperties v' = validProperties v;
    adv_data : cssDataManager v' = cssDataManager v;
    adv_warnings :
      exists ms, warnings v' = warnings v ++ ms /\ Forall (levelled (settings v)) ms;
    adv_keyframes :
      forall x, In x (index_nodes (keyframes v')) ->
                In x (index_nodes (keyframes v))
                \/ nodes.getText (documentText v) x <> "@keyframes"
  }.

(** [@keyframes a { }], a keyframe node with its keyword and name. *)
Definition keyframes_text : string := "@keyframes a { }".
Definition keyframes_rule : Node :=
  mkNode nodes.Keyframe 0 16
    [mkNode nodes.Undefined 0 10 [] nodes.CNode; sample_identifier 11 1;
     mkNode nodes.Declarations 13 3 [] nodes.CDeclarations]
    (nodes.CKeyframe (Some (mkNode nodes.Undefined 0 10 [] nodes.CNode))
       (Some (sample_identifier 11 1))).


(** [@foo { #a { } }]: inside the at-rule, an id selector that is flagged
    when it is visited. *)
Definition atfoo_nested_text : string := "@foo { #a { } }".
Definition atfoo_nested : Node :=
  mkNode nodes.UnknownAtRule 0 15
    [atfoo_name; mkNode nodes.IdentifierSelector 7 2 [] nodes.CNode] nodes.CNode.


(** Whether the walk enters the children of a node, and the nodes it
    reaches in a tree, in the order it reaches them. *)
Definition descends (text : string) (data : CSSDataManager) (n : Node) : bool :=
  match nodes.type n with
  | nodes.UnknownAtRule =>
      match nodes.getChild n 0 with
      | Some atRuleName =>
          match getAtDirective data (nodes.getText text atRuleName) with
          | Some _ => false
          | None => true
          end
      | None => false
      end
  | nodes.Keyframe =>
      match nodes.Keyframe_getKeyword n with Some _ => true | None => false end
  | nodes.FontFace | nodes.Ruleset =>
      match nodes.BodyDeclaration_getDeclarations n with Some _ => true | None => false end
  | nodes.HexColorValue => false
  | _ => true
  end.

Fixpoint visited (text : string) (data : CSSDataManager) (n : Node) : list Node :=
  n :: (if descends text data n then
          (fix below (cs : list Node) : list Node :=
             match cs with
             | [] => []
             | c :: cs' => visited text data c ++ below cs'
             end) (nodes.children n)
        else []).

(** The rules a node of a given type can be reported for. *)
Definition rulesAt (t : NodeType) : list Rule :=
  match t with
  | nodes.UnknownAtRule => [Rules.UnknownAtRules]
  | nodes.FontFace => [Rules.RequiredPropertiesForFontFace]
  | nodes.Ruleset => earlyRules ++ Rules.DuplicateDeclarations :: vendorRules
  | nodes.SimpleSelector => [Rules.UniversalSelector]
  | nodes.Function => [Rules.ArgsInColorFunction]
  | nodes.NumericValue => [Rules.ZeroWithUnit]
  | nodes.Import => [Rules.ImportStatemement]
  | nodes.HexColorValue => [Rules.HexColorLength]
  | nodes.Prio => [Rules.AvoidImportant]
  | nodes.IdentifierSelector => [Rules.AvoidIdSelector]
  | _ => []
  end.

(** The three rules that report every node of a type. *)
Definition reportedType (rule : Rule) : option NodeType :=
  match rule with
  | Rules.AvoidIdSelector => Some nodes.IdentifierSelector
  | Rules.ImportStatemement => Some nodes.Import
  | Rules.AvoidImportant => Some nodes.Prio
  | _ => None
  end.


(** [.a { toString: 0px; }] *)
Definition zero_toString_text : string := ".a { toString: 0px; }".
Definition zero_toString : Node :=
  sample_ruleset 0 21 2
    [sample_declaration 5 13 8 "toString"
       (sample_value 15 3 [sample_number 15 3 "0" (Some "px")])].

(** ** Properties *)

(** *** Bitwise tests on severity levels *)

Lemma toInt32_testbit (x k : Z) :
  0 <= k < 32 -> Z.testbit (JS.toInt32 x) k = Z.testbit x k.
Proof.
  intros Hk. unfold JS.toInt32.
  pose proof (Z.div_mod (x + 2 ^ 31) (2 ^ 32) ltac:(lia)) as Hdm.
  replace ((x + 2 ^ 31) mod 2 ^ 32 - 2 ^ 31)
    with (x + (- ((x + 2 ^ 31) / 2 ^ 32)) * 2 ^ 32) by lia.
  rewrite <- (Z.mod_pow2_bits_low (x + _ * 2 ^ 32) 32 k) by lia.
  rewrite Z_mod_plus_full.
  apply Z.mod_pow2_bits_low. lia.
Qed.

Lemma land_pow2 (k x : Z) :
  0 <= k -> Z.land (2 ^ k) x = if Z.testbit x k then 2 ^ k else 0.
Proof.
  intros Hk. apply Z.bits_inj'. intros i Hi.
  rewrite Z.land_spec, Z.pow2_bits_eqb by lia.
  destruct (Z.eqb_spec k i) as [->|Hne].
  - destruct (Z.testbit x i); simpl.
    + rewrite Z.pow2_bits_true; lia.
    + apply eq_sym, Z.bits_0.
  - simpl. destruct (Z.testbit x k).
    + rewrite Z.pow2_bits_false; lia.
    + apply eq_sym, Z.bits_0.
Qed.

Lemma band_Level_value (l : Level) (M : Z) :
  JS.band (nodes.Level_value l) M = Z.land (nodes.Level_value l) M.
Proof.
  unfold JS.band.
  assert (exists k, 0 <= k < 32 /\ nodes.Level_value l = 2 ^ k
                    /\ JS.toInt32 (2 ^ k) = 2 ^ k) as (k & Hk & -> & ->).
  { destruct l; [exists 0 | exists 1 | exists 2]; repeat split; lia. }
  rewrite !land_pow2 by lia.
  now rewrite toInt32_testbit.
Qed.

(** *** The marker list *)

Lemma warnings_addEntry n rule details v :
  warnings (addEntry n rule details v)
  = warnings v ++ [mkMarker n rule (getRule (settings v) rule) details].
Proof. reflexivity. Qed.

Lemma filter_bool_Prop {A} (f : A -> bool) (P : A -> Prop) `{!forall x, Decision (P x)}
    (l : list A) :
  (forall x, f x = true <-> P x) -> List.filter f l = filter P l.
Proof.
  intros Hf. induction l as [|x l IH]; [reflexivity|].
  simpl. rewrite filter_cons, IH.
  destruct (f x) eqn:Hx, (decide (P x)) as [HP|HP]; try reflexivity.
  - apply Hf in Hx. contradiction.
  - apply Hf in HP. congruence.
Qed.

Lemma filter_filter_same {A} (f : A -> bool) (l : list A) :
  List.filter f (List.filter f l) = List.filter f l.
Proof.
  induction l as [|x l IH]; [reflexivity|].
  simpl. destruct (f x) eqn:Hx; simpl; rewrite ?Hx, IH; reflexivity.
Qed.

(** C8. For every marker list and every mask [M], [getEntries(M)] is the
    list of the markers whose severity level shares a bit with [M], in
    their order, and filtering the result again with [M] changes
    nothing. *)
Theorem getEntries_projection (v : LintVisitor) (M : Z) :
  getEntries v M = filter (fun m => mask_has M (nodes.getLevel m)) (warnings v)
  /\ getEntries (set_warnings v (getEntries v M)) M = getEntries v M.
Proof.
  split.
  - unfold getEntries. apply filter_bool_Prop. intros m.
    rewrite band_Level_value. unfold mask_has.
    destruct (Z.eqb_spec (Z.land (nodes.Level_value (nodes.getLevel m)) M) 0);
      simpl; split; intros; congruence.
  - unfold getEntries at 1 3. simpl. apply filter_filter_same.
Qed.

(** *** Keyframes *)

(** *** The order of enumeration *)

Lemma insert_index_In {A} (k : Z) (x y : string * A) (sorted : list (Z * (string * A))) :
  In y (List.map snd (JSObject.insert_index k x sorted))
  <-> y = x \/ In y (List.map snd sorted).
Proof.
  induction sorted as [|[k' z] sorted IH]; simpl; [intuition|].
  destruct (k <? k'); simpl; [intuition|]. rewrite IH. intuition.
Qed.

(** [for ... in] enumerates every entry of the object, and nothing
    else. *)
Lemma enumerate_In {A} (created : list (string * A)) (y : string * A) :
  In y (JSObject.enumerate created) <-> In y created.
Proof.
  unfold JSObject.enumerate. rewrite in_app_iff, List.filter_In.
  assert (forall acc,
             In y (List.map snd
                     (fold_left
                        (fun sorted item =>
                           match JS.arrayIndex (fst item) with
                           | Some k => JSObject.insert_index k item sorted
                           | None => sorted
                           end)
                        created acc))
             <-> In y (List.map snd acc)
                 \/ (In y created /\ JS.arrayIndex (fst y) <> None)) as Hfold.
  { induction created as [|x created IH]; intros acc; simpl; [tauto|].
    rewrite IH. clear IH.
    destruct (JS.arrayIndex (fst x)) as [k|] eqn:Hx.
    - rewrite insert_index_In. split.
      + intros [[H|H]|H]; [|tauto|tauto]. right. rewrite H, Hx. split; [now left|discriminate].
      + intros [H|[[H|H] Hy]]; [tauto| |tauto]. left. left. now rewrite H.
    - split.
      + tauto.
      + intros [H|[[H|H] Hy]]; [tauto| |tauto]. rewrite <- H, Hx in Hy. contradiction. }
  rewrite Hfold. simpl.
  destruct (JS.arrayIndex (fst y)); split;
    intros H; try tauto; try (right; split; [tauto|reflexivity]);
    try (left; right; split; [exact H|discriminate]).
Qed.

(** An object without array indices among its keys is enumerated in the
    order its keys were created. *)
Lemma enumerate_no_index {A} (created : list (string * A)) :
  Forall (fun item => JS.arrayIndex (fst item) = None) created ->
  JSObject.enumerate created = created.
Proof.
  intros H. unfold JSObject.enumerate.
  assert (forall acc,
             fold_left
               (fun sorted (item : string * A) =>
                  match JS.arrayIndex (fst item) with
                  | Some k => JSObject.insert_index k item sorted
                  | None => sorted
                  end)
               created acc = acc) as ->.
  { induction H as [|x created Hx _ IH]; intros acc; simpl; [reflexivity|].
    now rewrite Hx. }
  simpl. induction H as [|x created Hx _ IH]; simpl; [reflexivity|].
  now rewrite Hx, IH.
Qed.

Lemma validateKeyframes_id (v : LintVisitor) : validateKeyframes v = (true, v).
Proof.
  unfold validateKeyframes. f_equal.
  generalize (JSObject.enumerate (keyframes v)). intros data.
  induction data as [|item data IH]; simpl; [reflexivity|].
  destruct (negb _ && _); exact IH.
Qed.

(** C9. Whatever the keyframes index holds, the completion step
    ([completeValidations], which runs [validateKeyframes]) leaves the
    marker list as it was. *)
Theorem completeValidations_no_marker (v : LintVisitor) :
  warnings (snd (validateKeyframes v)) = warnings v
  /\ warnings (completeValidations v) = warnings v.
Proof.
  unfold completeValidations. rewrite validateKeyframes_id. split; reflexivity.
Qed.

(** *** Hex colors *)

Lemma visitHexColorValue_markers (n : Node) (v : LintVisitor) :
  fst (visitHexColorValue n v) = false
  /\ warnings (snd (visitHexColorValue n v))
     = warnings v ++
       (if bool_decide (nodes.length n ∈ [4; 5; 7; 9]) then []
        else [mkMarker n Rules.HexColorLength
                (getRule (settings v) Rules.HexColorLength) None]).
Proof.
  unfold visitHexColorValue.
  destruct (bool_decide_reflect (nodes.length n ∈ [4; 5; 7; 9])) as [Hin|Hout].
  - assert (negb (nodes.length n =? 9) && negb (nodes.length n =? 7)
            && negb (nodes.length n =? 5) && negb (nodes.length n =? 4) = false) as ->.
    { set_unfold.
      destruct Hin as [H|[H|[H|[H|[]]]]]; rewrite H; reflexivity. }
    simpl. now rewrite app_nil_r.
  - assert (negb (nodes.length n =? 9) && negb (nodes.length n =? 7)
            && negb (nodes.length n =? 5) && negb (nodes.length n =? 4) = true) as ->.
    { set_unfold.
      repeat (apply andb_true_intro; split); apply negb_true_iff, Z.eqb_neq;
        intros H; apply Hout; tauto. }
    split; reflexivity.
Qed.

(** C5. A hex-color node gets a [HexColorLength] marker exactly when its
    length is none of 4, 5, 7 and 9, and the visit returns [false] either
    way: the walk leaves the node without visiting its children, whatever
    the imported helpers are. *)
Theorem visitHexColorValue_length (n : Node) (v : LintVisitor) :
  nodes.type n = nodes.HexColorValue ->
  fst (visitHexColorValue n v) = false
  /\ warnings (snd (visitHexColorValue n v))
     = warnings v ++
       (if bool_decide (nodes.length n ∈ [4; 5; 7; 9]) then []
        else [mkMarker n Rules.HexColorLength
                (getRule (settings v) Rules.HexColorLength) None])
  /\ (forall calculateBoxModel union units_length parseFloat_is_zero ancestors,
        acceptVisitor calculateBoxModel union units_length parseFloat_is_zero
          n ancestors v
        = snd (visitHexColorValue n v)).
Proof.
  intros Htype.
  destruct (visitHexColorValue_markers n v) as [Hfalse Hmarkers].
  split; [exact Hfalse|split; [exact Hmarkers|]].
  intros calculateBoxModel union units_length parseFloat_is_zero ancestors.
  destruct n as [t o l cs c]. simpl in Htype. subst t.
  cbn [acceptVisitor visitNode nodes.type].
  destruct (visitHexColorValue _ v) as [descend v1] eqn:Hvisit.
  cbn [fst snd] in *. now rewrite Hfalse.
Qed.

Lemma visitHexColorValue_length_witness :
  (nodes.getText hex_color_text hex_color = "#abcde"
   /\ warnings
        (acceptVisitor sample_calculateBoxModel sample_union sample_units sample_is_zero
           hex_color [] (sample_visitor hex_color_text))
      = [mkMarker hex_color Rules.HexColorLength nodes.Warning None])
  /\ (nodes.getText hex_short_text hex_short = "#abc"
      /\ warnings
           (acceptVisitor sample_calculateBoxModel sample_union sample_units sample_is_zero
              hex_short [] (sample_visitor hex_short_text))
         = []).
Proof.
  split; (split; [reflexivity|]).
  - destruct (visitHexColorValue_length hex_color (sample_visitor hex_color_text) eq_refl)
      as (_ & Hmarkers & Hwalk).
    rewrite Hwalk, Hmarkers. reflexivity.
  - destruct (visitHexColorValue_length hex_short (sample_visitor hex_short_text) eq_refl)
      as (_ & Hmarkers & Hwalk).
    rewrite Hwalk, Hmarkers. reflexivity.
Defined.

(** *** Unknown at-rules *)

(** C1, as the code has it. For an unknown-at-rule node with a first
    child: when the knowledge base does not know the child's text, one
    [UnknownAtRules] marker is put on the child, its detail ending in that
    text, and the visit returns [true] (the children are visited); when it
    knows the text, nothing is emitted and the visit returns [false]. *)
Theorem visitUnknownAtRule_marker (n atRuleName : Node) (v : LintVisitor) :
  nodes.getChild n 0 = Some atRuleName ->
  let text := nodes.getText (documentText v) atRuleName in
  (getAtDirective (cssDataManager v) text = None ->
   fst (visitUnknownAtRule n v) = true
   /\ warnings (snd (visitUnknownAtRule n v))
      = warnings v ++
        [mkMarker atRuleName Rules.UnknownAtRules
           (getRule (settings v) Rules.UnknownAtRules)
           (Some ("Unknown at rule " +:+ text))])
  /\ (is_Some (getAtDirective (cssDataManager v) text) ->
      visitUnknownAtRule n v = (false, v)).
Proof.
  intros Hchild text. unfold visitUnknownAtRule. rewrite Hchild. fold text.
  split.
  - intros ->. split; reflexivity.
  - intros [d ->]. reflexivity.
Qed.

Lemma visitUnknownAtRule_marker_witness :
  (fst (visitUnknownAtRule atfoo_rule atfoo_visitor) = true
   /\ warnings (snd (visitUnknownAtRule atfoo_rule atfoo_visitor))
      = [mkMarker atfoo_name Rules.UnknownAtRules nodes.Warning
           (Some "Unknown at rule @foo")])
  /\ visitUnknownAtRule atfoo_rule atfoo_known_visitor = (false, atfoo_known_visitor).
Proof.
  split.
  - apply (visitUnknownAtRule_marker atfoo_rule atfoo_name atfoo_visitor eq_refl).
    reflexivity.
  - apply (visitUnknownAtRule_marker atfoo_rule atfoo_name atfoo_known_visitor eq_refl).
    eexists. reflexivity.
Defined.

(** C1, as it is worded, fails on [@foo { }]: the name is not known to the
    knowledge base, and the visit returns [true]. *)
Lemma visitUnknownAtRule_returns_true :
  nodes.getChild atfoo_rule 0 = Some atfoo_name
  /\ getAtDirective (cssDataManager atfoo_visitor)
       (nodes.getText (documentText atfoo_visitor) atfoo_name) = None
  /\ fst (visitUnknownAtRule atfoo_rule atfoo_visitor) = true.
Proof. repeat split. Qed.

(** *** Missing names *)

Lemma localize_single (c : string) :
  nls.localize "namelist.single" "'{0}'" [c] = "'" +:+ c +:+ "'".
Proof. reflexivity. Qed.

Lemma localize_concatenated (r c : string) :
  nls.localize "namelist.concatenated" "{0}, '{1}'" [r; c] = r +:+ ", '" +:+ c +:+ "'".
Proof. reflexivity. Qed.

Lemma indexOf_by_range {A} (is_x : A -> bool) (xs : list A) : -1 <= JS.indexOf_by is_x xs.
Proof.
  induction xs as [|y r IH]; simpl; [lia|].
  destruct (is_x y); [lia|].
  destruct (Z.eqb_spec (JS.indexOf_by is_x r) (-1)); lia.
Qed.

Lemma survivors_clearExpected (clone : list (option string)) (a : string) :
  survivors (clearExpected clone a) = remove1 a (survivors clone).
Proof.
  unfold clearExpected, JS.indexOf_nullable, remove1.
  induction clone as [|[y|] r IH]; simpl; [reflexivity| |];
    pose proof (indexOf_by_range
      (fun y => match y with Some y' => String.eqb y' a | None => false end) r) as Hr;
    set (k := JS.indexOf_by _ r) in *.
  - destruct (String.eqb y a) eqn:Hya; simpl; [reflexivity|].
    destruct (Z.eqb_spec k (-1)) as [Hk|Hk]; simpl.
    + destruct (remove_first a (survivors r)); simpl in *; congruence.
    + destruct (Z.eqb_spec (k + 1) (-1)); [lia|].
      replace (Z.to_nat (k + 1)) with (S (Z.to_nat k)) by lia. simpl.
      destruct (remove_first a (survivors r)); simpl in *; congruence.
  - destruct (Z.eqb_spec k (-1)) as [Hk|Hk]; simpl.
    + exact IH.
    + destruct (Z.eqb_spec (k + 1) (-1)); [lia|].
      replace (Z.to_nat (k + 1)) with (S (Z.to_nat k)) by lia. simpl.
      exact IH.
Qed.

Lemma missingNames_nil_r (S : list string) : missingNames S [] = S.
Proof. induction S as [|s S IH]; simpl; congruence. Qed.

Lemma missingNames_cons_r (S : list string) (a : string) (A : list string) :
  missingNames S (a :: A) = missingNames (remove1 a S) A.
Proof.
  unfold remove1. revert A.
  induction S as [|s S IH]; intros A; simpl; [reflexivity|].
  destruct (String.eqb_spec s a) as [->|Hne].
  - rewrite String.eqb_refl. reflexivity.
  - destruct (String.eqb a s) eqn:Has.
    { apply String.eqb_eq in Has. congruence. }
    destruct (remove_first s A) as [A'|] eqn:HA.
    + rewrite IH. destruct (remove_first a S); simpl; rewrite HA; reflexivity.
    + rewrite IH. destruct (remove_first a S); simpl; rewrite HA; reflexivity.
Qed.

Lemma survivors_fold_clearExpected (A : list string) (clone : list (option string)) :
  survivors (fold_left clearExpected A clone) = missingNames (survivors clone) A.
Proof.
  revert clone. induction A as [|a A IH]; intros clone; simpl.
  - now rewrite missingNames_nil_r.
  - now rewrite IH, survivors_clearExpected, missingNames_cons_r.
Qed.

Lemma survivors_map_Some (E : list string) : survivors (List.map Some E) = E.
Proof. induction E as [|e E IH]; simpl; congruence. Qed.

(** The second loop shown as a fold over the truthy names left. *)
Lemma fold_joinName (clone : list (option string)) (result : option string) :
  fold_left joinName clone result
  = fold_left
      (fun r c =>
         Some (match r with
               | None => "'" +:+ c +:+ "'"
               | Some r => r +:+ ", '" +:+ c +:+ "'"
               end))
      (List.filter JS.truthy (survivors clone)) result.
Proof.
  revert result. induction clone as [|[c|] clone IH]; intros result; simpl.
  - reflexivity.
  - destruct (JS.truthy c) eqn:Hc; simpl; [|apply IH].
    rewrite IH. destruct result; reflexivity.
  - apply IH.
Qed.

Lemma fold_join_Some (names : list string) (r : string) :
  fold_left
    (fun r c =>
       Some (match r with
             | None => "'" +:+ c +:+ "'"
             | Some r => r +:+ ", '" +:+ c +:+ "'"
             end))
    names (Some r)
  = Some (fold_left (fun prior next => prior +:+ ", '" +:+ next +:+ "'") names r).
Proof.
  revert r. induction names as [|c names IH]; intros r; simpl; [reflexivity|].
  apply IH.
Qed.

Lemma getMissingNames_render (E A : list string) :
  getMissingNames E A = renderNames (List.filter JS.truthy (missingNames E A)).
Proof.
  unfold getMissingNames.
  rewrite fold_joinName, survivors_fold_clearExpected, survivors_map_Some.
  destruct (List.filter JS.truthy (missingNames E A)) as [|c names]; simpl.
  - reflexivity.
  - apply fold_join_Some.
Qed.

Lemma remove_first_count (x : string) (l l' : list string) (y : string) :
  remove_first x l = Some l' ->
  count_occ string_dec l y
  = (count_occ string_dec l' y + if string_dec x y then 1 else 0)%nat.
Proof.
  revert l'. induction l as [|z l IH]; intros l' H; simpl in H; [discriminate|].
  destruct (String.eqb_spec z x) as [->|Hne].
  - injection H as <-. simpl. destruct (string_dec x y); lia.
  - destruct (remove_first x l) as [r|]; [|discriminate].
    injection H as <-. simpl. specialize (IH r eq_refl).
    destruct (string_dec z y); lia.
Qed.

Lemma remove_first_None (x : string) (l : list string) :
  remove_first x l = None -> count_occ string_dec l x = 0%nat.
Proof.
  induction l as [|z l IH]; simpl; [reflexivity|].
  destruct (String.eqb_spec z x) as [->|Hne]; [discriminate|].
  destruct (remove_first x l); [discriminate|]. intros _.
  destruct (string_dec z x); [contradiction|]. now apply IH.
Qed.

Lemma missingNames_count (E A : list string) (x : string) :
  count_occ string_dec (missingNames E A) x
  = (count_occ string_dec E x - count_occ string_dec A x)%nat.
Proof.
  revert A. induction E as [|e E IH]; intros A; simpl; [reflexivity|].
  destruct (remove_first e A) as [A'|] eqn:HA.
  - rewrite IH. rewrite (remove_first_count _ _ _ x HA).
    destruct (string_dec e x); lia.
  - simpl. rewrite IH. apply remove_first_None in HA.
    destruct (string_dec e x) as [->|]; lia.
Qed.

Lemma filter_truthy_nil (l : list string) :
  List.filter JS.truthy l = []
  <-> forall x, x <> "" -> count_occ string_dec l x = 0%nat.
Proof.
  induction l as [|y l IH]; [simpl; tauto|].
  cbn [List.filter]. destruct y as [|c y]; cbn [JS.truthy].
  - rewrite IH. split; intros H x Hx; specialize (H x Hx).
    + rewrite count_occ_cons_neq; [assumption|]. intros e. now apply Hx.
    + rewrite count_occ_cons_neq in H; [assumption|]. intros e. now apply Hx.
  - split; [discriminate|]. intros H.
    specialize (H (String c y) ltac:(discriminate)).
    rewrite count_occ_cons_eq in H by reflexivity. discriminate.
Qed.

Lemma missingNames_subset (E A : list string) (x : string) :
  In x (missingNames E A) -> In x E.
Proof.
  revert A. induction E as [|e E IH]; intros A; simpl; [tauto|].
  destruct (remove_first e A) as [A'|].
  - intros H. right. now apply (IH A').
  - intros [H|H]; [now left|right; now apply (IH A)].
Qed.

Lemma filter_truthy_id (l : list string) :
  Forall (fun name => name <> "") l -> List.filter JS.truthy l = l.
Proof.
  induction 1 as [|x l Hx _ IH]; simpl; [reflexivity|].
  destruct x; [contradiction|]. simpl. now rewrite IH.
Qed.

(** The names [visitRuleSet] expects beside a root are built from a
    prefix: none of them is empty. *)
Lemma expectedNames_nonempty (v : LintVisitor) (suffix : string) :
  Forall (fun name => name <> "") (expectedNames v suffix).
Proof.
  unfold expectedNames, prefixes. cbn [fold_left].
  destruct (isStandardProperty _ _); repeat constructor. discriminate.
Qed.

Lemma getMissingNames_nonempty (E A : list string) :
  Forall (fun name => name <> "") E ->
  getMissingNames E A = getMissingNames_spec E A
  /\ (getMissingNames E A = None
      <-> forall x, (count_occ string_dec E x <= count_occ string_dec A x)%nat).
Proof.
  intros HE.
  assert (List.filter JS.truthy (missingNames E A) = missingNames E A) as Hfilter.
  { apply filter_truthy_id. apply List.Forall_forall. intros x Hx.
    rewrite List.Forall_forall in HE. apply HE. now apply (missingNames_subset E A). }
  rewrite getMissingNames_render, Hfilter. split; [reflexivity|].
  transitivity (List.filter JS.truthy (missingNames E A) = []).
  - rewrite Hfilter. destruct (missingNames E A); simpl; split;
      (reflexivity || discriminate).
  - rewrite filter_truthy_nil. split.
    + intros H x. destruct (string_dec x "") as [Hx|Hx].
      * rewrite Hx.
        assert (count_occ string_dec E "" = 0)%nat as Hnone.
        { apply count_occ_not_In. intros Hin.
          rewrite List.Forall_forall in HE. now apply (HE "" Hin). }
        rewrite Hnone. lia.
      * specialize (H x Hx). rewrite missingNames_count in H. lia.
    + intros H x _. specialize (H x). rewrite missingNames_count. lia.
Qed.

(** C3. For the expected names [visitRuleSet] calls [getMissingNames]
    with, and for every list of expected names none of which is empty,
    and every list [A] of actual names: the result is [null] exactly when
    every expected name occurs in [A] at least as often as it is expected
    (an actual name matches one expected name at most), and otherwise it
    is the string folded from the missing names in the order of [E]: the
    first quoted alone, every further one appended as [prior, 'next']. *)
Theorem getMissingNames_fold :
  (forall (v : LintVisitor) (suffix : string) (A : list string),
      getMissingNames (expectedNames v suffix) A
      = getMissingNames_spec (expectedNames v suffix) A
      /\ (getMissingNames (expectedNames v suffix) A = None
          <-> forall x, (count_occ string_dec (expectedNames v suffix) x
                         <= count_occ string_dec A x)%nat))
  /\ (forall E A : list string,
        Forall (fun name => name <> "") E ->
        getMissingNames E A = getMissingNames_spec E A
        /\ (getMissingNames E A = None
            <-> forall x, (count_occ string_dec E x <= count_occ string_dec A x)%nat)).
Proof.
  split.
  - intros v suffix A. apply getMissingNames_nonempty, expectedNames_nonempty.
  - apply getMissingNames_nonempty.
Qed.

Lemma getMissingNames_fold_witness :
  getMissingNames ["-s2-a"; "-s2-b"; "-s2-c"] ["-s2-b"; "x"]
  = getMissingNames_spec ["-s2-a"; "-s2-b"; "-s2-c"] ["-s2-b"; "x"]
  /\ getMissingNames_spec ["-s2-a"; "-s2-b"; "-s2-c"] ["-s2-b"; "x"]
     = Some "'-s2-a', '-s2-c'".
Proof.
  split; [|reflexivity].
  apply (proj2 getMissingNames_fold ["-s2-a"; "-s2-b"; "-s2-c"] ["-s2-b"; "x"]).
  repeat constructor; discriminate.
Defined.

(** A call the visitor never makes: with an expected name that is empty,
    the second loop takes the name for a cleared slot and leaves it
    out. *)
Lemma getMissingNames_empty_name :
  getMissingNames [""] [] = None
  /\ getMissingNames_spec [""] [] = Some "''".
Proof. split; reflexivity. Qed.

(** *** Color functions *)

(** Induction on a node with the property known of its children. *)
Lemma Node_children_ind (P : Node -> Prop) :
  (forall n, Forall P (nodes.children n) -> P n) -> forall n, P n.
Proof.
  intros H.
  refine (fix IH (n : Node) : P n := _).
  apply H. destruct n as [t o l cs c]. simpl.
  induction cs as [|c' cs IHcs]; constructor; [apply IH | exact IHcs].
Qed.

Lemma accept_countBinaryExpression (n : Node) (count : Z) :
  nodes.accept countBinaryExpression n count = count + outermostBinaryExpressions n.
Proof.
  revert count. induction n as [n IH] using Node_children_ind. intros count.
  destruct n as [t o l cs c]. simpl in IH.
  cbn [nodes.accept outermostBinaryExpressions]. unfold countBinaryExpression.
  destruct (nodes.instanceof_BinaryExpression _); [reflexivity|].
  cbn [nodes.children].
  revert count. induction IH as [|c' cs' Hc' _ IHcs]; intros count.
  - lia.
  - rewrite Hc', IHcs. lia.
Qed.

Lemma expectedColorArguments_eqb (fnName : string) :
  (if String.eqb fnName "rgb(" || String.eqb fnName "hsl(" then 3
   else if String.eqb fnName "rgba(" || String.eqb fnName "hsla(" then 4
   else -1)
  = default (-1) (expectedColorArguments fnName).
Proof.
  unfold expectedColorArguments.
  destruct (String.eqb_spec fnName "rgb(") as [->|H1]; [reflexivity|].
  destruct (String.eqb_spec fnName "hsl(") as [->|H2]; [reflexivity|].
  destruct (String.eqb_spec fnName "rgba(") as [->|H3]; [reflexivity|].
  destruct (String.eqb_spec fnName "hsla(") as [->|H4]; [reflexivity|].
  rewrite !bool_decide_eq_false_2; [reflexivity| |];
    rewrite !elem_of_cons, elem_of_nil; tauto.
Qed.

Lemma visitFunction_markers (n : Node) (v : LintVisitor) :
  fst (visitFunction n v) = true
  /\ warnings (snd (visitFunction n v))
     = warnings v ++
       match expectedColorArguments
               (JS.toLowerCase (nodes.Function_getName (documentText v) n)) with
       | Some expected =>
           if outermostBinaryExpressions (nodes.Function_getArguments n) =? expected
           then []
           else [mkMarker n Rules.ArgsInColorFunction
                   (getRule (settings v) Rules.ArgsInColorFunction) None]
       | None => []
       end.
Proof.
  unfold visitFunction. rewrite expectedColorArguments_eqb.
  rewrite accept_countBinaryExpression, Z.add_0_l.
  set (name := JS.toLowerCase _).
  assert (forall k, expectedColorArguments name = Some k -> k = 3 \/ k = 4) as Hk.
  { unfold expectedColorArguments. intros k.
    repeat case_bool_decide; intros [= <-]; auto. }
  destruct (expectedColorArguments name) as [k|]; simpl.
  - destruct (Hk k eq_refl) as [-> | ->]; simpl;
      destruct (Z.eqb _ _); simpl; rewrite ?app_nil_r; split; reflexivity.
  - rewrite app_nil_r. split; reflexivity.
Qed.

Lemma lower_ascii_parenthesis (c : ascii) :
  JS.lower_ascii c = "("%char -> c = "("%char.
Proof.
  destruct c as [[] [] [] [] [] [] [] []]; vm_compute; intros H;
    first [reflexivity | discriminate].
Qed.

Lemma toLowerCase_parenthesis (s : string) :
  In "("%char (list_ascii_of_string (JS.toLowerCase s)) ->
  In "("%char (list_ascii_of_string s).
Proof.
  induction s as [|c s IH]; simpl; [tauto|].
  intros [H|H]; [left; now apply lower_ascii_parenthesis|right; now apply IH].
Qed.

(** C6. What [visitFunction] does: a function whose lower-cased
    [getName()] is [rgb(] or [hsl(] is held to 3 arguments, one whose name
    is [rgba(] or [hsla(] to 4; the arguments counted are the binary
    expressions of the argument list that no other binary expression
    encloses, and the function node gets one [ArgsInColorFunction] marker
    exactly when the count differs; the visit returns [true].  But a
    function whose name has no parenthesis in it is never held to a
    count, and the name of a function node is its identifier, which has
    none: [rgb(1,2,3)] gets no marker, and neither do [rgb(1,2)], with two
    arguments, and [rgba(1,2,3)], with three. *)
Theorem visitFunction_color_arguments (n : Node) (v : LintVisitor) :
  (fst (visitFunction n v) = true
   /\ warnings (snd (visitFunction n v))
      = warnings v ++
        match expectedColorArguments
                (JS.toLowerCase (nodes.Function_getName (documentText v) n)) with
        | Some expected =>
            if outermostBinaryExpressions (nodes.Function_getArguments n) =? expected
            then []
            else [mkMarker n Rules.ArgsInColorFunction
                    (getRule (settings v) Rules.ArgsInColorFunction) None]
        | None => []
        end)
  /\ (~ In "("%char (list_ascii_of_string (nodes.Function_getName (documentText v) n)) ->
      visitFunction n v = (true, v))
  /\ (nodes.Function_getName rgb123_text rgb123 = "rgb"
      /\ outermostBinaryExpressions (nodes.Function_getArguments rgb123) = 3
      /\ warnings (snd (visitFunction rgb123 (sample_visitor rgb123_text))) = [])
  /\ (nodes.Function_getName rgb12_text rgb12 = "rgb"
      /\ outermostBinaryExpressions (nodes.Function_getArguments rgb12) = 2
      /\ warnings (snd (visitFunction rgb12 (sample_visitor rgb12_text))) = [])
  /\ (nodes.Function_getName rgba123_text rgba123 = "rgba"
      /\ outermostBinaryExpressions (nodes.Function_getArguments rgba123) = 3
      /\ warnings (snd (visitFunction rgba123 (sample_visitor rgba123_text))) = []).
Proof.
  split; [apply visitFunction_markers|]. split.
  - intros Hname. unfold visitFunction. rewrite expectedColorArguments_eqb.
    assert (expectedColorArguments
              (JS.toLowerCase (nodes.Function_getName (documentText v) n)) = None) as ->.
    { unfold expectedColorArguments.
      rewrite !bool_decide_eq_false_2; [reflexivity| |];
        rewrite !elem_of_cons, elem_of_nil; intros H; apply Hname;
        apply toLowerCase_parenthesis;
        destruct H as [H|[H|[]]]; rewrite H; simpl; tauto. }
    reflexivity.
  - repeat split; vm_compute; reflexivity.
Qed.

(** The count does not enter a binary expression: in [rgb(1+2,3,4)] the
    sum is counted once, whatever it holds. *)
Example outermostBinaryExpressions_rgb_sum :
  outermostBinaryExpressions (nodes.Function_getArguments rgb_sum) = 3
  /\ nodes.accept countBinaryExpression (nodes.Function_getArguments rgb_sum) 0 = 3.
Proof. split; vm_compute; reflexivity. Qed.

(** *** Zero with a unit *)

Lemma indexOf_In (xs : list string) (x : string) :
  (JS.indexOf xs x =? -1) = false <-> In x xs.
Proof.
  unfold JS.indexOf. induction xs as [|y r IH]; simpl.
  - split; [discriminate|tauto].
  - destruct (String.eqb_spec y x) as [->|Hne].
    + split; [now left|reflexivity].
    + pose proof (indexOf_by_range (fun y => String.eqb y x) r) as Hr.
      destruct (Z.eqb_spec (JS.indexOf_by (fun y => String.eqb y x) r) (-1)) as [He|He].
      * split; [discriminate|]. intros [?|Hin]; [contradiction|].
        apply IH in Hin. discriminate.
      * rewrite <- IH. split; [tauto|]. intros _. apply Z.eqb_neq. lia.
Qed.




(** A name every object inherits reads as valid: the zero of
    [.a { toString: 0px; }] is not flagged, with no name declared
    valid. *)
Example visitNumericValue_inherited_name :
  let '(n, chain) := nodeAt [1; 0; 1; 0; 0; 0]%nat zero_toString [] in
  nodes.getText zero_toString_text n = "0px"
  /\ validProperties (sample_visitor zero_toString_text) = ∅
  /\ warnings (snd (visitNumericValue sample_units sample_is_zero n chain
                      (sample_visitor zero_toString_text)))
     = [].
Proof. vm_compute. repeat split. Qed.

(** *** What a pass adds to the marker list *)

Lemma emit_nil (v : LintVisitor) : emit v [] = v.
Proof. destruct v. unfold emit, set_warnings. simpl. now rewrite app_nil_r. Qed.

Lemma emit_emit (v : LintVisitor) (ms ms' : list Marker) :
  emit (emit v ms) ms' = emit v (ms ++ ms').
Proof. unfold emit, set_warnings. simpl. now rewrite app_assoc. Qed.

Lemma addEntry_emit (n : Node) (rule : Rule) (details : option string) (v : LintVisitor) :
  addEntry n rule details v
  = emit v [mkMarker n rule (getRule (settings v) rule) details].
Proof. reflexivity. Qed.

Lemma warnings_emit (v : LintVisitor) (ms : list Marker) :
  warnings (emit v ms) = warnings v ++ ms.
Proof. reflexivity. Qed.

Lemma adds_id (Q : Marker -> Prop) : adds Q (fun v => v).
Proof. intros v. exists []. split; [now rewrite emit_nil|constructor]. Qed.

Lemma adds_addEntry (Q : Marker -> Prop) n rule details :
  (forall level, Q (mkMarker n rule level details)) ->
  adds Q (addEntry n rule details).
Proof.
  intros HQ v. eexists. split; [apply addEntry_emit|].
  constructor; [apply HQ|constructor].
Qed.

Lemma adds_compose (Q : Marker -> Prop) (f g : LintVisitor -> LintVisitor) :
  adds Q f -> adds Q g -> adds Q (fun v => g (f v)).
Proof.
  intros Hf Hg v. destruct (Hf v) as (ms & -> & Hms).
  destruct (Hg (emit v ms)) as (ms' & -> & Hms').
  exists (ms ++ ms'). split; [apply emit_emit|]. now apply Forall_app.
Qed.

Lemma adds_if (Q : Marker -> Prop) (b : LintVisitor -> bool)
    (f g : LintVisitor -> LintVisitor) :
  adds Q f -> adds Q g -> adds Q (fun v => if b v then f v else g v).
Proof. intros Hf Hg v. destruct (b v); [apply Hf|apply Hg]. Qed.

Lemma adds_fold {A} (Q : Marker -> Prop) (f : LintVisitor -> A -> LintVisitor)
    (l : list A) :
  (forall x, adds Q (fun v => f v x)) -> adds Q (fun v => fold_left f l v).
Proof.
  intros Hf. induction l as [|x l IH]; simpl.
  - apply adds_id.
  - apply (adds_compose Q (fun v => f v x) (fun v => fold_left f l v)); [apply Hf|apply IH].
Qed.

(** A fold whose step adds the markers [g v x], which do not depend on the
    markers already there. *)
Lemma fold_emit {A} (f : LintVisitor -> A -> LintVisitor)
    (g : LintVisitor -> A -> list Marker) (l : list A) (v : LintVisitor) :
  (forall v x, In x l -> f v x = emit v (g v x)) ->
  (forall v ms x, g (emit v ms) x = g v x) ->
  fold_left f l v = emit v (flat_map (g v) l).
Proof.
  intros Hf Hg. rewrite <- (emit_nil v) at 1.
  change (flat_map (g v) l) with ([] ++ flat_map (g v) l).
  generalize (@nil Marker). induction l as [|x l IH]; intros ms; simpl.
  - now rewrite app_nil_r.
  - rewrite Hf, emit_emit, Hg by now left.
    rewrite IH by (intros; apply Hf; now right). now rewrite <- app_assoc.
Qed.

Lemma markersOf_app (rule : Rule) (ws ws' : list Marker) :
  markersOf rule (ws ++ ws') = markersOf rule ws ++ markersOf rule ws'.
Proof. apply List.filter_app. Qed.

Lemma markersOf_other (rule : Rule) (ms : list Marker) :
  Forall (fun m => nodes.getRule m <> rule) ms -> markersOf rule ms = [].
Proof.
  induction 1 as [|m ms Hm _ IH]; [reflexivity|].
  unfold markersOf in *. simpl. now rewrite bool_decide_eq_false_2.
Qed.

Lemma markersOf_same (rule : Rule) (ms : list Marker) :
  Forall (fun m => nodes.getRule m = rule) ms -> markersOf rule ms = ms.
Proof.
  induction 1 as [|m ms Hm _ IH]; [reflexivity|].
  unfold markersOf in *. simpl. rewrite bool_decide_eq_true_2 by assumption.
  now rewrite IH.
Qed.

(** Membership of a rule in a list of rules, and its negation. *)
Ltac rule_mem :=
  unfold vendorRules, earlyRules; rewrite list_elem_of_In; simpl;
  first [tauto | intuition discriminate].

Lemma ruleIn_addEntry (rs : list Rule) n rule details :
  rule ∈ rs -> adds (ruleIn rs) (addEntry n rule details).
Proof. intros Hin. apply adds_addEntry. intros level. exact Hin. Qed.

Lemma bewareOfBoxModelSize_adds (union : list Element -> list Element -> list Element)
    (dimension : option Element) (a b : BoxSide) :
  adds (ruleIn [Rules.BewareOfBoxModelSize]) (bewareOfBoxModelSize union dimension a b).
Proof.
  unfold bewareOfBoxModelSize. destruct dimension as [dim|]; [|apply adds_id].
  destruct (negb _); [|apply adds_id].
  apply (adds_compose _
           (fun v => fold_left
                       (fun v item => addEntry (node item) Rules.BewareOfBoxModelSize None v)
                       _ v)
           (addEntry (node dim) Rules.BewareOfBoxModelSize None)).
  - apply adds_fold. intros item. apply ruleIn_addEntry. rule_mem.
  - apply ruleIn_addEntry. rule_mem.
Qed.

Lemma propertyIgnoredDueToDisplay_adds (propertyTable : list Element) :
  adds (ruleIn [Rules.PropertyIgnoredDueToDisplay])
    (propertyIgnoredDueToDisplay propertyTable).
Proof.
  unfold propertyIgnoredDueToDisplay.
  set (shown := fun value v =>
         (0 <? List.length (fetchWithValue v propertyTable "display" value))%nat).
  apply (adds_compose _
           (fun v => if shown "inline-block" v
                     then fold_left _ (fetch propertyTable "float") v else v)
           (fun v => if shown "block" v
                     then fold_left _ (fetch propertyTable "vertical-align") v else v)).
  - apply (adds_if _ (shown "inline-block")); [|apply adds_id].
    apply adds_fold. intros elem v.
    destruct (nodes.Declaration_getValue (node elem)); [|apply adds_id].
    destruct (negb _); [|apply adds_id].
    apply ruleIn_addEntry. rule_mem.
  - apply (adds_if _ (shown "block")); [|apply adds_id].
    apply adds_fold. intros elem. apply ruleIn_addEntry. rule_mem.
Qed.

Lemma avoidFloat_adds (propertyTable : list Element) :
  adds (ruleIn [Rules.AvoidFloat]) (avoidFloat propertyTable).
Proof.
  unfold avoidFloat. apply adds_fold. intros element v.
  destruct (negb _); [|apply adds_id].
  apply ruleIn_addEntry. rule_mem.
Qed.

Lemma addEntry_property_adds (rs : list Rule) decl rule details :
  rule ∈ rs -> adds (ruleIn rs) (addEntry_property decl rule details).
Proof.
  intros Hin. unfold addEntry_property.
  destruct (nodes.Declaration_getProperty decl); [|apply adds_id].
  now apply ruleIn_addEntry.
Qed.

Lemma checkProperty_adds (st : VendorState) (element : Element) :
  exists ms, vs_visitor (checkProperty st element) = emit (vs_visitor st) ms
             /\ Forall (ruleIn vendorRules) ms.
Proof.
  unfold checkProperty.
  destruct (isCSSDeclaration _); [|apply (adds_id _ (vs_visitor st))].
  destruct (String.eqb (JS.charAt _ 0) "-").
  - destruct (negb (String.eqb _ "-")); [|apply (adds_id _ (vs_visitor st))]. simpl.
    destruct (negb _ && negb _); [|apply (adds_id _ (vs_visitor st))].
    apply addEntry_property_adds. rule_mem.
  - simpl.
    set (hack := String.eqb _ "*" || String.eqb _ "_").
    apply (adds_compose _
             (fun v => if hack then addEntry_property (node element) Rules.IEStarHack None v
                       else v)
             (fun v => if negb (isKnownProperty (cssDataManager v) (fullPropertyName element))
                          && negb (isKnownProperty (cssDataManager v)
                                     (if hack then JS.substr_from (fullPropertyName element) 1
                                      else fullPropertyName element))
                       then if negb (isValid v (if hack
                                                then JS.substr_from (fullPropertyName element) 1
                                                else fullPropertyName element))
                            then addEntry_property (node element) Rules.UnknownProperty _ v
                            else v
                       else v)).
    + destruct hack; [|apply adds_id].
      apply addEntry_property_adds. rule_mem.
    + intros v. destruct (negb _ && negb _); [|apply adds_id].
      destruct (negb (isValid _ _)); [|apply adds_id].
      apply addEntry_property_adds. rule_mem.
Qed.

Lemma fold_checkProperty_adds (propertyTable : list Element) (st : VendorState) :
  exists ms, vs_visitor (fold_left checkProperty propertyTable st) = emit (vs_visitor st) ms
             /\ Forall (ruleIn vendorRules) ms.
Proof.
  revert st. induction propertyTable as [|e table IH]; intros st; simpl.
  - apply (adds_id _ (vs_visitor st)).
  - destruct (IH (checkProperty st e)) as (ms' & -> & Hms').
    destruct (checkProperty_adds st e) as (ms & -> & Hms).
    exists (ms ++ ms'). split; [apply emit_emit|now apply Forall_app].
Qed.

Lemma checkRoot_adds (item : string * NodesByRootMap.Entry) :
  adds (ruleIn vendorRules) (fun v => checkRoot v item).
Proof.
  intros v. unfold checkRoot.
  destruct (negb _ && _); [apply adds_id|].
  destruct (_ || _); [|apply adds_id].
  apply (adds_fold (ruleIn vendorRules)). intros n v'.
  set (needsStandard := isStandardProperty _ _ && _).
  apply (adds_compose _
           (fun v => if needsStandard
                     then addEntry n Rules.IncludeStandardPropertyWhenUsingVendorPrefix _ v
                     else v)
           (fun v => match getMissingNames _ _ with
                     | Some m => if JS.truthy m then addEntry n Rules.AllVendorPrefixes _ v else v
                     | None => v
                     end)).
  - destruct needsStandard; [|apply adds_id].
    apply ruleIn_addEntry. rule_mem.
  - destruct (getMissingNames _ _) as [m|]; [|apply adds_id].
    destruct (JS.truthy m); [|apply adds_id].
    apply ruleIn_addEntry. rule_mem.
Qed.

Lemma vendorPrefixes_adds (n : Node) (propertyTable : list Element) :
  adds (ruleIn vendorRules) (vendorPrefixes n propertyTable).
Proof.
  intros v. unfold vendorPrefixes.
  destruct (negb (nodes.matches _ _ _)); [|apply adds_id].
  set (st0 := {| vs_visitor := v; propertiesBySuffix := _; containsUnknowns := _ |}).
  destruct (fold_checkProperty_adds propertyTable st0) as (ms & Hms & HQ).
  destruct (negb _).
  - destruct (adds_fold (ruleIn vendorRules) checkRoot
                (JSObject.enumerate
                   (propertiesBySuffix (fold_left checkProperty propertyTable st0)))
                checkRoot_adds
                (vs_visitor (fold_left checkProperty propertyTable st0)))
      as (ms' & -> & HQ').
    rewrite Hms. exists (ms ++ ms'). split; [apply emit_emit|now apply Forall_app].
  - exists ms. split; assumption.
Qed.

(** *** Duplicate declarations *)

Lemma flat_map_if {A B} (c : A -> bool) (m : B) (l : list A) :
  flat_map (fun x => if c x then [m] else []) l = List.map (fun _ => m) (List.filter c l).
Proof.
  induction l as [|x l IH]; simpl; [reflexivity|].
  destruct (c x); simpl; now rewrite IH.
Qed.

Lemma filter_filter_andb {A} (f g : A -> bool) (l : list A) :
  List.filter f (List.filter g l) = List.filter (fun x => g x && f x) l.
Proof.
  induction l as [|x l IH]; simpl; [reflexivity|].
  destruct (g x); simpl; [destruct (f x)|]; now rewrite IH.
Qed.

Lemma rivals_fetch (v : LintVisitor) (table : list Element) (e : Element) :
  rivals v table e
  = List.filter (fun ek => valueNotDashed v (node ek) && negb (ref ek =? ref e)%nat)
      (fetch table (fullPropertyName e)).
Proof.
  unfold rivals, sameName, fetch. rewrite !filter_filter_andb.
  apply List.filter_ext. intros ek. now rewrite andb_assoc.
Qed.

Lemma singleton_of_In {A} (x : A) (l : list A) :
  In x l -> (1 <? List.length l)%nat = false -> l = [x].
Proof.
  destruct l as [|y [|z l]]; simpl; intros Hin Hlen.
  - contradiction.
  - destruct Hin as [->|[]]. reflexivity.
  - discriminate.
Qed.

Lemma duplicateDeclarations_emit (table : list Element) (v : LintVisitor) :
  duplicateDeclarations table v = emit v (duplicateMarkers v table).
Proof.
  unfold duplicateDeclarations, duplicateMarkers.
  apply (fold_emit _
           (fun v e =>
              if flaggable v e then
                List.map
                  (fun _ => mkMarker (node e) Rules.DuplicateDeclarations
                              (getRule (settings v) Rules.DuplicateDeclarations) None)
                  (rivals v table e)
              else [])); [|reflexivity].
  clear v. intros v e He. unfold flaggable.
  destruct (negb (String.eqb _ _) && negb (isValid _ _)); simpl; [|now rewrite emit_nil].
  destruct (valueNotDashed v (node e)); [|now rewrite emit_nil].
  rewrite rivals_fetch, <- flat_map_if.
  destruct (1 <? List.length (fetch table (fullPropertyName e)))%nat eqn:Hlen.
  - apply (fold_emit _
             (fun v ek =>
                if valueNotDashed v (node ek) && negb (ref ek =? ref e)%nat
                then [mkMarker (node e) Rules.DuplicateDeclarations
                        (getRule (settings v) Rules.DuplicateDeclarations) None]
                else [])); [|reflexivity].
    intros v' ek _. destruct (_ && _); [reflexivity|now rewrite emit_nil].
  - rewrite (singleton_of_In e (fetch table (fullPropertyName e))); [| |exact Hlen].
    + simpl. rewrite Nat.eqb_refl, andb_false_r. simpl. now rewrite emit_nil.
    + apply List.filter_In. split; [exact He|apply String.eqb_refl].
Qed.

Lemma duplicateMarkers_rule (v : LintVisitor) (table : list Element) :
  Forall (fun m => nodes.getRule m = Rules.DuplicateDeclarations) (duplicateMarkers v table).
Proof.
  unfold duplicateMarkers. apply List.Forall_forall. intros m Hm.
  apply in_flat_map in Hm as (e & _ & Hm).
  destruct (flaggable v e); [|contradiction].
  apply in_map_iff in Hm as (? & <- & _). reflexivity.
Qed.

Section RuleSet.

Variable calculateBoxModel : list Element -> BoxModel.
Variable union : list Element -> list Element -> list Element.

Lemma visitRuleSet_split (n declarations : Node) (v : LintVisitor) :
  nodes.BodyDeclaration_getDeclarations n = Some declarations ->
  exists before,
    Forall (ruleIn earlyRules) before
    /\ visitRuleSet calculateBoxModel union n v
       = (true,
          vendorPrefixes n (propertyTable_of declarations)
            (emit v (before ++ duplicateMarkers v (propertyTable_of declarations)))).
Proof.
  intros Hdecl. unfold visitRuleSet. rewrite Hdecl.
  set (table := propertyTable_of declarations).
  set (boxModel := calculateBoxModel table).
  assert (adds (ruleIn earlyRules)
            (fun v => if negb (nodes.hasChildren declarations)
                      then addEntry (nodes.RuleSet_getSelectors n) Rules.EmptyRuleSet None v
                      else v)) as H0.
  { destruct (negb _); [|apply adds_id].
    apply ruleIn_addEntry. rule_mem. }
  assert (forall rule (f : LintVisitor -> LintVisitor),
             rule ∈ earlyRules -> adds (ruleIn [rule]) f -> adds (ruleIn earlyRules) f)
    as Hweak.
  { intros rule f Hin Hf v0. destruct (Hf v0) as (ms & -> & Hms).
    exists ms. split; [reflexivity|].
    eapply Forall_impl; [exact Hms|]. intros m Hm.
    unfold ruleIn in *. apply list_elem_of_In in Hm as [<-|[]]. exact Hin. }
  assert (adds (ruleIn earlyRules)
            (bewareOfBoxModelSize union (width boxModel) (right boxModel) (left boxModel)))
    as H1.
  { apply (Hweak Rules.BewareOfBoxModelSize); [rule_mem|apply bewareOfBoxModelSize_adds]. }
  assert (adds (ruleIn earlyRules)
            (bewareOfBoxModelSize union (height boxModel) (top boxModel) (bottom boxModel)))
    as H2.
  { apply (Hweak Rules.BewareOfBoxModelSize); [rule_mem|apply bewareOfBoxModelSize_adds]. }
  assert (adds (ruleIn earlyRules) (propertyIgnoredDueToDisplay table)) as H3.
  { apply (Hweak Rules.PropertyIgnoredDueToDisplay);
      [rule_mem|apply propertyIgnoredDueToDisplay_adds]. }
  assert (adds (ruleIn earlyRules) (avoidFloat table)) as H4.
  { apply (Hweak Rules.AvoidFloat); [rule_mem|apply avoidFloat_adds]. }
  pose proof (adds_compose _ _ _ (adds_compose _ _ _ (adds_compose _ _ _
                (adds_compose _ _ _ H0 H1) H2) H3) H4) as Hall.
  destruct (Hall v) as (before & Hbefore & HQ). simpl in Hbefore.
  exists before. split; [exact HQ|].
  rewrite Hbefore, duplicateDeclarations_emit, emit_emit. reflexivity.
Qed.

Lemma ruleIn_other (rs : list Rule) (rule : Rule) (ms : list Marker) :
  rule ∉ rs -> Forall (ruleIn rs) ms -> markersOf rule ms = [].
Proof.
  intros Hnot Hms. apply markersOf_other.
  eapply Forall_impl; [exact Hms|]. intros m Hm Heq. apply Hnot.
  rewrite <- Heq. exact Hm.
Qed.

Lemma visitRuleSet_duplicates (n declarations : Node) (v : LintVisitor) :
  nodes.BodyDeclaration_getDeclarations n = Some declarations ->
  markersOf Rules.DuplicateDeclarations
    (warnings (snd (visitRuleSet calculateBoxModel union n v)))
  = markersOf Rules.DuplicateDeclarations (warnings v)
    ++ duplicateMarkers v (propertyTable_of declarations).
Proof.
  intros Hdecl.
  destruct (visitRuleSet_split n declarations v Hdecl) as (before & Hbefore & ->).
  cbn [snd].
  destruct (vendorPrefixes_adds n (propertyTable_of declarations)
              (emit v (before ++ duplicateMarkers v (propertyTable_of declarations))))
    as (after & -> & Hafter).
  rewrite emit_emit, warnings_emit, !markersOf_app.
  rewrite (ruleIn_other earlyRules _ before) by (assumption || rule_mem).
  rewrite (ruleIn_other vendorRules _ after) by (assumption || rule_mem).
  rewrite (markersOf_same _ _ (duplicateMarkers_rule _ _)).
  now rewrite app_nil_r.
Qed.

End RuleSet.

(** The elements of a property table are numbered by their slots. *)
Lemma propertyTable_of_refs (declarations : Node) :
  List.map ref (propertyTable_of declarations)
  = seq 0 (List.length (propertyTable_of declarations)).
Proof.
  unfold propertyTable_of.
  assert (forall cs acc,
             List.map ref acc = seq 0 (List.length acc) ->
             let table :=
               fold_left
                 (fun (propertyTable : list Element) (element : Node) =>
                    if nodes.instanceof_Declaration element
                    then propertyTable ++ [new_Element (List.length propertyTable) element]
                    else propertyTable) cs acc in
             List.map ref table = seq 0 (List.length table)) as H.
  { induction cs as [|c cs IH]; intros acc Hacc; simpl; [exact Hacc|].
    apply IH. destruct (nodes.instanceof_Declaration c); [|exact Hacc].
    rewrite List.map_app, List.length_app, Hacc. simpl.
    now rewrite seq_app. }
  apply H. reflexivity.
Qed.

Lemma NoDup_map_filter {A B} (f : A -> B) (p : A -> bool) (l : list A) :
  List.NoDup (List.map f l) -> List.NoDup (List.map f (List.filter p l)).
Proof.
  induction l as [|x l IH]; simpl; intros H; [constructor|].
  inversion H as [|? ? Hx Hl]; subst.
  destruct (p x); simpl; [|now apply IH].
  constructor; [|now apply IH].
  intros Hin. apply Hx. apply in_map_iff in Hin as (y & Hy & Hin).
  apply in_map_iff. exists y. split; [exact Hy|].
  now apply List.filter_In in Hin as [Hin _].
Qed.

Lemma length_filter_others (S : list Element) (e : Element) :
  List.NoDup (List.map ref S) -> In e S ->
  List.length (List.filter (fun ek => negb (ref ek =? ref e)%nat) S)
  = (List.length S - 1)%nat.
Proof.
  induction S as [|x S IH]; simpl; intros Hnd Hin; [contradiction|].
  inversion Hnd as [|? ? Hx HS]; subst.
  destruct Hin as [->|Hin].
  - rewrite Nat.eqb_refl. simpl.
    rewrite (List.forallb_filter_id _ S); [lia|].
    apply forallb_forall. intros y Hy.
    apply negb_true_iff, Nat.eqb_neq. intros Heq.
    apply Hx. rewrite <- Heq. now apply in_map.
  - assert ((ref x =? ref e)%nat = false) as ->.
    { apply Nat.eqb_neq. intros Heq. apply Hx. rewrite Heq. now apply in_map. }
    simpl. rewrite IH by assumption.
    destruct S; [contradiction|simpl; lia].
Qed.

Lemma rivals_nil_of_single (v : LintVisitor) (table : list Element) (e : Element) :
  In e table -> valueNotDashed v (node e) = true ->
  (List.length (sameName v table (fullPropertyName e)) <= 1)%nat ->
  rivals v table e = [].
Proof.
  intros He Hval Hlen. unfold rivals.
  rewrite (singleton_of_In e (sameName v table (fullPropertyName e))).
  - simpl. now rewrite Nat.eqb_refl.
  - apply List.filter_In. split; [exact He|].
    now rewrite String.eqb_refl, Hval.
  - apply Nat.ltb_ge. exact Hlen.
Qed.

Lemma flat_map_all_nil {A B} (f : A -> list B) (l : list A) :
  (forall x, In x l -> f x = []) -> flat_map f l = [].
Proof.
  induction l as [|x l IH]; intros H; simpl; [reflexivity|].
  rewrite (H x) by now left. apply IH. intros y Hy. apply H. now right.
Qed.

Lemma duplicateMarkers_nil (v : LintVisitor) (table : list Element) :
  (forall e, In e table ->
             (List.length (sameName v table (fullPropertyName e)) <= 1)%nat) ->
  duplicateMarkers v table = [].
Proof.
  intros H. unfold duplicateMarkers. apply flat_map_all_nil. intros e He.
  destruct (flaggable v e) eqn:Hflag; [|reflexivity].
  rewrite rivals_nil_of_single; [reflexivity|exact He| |now apply H].
  unfold flaggable in Hflag. now apply andb_true_iff in Hflag as [_ Hval].
Qed.

(** C4. In [.a { color: red; color: blue; }] both declarations get a
    [DuplicateDeclarations] marker; in [.a { color: red; color: -blue; }]
    none is emitted; and in every block where no two declarations with a
    value that does not start with a dash share a name, none is emitted: a
    declaration is never taken for its own duplicate. *)
Theorem visitRuleSet_duplicate_declarations
    (calculateBoxModel : list Element -> BoxModel)
    (union : list Element -> list Element -> list Element) :
  markersOf Rules.DuplicateDeclarations
    (warnings (snd (visitRuleSet calculateBoxModel union red_blue
                      (sample_visitor red_blue_text))))
  = [mkMarker red_blue_1 Rules.DuplicateDeclarations nodes.Warning None;
     mkMarker red_blue_2 Rules.DuplicateDeclarations nodes.Warning None]
  /\ markersOf Rules.DuplicateDeclarations
       (warnings (snd (visitRuleSet calculateBoxModel union red_dash
                         (sample_visitor red_dash_text))))
     = []
  /\ (forall (n declarations : Node) (v : LintVisitor),
        nodes.BodyDeclaration_getDeclarations n = Some declarations ->
        (forall e, In e (propertyTable_of declarations) ->
           (List.length (sameName v (propertyTable_of declarations) (fullPropertyName e))
            <= 1)%nat) ->
        markersOf Rules.DuplicateDeclarations
          (warnings (snd (visitRuleSet calculateBoxModel union n v)))
        = markersOf Rules.DuplicateDeclarations (warnings v)).
Proof.
  split; [|split].
  - erewrite visitRuleSet_duplicates by reflexivity. vm_compute. reflexivity.
  - erewrite visitRuleSet_duplicates by reflexivity. vm_compute. reflexivity.
  - intros n declarations v Hdecl Hsingle.
    rewrite (visitRuleSet_duplicates _ _ n declarations v Hdecl).
    rewrite duplicateMarkers_nil by exact Hsingle. apply app_nil_r.
Qed.

Lemma visitRuleSet_duplicate_declarations_witness :
  List.map (fun e => nodes.getText red_dash_text (node e))
    (propertyTable_of (mkNode nodes.Declarations 3 29 [red_blue_1; red_dash_2]
                         nodes.CDeclarations))
  = ["color: red"; "color: -blue"]
  /\ markersOf Rules.DuplicateDeclarations
       (warnings (snd (visitRuleSet sample_calculateBoxModel sample_union red_dash
                         (sample_visitor red_dash_text))))
     = [].
Proof.
  split; [reflexivity|].
  apply (visitRuleSet_duplicate_declarations sample_calculateBoxModel sample_union)
    with (declarations := mkNode nodes.Declarations 3 29 [red_blue_1; red_dash_2]
                            nodes.CDeclarations).
  - reflexivity.
  - intros e He. vm_compute in He.
    destruct He as [<-|[<-|[]]]; vm_compute; lia.
Defined.

Lemma markersOn_markersOf (rule : Rule) (n : Node) (ws : list Marker) :
  markersOn rule n ws
  = List.filter (fun m => bool_decide (nodes.getNode m = n)) (markersOf rule ws).
Proof. unfold markersOn, markersOf. now rewrite filter_filter_andb. Qed.

Lemma filter_node_map (e x : Element) (level : Level) (l : list Element) :
  List.filter (fun m => bool_decide (nodes.getNode m = node e))
    (List.map (fun _ => mkMarker (node x) Rules.DuplicateDeclarations level None) l)
  = if bool_decide (node x = node e)
    then List.map (fun _ => mkMarker (node x) Rules.DuplicateDeclarations level None) l
    else [].
Proof.
  induction l as [|y l IH]; simpl; [now destruct (bool_decide _)|].
  rewrite IH. now destruct (bool_decide (node x = node e)).
Qed.

Lemma filter_node_blocks_other (v : LintVisitor) (riv : Element -> list Element)
    (e : Element) (table : list Element) :
  ~ In (node e) (List.map node table) ->
  List.filter (fun m => bool_decide (nodes.getNode m = node e))
    (flat_map
       (fun x =>
          if flaggable v x then
            List.map
              (fun _ => mkMarker (node x) Rules.DuplicateDeclarations
                          (getRule (settings v) Rules.DuplicateDeclarations) None)
              (riv x)
          else [])
       table)
  = [].
Proof.
  induction table as [|y table IH]; simpl; intros Hnot; [reflexivity|].
  rewrite List.filter_app, IH by tauto.
  destruct (flaggable v y); [|reflexivity].
  rewrite filter_node_map, bool_decide_eq_false_2; [reflexivity|].
  intros Heq. apply Hnot. now left.
Qed.

(** Among the duplicate markers of a block whose declarations are distinct
    nodes, those on a declaration are the ones emitted for it. *)
Lemma duplicateMarkers_on (v : LintVisitor) (table : list Element) (e : Element) :
  List.NoDup (List.map node table) -> In e table -> flaggable v e = true ->
  List.length
    (List.filter (fun m => bool_decide (nodes.getNode m = node e))
       (duplicateMarkers v table))
  = List.length (rivals v table e).
Proof.
  unfold duplicateMarkers. generalize (rivals v table) as riv. intros riv.
  induction table as [|x table IH]; simpl; intros Hnd Hin Hflag; [contradiction|].
  inversion Hnd as [|? ? Hx Htable]; subst.
  rewrite List.filter_app, List.length_app.
  destruct Hin as [->|Hin].
  - rewrite Hflag, filter_node_map, bool_decide_eq_true_2, List.length_map by reflexivity.
    rewrite filter_node_blocks_other by exact Hx. simpl. lia.
  - rewrite IH by assumption.
    assert (node x <> node e) as Hne.
    { intros Heq. apply Hx. rewrite Heq. now apply in_map. }
    destruct (flaggable v x); [|reflexivity].
    rewrite filter_node_map, bool_decide_eq_false_2 by exact Hne. reflexivity.
Qed.

Lemma length_rivals (v : LintVisitor) (declarations : Node) (e : Element) :
  In e (propertyTable_of declarations) -> valueNotDashed v (node e) = true ->
  List.length (rivals v (propertyTable_of declarations) e)
  = (List.length (sameName v (propertyTable_of declarations) (fullPropertyName e)) - 1)%nat.
Proof.
  intros He Hval. unfold rivals. apply length_filter_others.
  - apply NoDup_map_filter. rewrite propertyTable_of_refs. apply List.seq_NoDup.
  - apply List.filter_In. split; [exact He|].
    now rewrite String.eqb_refl, Hval.
Qed.

(** C10. In a block whose declarations are distinct nodes, a declaration
    whose name is not [background], for whose name [validProperties]
    yields nothing truthy, and whose value does not start with a dash gets
    one [DuplicateDeclarations] marker less than the block has
    declarations of that name with a value that does not start with a
    dash: with [n] of them, each gets [n - 1].  But [validProperties]
    yields a truthy value for a name no one declared valid when every
    object inherits a property of that name: the two declarations of
    [:export { constructor: red; constructor: blue; }] get no marker,
    with no name declared valid. *)
Theorem visitRuleSet_duplicate_count
    (calculateBoxModel : list Element -> BoxModel)
    (union : list Element -> list Element -> list Element) :
  (forall (n declarations : Node) (v : LintVisitor) (e : Element),
      nodes.BodyDeclaration_getDeclarations n = Some declarations ->
      List.NoDup (List.map node (propertyTable_of declarations)) ->
      In e (propertyTable_of declarations) ->
      flaggable v e = true ->
      List.length
        (markersOn Rules.DuplicateDeclarations (node e)
           (warnings (snd (visitRuleSet calculateBoxModel union n v))))
      = (List.length (markersOn Rules.DuplicateDeclarations (node e) (warnings v))
         + (List.length (sameName v (propertyTable_of declarations) (fullPropertyName e))
            - 1))%nat)
  /\ (validProperties (sample_visitor export_constructors_text) = ∅
      /\ List.map
           (fun e =>
              (nodes.getText export_constructors_text (node e), fullPropertyName e,
               valueNotDashed (sample_visitor export_constructors_text) (node e)))
           (propertyTable_of export_constructors_declarations)
         = [("constructor: red", "constructor", true);
            ("constructor: blue", "constructor", true)]
      /\ markersOf Rules.DuplicateDeclarations
           (warnings (snd (visitRuleSet calculateBoxModel union export_constructors
                             (sample_visitor export_constructors_text))))
         = []).
Proof.
  split.
  - intros n declarations v e Hdecl Hnd He Hflag.
    rewrite !markersOn_markersOf.
    rewrite (visitRuleSet_duplicates _ _ n declarations v Hdecl).
    rewrite List.filter_app, List.length_app. f_equal.
    rewrite duplicateMarkers_on by assumption.
    apply length_rivals; [exact He|].
    unfold flaggable in Hflag. now apply andb_true_iff in Hflag as [_ Hval].
  - split; [reflexivity|]. split; [reflexivity|].
    rewrite (visitRuleSet_duplicates _ _ export_constructors
               export_constructors_declarations _ eq_refl).
    vm_compute. reflexivity.
Qed.

Lemma visitRuleSet_duplicate_count_witness :
  List.map
    (fun d =>
       (nodes.getText three_colors_text d,
        List.length
          (markersOn Rules.DuplicateDeclarations d
             (warnings (snd (visitRuleSet sample_calculateBoxModel sample_union three_colors
                               (sample_visitor three_colors_text)))))))
    [red_blue_1; red_blue_2; three_colors_3]
  = [("color: red", 2%nat); ("color: blue", 2%nat); ("color: green", 2%nat)].
Proof.
  pose proof (fun e =>
    proj1 (visitRuleSet_duplicate_count sample_calculateBoxModel sample_union) three_colors
      (mkNode nodes.Declarations 3 42 [red_blue_1; red_blue_2; three_colors_3]
         nodes.CDeclarations)
      (sample_visitor three_colors_text) e eq_refl) as H.
  assert (List.NoDup
            (List.map node
               (propertyTable_of
                  (mkNode nodes.Declarations 3 42 [red_blue_1; red_blue_2; three_colors_3]
                     nodes.CDeclarations)))) as Hnd.
  { apply (NoDup_map_inv nodes.offset). vm_compute.
    repeat constructor; simpl; intuition discriminate. }
  cbn [List.map].
  pose proof (H (new_Element 0 red_blue_1) Hnd ltac:(vm_compute; tauto) eq_refl) as H1.
  pose proof (H (new_Element 1 red_blue_2) Hnd ltac:(vm_compute; tauto) eq_refl) as H2.
  pose proof (H (new_Element 2 three_colors_3) Hnd ltac:(vm_compute; tauto) eq_refl) as H3.
  cbn [node new_Element] in H1, H2, H3. rewrite H1, H2, H3.
  reflexivity.
Defined.

(** *** Vendor prefixes *)

Lemma getMissingNames_s2foo (actual_rest : list string) (v : LintVisitor) :
  getMissingNames (expectedNames v "foo") ("-s2-foo" :: actual_rest) = None.
Proof.
  unfold expectedNames, prefixes. cbn [fold_left].
  change ("-s2-" +:+ "foo") with "-s2-foo".
  destruct (isStandardProperty (cssDataManager v) "-s2-foo").
  - rewrite getMissingNames_render. reflexivity.
  - rewrite getMissingNames_render. reflexivity.
Qed.

(** Both spellings seen: the root [foo] asks for nothing. *)
Lemma checkRoot_foo_both (v : LintVisitor) (ns : list Node) :
  checkRoot v ("foo", {| NodesByRootMap.nodes := ns;
                         NodesByRootMap.names := ["-s2-foo"; "foo"] |}) = v.
Proof.
  unfold checkRoot. cbn [fst snd NodesByRootMap.names NodesByRootMap.nodes].
  rewrite getMissingNames_s2foo.
  replace (JS.indexOf ["-s2-foo"; "foo"] "foo" =? -1) with false by reflexivity.
  rewrite !andb_false_r. reflexivity.
Qed.

(** Only the prefixed spelling seen, [foo] a standard property: the
    standard property is asked for on the one node of the root. *)
Lemma checkRoot_foo_only (v : LintVisitor) (p : Node) :
  isStandardProperty (cssDataManager v) "foo" = true ->
  checkRoot v ("foo", {| NodesByRootMap.nodes := [p];
                         NodesByRootMap.names := ["-s2-foo"] |})
  = emit v [mkMarker p Rules.IncludeStandardPropertyWhenUsingVendorPrefix
              (getRule (settings v) Rules.IncludeStandardPropertyWhenUsingVendorPrefix)
              (Some "Also define the standard property 'foo' for compatibility")].
Proof.
  intros Hstd. unfold checkRoot.
  cbn [fst snd NodesByRootMap.names NodesByRootMap.nodes].
  rewrite getMissingNames_s2foo, Hstd.
  replace (JS.indexOf ["-s2-foo"] "foo" =? -1) with true by reflexivity.
  reflexivity.
Qed.

Lemma isCSSDeclaration_property (d : Node) :
  isCSSDeclaration d = true ->
  nodes.instanceof_Declaration d = true
  /\ exists p, nodes.Declaration_getProperty d = Some p.
Proof.
  unfold isCSSDeclaration.
  destruct (nodes.instanceof_Declaration d); [|discriminate].
  destruct (nodes.Declaration_getValue d); [|discriminate].
  destruct (nodes.Declaration_getProperty d) as [p|]; [|discriminate].
  intros _. split; [reflexivity|]. now exists p.
Qed.

(** The declaration [-s2-foo] is entered under the root [foo] with its
    property node. *)
Lemma checkProperty_s2foo (st : VendorState) (slot : nat) (d p : Node) :
  isCSSDeclaration d = true ->
  nodes.Declaration_getFullPropertyName d = "-s2-foo" ->
  nodes.Declaration_getProperty d = Some p ->
  exists ms,
    Forall (ruleIn [Rules.UnknownVendorSpecificProperty]) ms
    /\ checkProperty st (new_Element slot d)
       = {| vs_visitor := emit (vs_visitor st) ms;
            propertiesBySuffix :=
              NodesByRootMap.add "foo" "-s2-foo" (Some p) (propertiesBySuffix st);
            containsUnknowns := containsUnknowns st |}.
Proof.
  intros Hcss Hname Hprop. unfold checkProperty, new_Element.
  cbn [node fullPropertyName]. rewrite Hcss, Hname.
  unfold nodes.Declaration_getNonPrefixedPropertyName. rewrite Hname, Hprop.
  replace (JS.toLowerCase "-s2-foo") with "-s2-foo" by reflexivity.
  replace (String.eqb (JS.charAt "-s2-foo" 0) "-") with true by reflexivity.
  replace (String.eqb (JS.charAt "-s2-foo" 1) "-") with false by reflexivity.
  cbn [negb].
  replace (if String.eqb (JS.charAt "-s2-foo" 0) "-"
           then if JS.indexOfChar_from "-s2-foo" "-" 1 0 =? -1 then "-s2-foo"
                else JS.substr_from "-s2-foo" (JS.indexOfChar_from "-s2-foo" "-" 1 0 + 1)
           else "-s2-foo") with "foo" by reflexivity.
  destruct (negb _ && negb _).
  - eexists. split; [|unfold addEntry_property; rewrite Hprop, addEntry_emit; reflexivity].
    repeat constructor.
  - exists []. split; [constructor|]. now rewrite emit_nil.
Qed.

(** The declaration [foo] is entered under the root [foo] without a
    node. *)
Lemma checkProperty_foo (st : VendorState) (slot : nat) (d : Node) :
  isCSSDeclaration d = true ->
  nodes.Declaration_getFullPropertyName d = "foo" ->
  exists ms,
    Forall (ruleIn [Rules.UnknownProperty]) ms
    /\ checkProperty st (new_Element slot d)
       = {| vs_visitor := emit (vs_visitor st) ms;
            propertiesBySuffix :=
              NodesByRootMap.add "foo" "foo" None (propertiesBySuffix st);
            containsUnknowns := containsUnknowns st |}.
Proof.
  intros Hcss Hname. unfold checkProperty, new_Element.
  cbn [node fullPropertyName]. rewrite Hcss, Hname.
  replace (JS.toLowerCase "foo") with "foo" by reflexivity.
  replace (String.eqb (JS.charAt "foo" 0) "-") with false by reflexivity.
  replace (String.eqb (JS.charAt "foo" 0) "*" || String.eqb (JS.charAt "foo" 0) "_")
    with false by reflexivity.
  cbn iota.
  destruct (negb _ && negb _); [destruct (negb (isValid _ _))|].
  - destruct (isCSSDeclaration_property d Hcss) as (_ & p & Hprop).
    eexists. split; [|unfold addEntry_property; rewrite Hprop, addEntry_emit; reflexivity].
    repeat constructor.
  - exists []. split; [constructor|]. now rewrite emit_nil.
  - exists []. split; [constructor|]. now rewrite emit_nil.
Qed.

Lemma vendorPrefixes_s2foo_foo (n d1 d2 : Node) (v : LintVisitor) :
  isCSSDeclaration d1 = true -> isCSSDeclaration d2 = true ->
  nodes.Declaration_getFullPropertyName d1 = "-s2-foo" ->
  nodes.Declaration_getFullPropertyName d2 = "foo" ->
  exists ms,
    Forall (ruleIn [Rules.UnknownVendorSpecificProperty; Rules.UnknownProperty]) ms
    /\ vendorPrefixes n [new_Element 0 d1; new_Element 1 d2] v = emit v ms.
Proof.
  intros Hcss1 Hcss2 Hname1 Hname2. unfold vendorPrefixes.
  destruct (negb _); [|exists []; split; [constructor|now rewrite emit_nil]].
  destruct (isCSSDeclaration_property d1 Hcss1) as (_ & p & Hprop).
  cbn [fold_left].
  destruct (checkProperty_s2foo
              {| vs_visitor := v; propertiesBySuffix := NodesByRootMap.empty;
                 containsUnknowns := false |} 0 d1 p Hcss1 Hname1 Hprop)
    as (ms1 & Hms1 & ->).
  cbn [vs_visitor propertiesBySuffix containsUnknowns].
  match goal with
  | |- context [checkProperty ?st (new_Element 1 d2)] =>
      destruct (checkProperty_foo st 1 d2 Hcss2 Hname2) as (ms2 & Hms2 & ->)
  end.
  cbn -[JSObject.enumerate].
  rewrite enumerate_no_index by (repeat constructor). cbn [fold_left].
  rewrite checkRoot_foo_both, emit_emit.
  exists (ms1 ++ ms2). split; [|reflexivity].
  apply Forall_app. split; (eapply Forall_impl; [eassumption|]);
    intros m Hm; unfold ruleIn in *; apply list_elem_of_In in Hm as [<-|[]]; rule_mem.
Qed.

Lemma vendorPrefixes_s2foo_only (n d p : Node) (v : LintVisitor) :
  isCSSDeclaration d = true ->
  nodes.Declaration_getFullPropertyName d = "-s2-foo" ->
  nodes.Declaration_getProperty d = Some p ->
  isStandardProperty (cssDataManager v) "foo" = true ->
  nodes.matches (documentText v) (nodes.RuleSet_getSelectors n) ":export" = false ->
  exists ms,
    Forall (ruleIn [Rules.UnknownVendorSpecificProperty]) ms
    /\ vendorPrefixes n [new_Element 0 d] v
       = emit v
           (ms ++
            [mkMarker p Rules.IncludeStandardPropertyWhenUsingVendorPrefix
               (getRule (settings v) Rules.IncludeStandardPropertyWhenUsingVendorPrefix)
               (Some "Also define the standard property 'foo' for compatibility")]).
Proof.
  intros Hcss Hname Hprop Hstd Hexport. unfold vendorPrefixes. rewrite Hexport.
  cbn [negb fold_left].
  destruct (checkProperty_s2foo
              {| vs_visitor := v; propertiesBySuffix := NodesByRootMap.empty;
                 containsUnknowns := false |} 0 d p Hcss Hname Hprop)
    as (ms1 & Hms1 & ->).
  cbn -[JSObject.enumerate].
  rewrite enumerate_no_index by (repeat constructor). cbn [fold_left].
  rewrite checkRoot_foo_only by exact Hstd. rewrite emit_emit.
  exists ms1. split; [exact Hms1|reflexivity].
Qed.

Lemma visitRuleSet_before_vendor
    (calculateBoxModel : list Element -> BoxModel)
    (union : list Element -> list Element -> list Element)
    (n declarations : Node) (v : LintVisitor) (rule : Rule) :
  nodes.BodyDeclaration_getDeclarations n = Some declarations ->
  rule ∈ vendorRules ->
  exists ms,
    markersOf rule ms = []
    /\ snd (visitRuleSet calculateBoxModel union n v)
       = vendorPrefixes n (propertyTable_of declarations) (emit v ms).
Proof.
  intros Hdecl Hrule.
  destruct (visitRuleSet_split calculateBoxModel union n declarations v Hdecl)
    as (before & Hbefore & ->).
  eexists. split; [|reflexivity].
  rewrite markersOf_app, (ruleIn_other earlyRules _ before); [| |exact Hbefore].
  - apply markersOf_other.
    eapply Forall_impl; [apply duplicateMarkers_rule|].
    intros m Hm Heq.
    assert (rule = Rules.DuplicateDeclarations) as Hdup by congruence.
    revert Hrule. rewrite Hdup. rule_mem.
  - intros Hearly. revert Hrule Hearly. unfold vendorRules, earlyRules.
    rewrite !list_elem_of_In. simpl. intuition congruence.
Qed.

(** C2. In a block of the two genuine declarations [-s2-foo] and [foo],
    no [IncludeStandardPropertyWhenUsingVendorPrefix] and no
    [AllVendorPrefixes] marker is emitted, whether or not [-s2-foo] is a
    standard spelling. In a block the check applies to (one that is not
    an [:export] block, which the check skips) with the one genuine
    declaration [-s2-foo] and [foo] a standard property, one
    [IncludeStandardPropertyWhenUsingVendorPrefix] marker is put on the
    property node of the declaration, and no [AllVendorPrefixes] marker is
    emitted. *)
Theorem visitRuleSet_vendor_prefix_completion
    (calculateBoxModel : list Element -> BoxModel)
    (union : list Element -> list Element -> list Element) :
  (forall (n declarations d1 d2 : Node) (v : LintVisitor) (rule : Rule),
      rule ∈ [Rules.IncludeStandardPropertyWhenUsingVendorPrefix; Rules.AllVendorPrefixes] ->
      nodes.BodyDeclaration_getDeclarations n = Some declarations ->
      nodes.getChildren declarations = [d1; d2] ->
      isCSSDeclaration d1 = true -> isCSSDeclaration d2 = true ->
      nodes.Declaration_getFullPropertyName d1 = "-s2-foo" ->
      nodes.Declaration_getFullPropertyName d2 = "foo" ->
      markersOf rule (warnings (snd (visitRuleSet calculateBoxModel union n v)))
      = markersOf rule (warnings v))
  /\ (forall (n declarations d p : Node) (v : LintVisitor),
        nodes.BodyDeclaration_getDeclarations n = Some declarations ->
        nodes.getChildren declarations = [d] ->
        isCSSDeclaration d = true ->
        nodes.Declaration_getFullPropertyName d = "-s2-foo" ->
        nodes.Declaration_getProperty d = Some p ->
        isStandardProperty (cssDataManager v) "foo" = true ->
        nodes.matches (documentText v) (nodes.RuleSet_getSelectors n) ":export" = false ->
        markersOf Rules.IncludeStandardPropertyWhenUsingVendorPrefix
          (warnings (snd (visitRuleSet calculateBoxModel union n v)))
        = markersOf Rules.IncludeStandardPropertyWhenUsingVendorPrefix (warnings v)
          ++ [mkMarker p Rules.IncludeStandardPropertyWhenUsingVendorPrefix
                (getRule (settings v) Rules.IncludeStandardPropertyWhenUsingVendorPrefix)
                (Some "Also define the standard property 'foo' for compatibility")]
        /\ markersOf Rules.AllVendorPrefixes
             (warnings (snd (visitRuleSet calculateBoxModel union n v)))
           = markersOf Rules.AllVendorPrefixes (warnings v)).
Proof.
  split.
  - intros n declarations d1 d2 v rule Hrule Hdecl Hchildren Hcss1 Hcss2 Hname1 Hname2.
    assert (rule ∈ vendorRules) as Hvendor.
    { revert Hrule. unfold vendorRules. rewrite !list_elem_of_In. simpl. tauto. }
    destruct (visitRuleSet_before_vendor calculateBoxModel union n declarations v rule
                Hdecl Hvendor) as (ms & Hms & ->).
    assert (propertyTable_of declarations = [new_Element 0 d1; new_Element 1 d2]) as ->.
    { unfold propertyTable_of. rewrite Hchildren. simpl.
      destruct (isCSSDeclaration_property d1 Hcss1) as (-> & _).
      destruct (isCSSDeclaration_property d2 Hcss2) as (-> & _). reflexivity. }
    destruct (vendorPrefixes_s2foo_foo n d1 d2 (emit v ms) Hcss1 Hcss2 Hname1 Hname2)
      as (ms' & Hms' & ->).
    rewrite emit_emit, warnings_emit, !markersOf_app, Hms.
    assert (rule ∉ [Rules.UnknownVendorSpecificProperty; Rules.UnknownProperty]) as Hnot.
    { revert Hrule. rewrite !list_elem_of_In. simpl. intuition congruence. }
    rewrite (ruleIn_other _ _ ms' Hnot Hms'). now rewrite app_nil_r.
  - intros n declarations d p v Hdecl Hchildren Hcss Hname Hprop Hstd Hexport.
    assert (propertyTable_of declarations = [new_Element 0 d]) as Htable.
    { unfold propertyTable_of. rewrite Hchildren. simpl.
      destruct (isCSSDeclaration_property d Hcss) as (-> & _). reflexivity. }
    split.
    + assert (Rules.IncludeStandardPropertyWhenUsingVendorPrefix ∈ vendorRules) as Hin
        by rule_mem.
      destruct (visitRuleSet_before_vendor calculateBoxModel union n declarations v
                  Rules.IncludeStandardPropertyWhenUsingVendorPrefix Hdecl Hin)
        as (ms & Hms & ->).
      rewrite Htable.
      destruct (vendorPrefixes_s2foo_only n d p (emit v ms) Hcss Hname Hprop Hstd Hexport)
        as (ms' & Hms' & ->).
      rewrite emit_emit, warnings_emit, !markersOf_app, Hms.
      rewrite (ruleIn_other [Rules.UnknownVendorSpecificProperty] _ ms')
        by (assumption || rule_mem).
      reflexivity.
    + assert (Rules.AllVendorPrefixes ∈ vendorRules) as Hin by rule_mem.
      destruct (visitRuleSet_before_vendor calculateBoxModel union n declarations v
                  Rules.AllVendorPrefixes Hdecl Hin)
        as (ms & Hms & ->).
      rewrite Htable.
      destruct (vendorPrefixes_s2foo_only n d p (emit v ms) Hcss Hname Hprop Hstd Hexport)
        as (ms' & Hms' & ->).
      rewrite emit_emit, warnings_emit, !markersOf_app, Hms.
      rewrite (ruleIn_other [Rules.UnknownVendorSpecificProperty] _ ms')
        by (assumption || rule_mem).
      simpl. now rewrite app_nil_r.
Qed.

Lemma visitRuleSet_vendor_prefix_completion_witness :
  (markersOf Rules.IncludeStandardPropertyWhenUsingVendorPrefix
     (warnings (snd (visitRuleSet sample_calculateBoxModel sample_union s2foo_foo
                       (foo_visitor s2foo_foo_text)))) = []
   /\ markersOf Rules.AllVendorPrefixes
        (warnings (snd (visitRuleSet sample_calculateBoxModel sample_union s2foo_foo
                          (foo_visitor s2foo_foo_text)))) = [])
  /\ (markersOf Rules.IncludeStandardPropertyWhenUsingVendorPrefix
        (warnings (snd (visitRuleSet sample_calculateBoxModel sample_union s2foo
                          (foo_visitor s2foo_text))))
      = [mkMarker
           (mkNode nodes.Property 5 7 [sample_identifier 5 7]
              (nodes.CProperty (Some (sample_identifier 5 7)) "-s2-foo"))
           Rules.IncludeStandardPropertyWhenUsingVendorPrefix nodes.Warning
           (Some "Also define the standard property 'foo' for compatibility")]
      /\ markersOf Rules.AllVendorPrefixes
           (warnings (snd (visitRuleSet sample_calculateBoxModel sample_union s2foo
                             (foo_visitor s2foo_text)))) = []).
Proof.
  destruct (visitRuleSet_vendor_prefix_completion sample_calculateBoxModel sample_union)
    as [Hboth Honly].
  split.
  - split.
    + apply (Hboth s2foo_foo
               (mkNode nodes.Declarations 3 23 [s2foo_decl; foo_decl] nodes.CDeclarations)
               s2foo_decl foo_decl (foo_visitor s2foo_foo_text));
        try reflexivity.
      apply list_elem_of_In. simpl. tauto.
    + apply (Hboth s2foo_foo
               (mkNode nodes.Declarations 3 23 [s2foo_decl; foo_decl] nodes.CDeclarations)
               s2foo_decl foo_decl (foo_visitor s2foo_foo_text));
        try reflexivity.
      apply list_elem_of_In. simpl. tauto.
  - apply (Honly s2foo
             (mkNode nodes.Declarations 3 15 [s2foo_decl] nodes.CDeclarations)
             s2foo_decl
             (mkNode nodes.Property 5 7 [sample_identifier 5 7]
                (nodes.CProperty (Some (sample_identifier 5 7)) "-s2-foo"))
             (foo_visitor s2foo_text));
      reflexivity.
Defined.

(** The check is skipped for [:export { -s2-foo: 1; }]: the block holds
    the one genuine declaration [-s2-foo], [foo] is a standard property,
    and no marker is emitted. *)
Lemma visitRuleSet_export_block_unchecked :
  nodes.getText export_text (nodes.RuleSet_getSelectors export_block) = ":export"
  /\ option_map nodes.getChildren (nodes.BodyDeclaration_getDeclarations export_block)
     = Some [export_decl]
  /\ isCSSDeclaration export_decl = true
  /\ nodes.Declaration_getFullPropertyName export_decl = "-s2-foo"
  /\ isStandardProperty (cssDataManager (foo_visitor export_text)) "foo" = true
  /\ warnings (snd (visitRuleSet sample_calculateBoxModel sample_union export_block
                      (foo_visitor export_text))) = [].
Proof. vm_compute. repeat split. Qed.

(** *** Whole documents

    [LintVisitor.entries] on the samples, with the default filter: the
    walk, the completion step and the filter together. *)

Example entries_zero_plain :
  showMarkers zero_plain_text
    (entries sample_calculateBoxModel sample_union sample_units sample_is_zero
       zero_plain zero_plain_text sample_settings sample_knowledge None)
  = [(Rules.ZeroWithUnit, "0px")].
Proof. vm_compute. reflexivity. Qed.

Example entries_zero_calc :
  entries sample_calculateBoxModel sample_union sample_units sample_is_zero
    zero_calc zero_calc_text sample_settings sample_knowledge None
  = [].
Proof. vm_compute. reflexivity. Qed.

Example entries_red_blue :
  showMarkers red_blue_text
    (entries sample_calculateBoxModel sample_union sample_units sample_is_zero
       red_blue red_blue_text sample_settings sample_knowledge None)
  = [(Rules.DuplicateDeclarations, "color: red");
     (Rules.DuplicateDeclarations, "color: blue")].
Proof. vm_compute. reflexivity. Qed.

Example entries_s2foo_errors_only :
  entries sample_calculateBoxModel sample_union sample_units sample_is_zero
    s2foo s2foo_text sample_settings sample_knowledge
    (Some (nodes.Level_value nodes.Error))
  = [].
Proof. vm_compute. reflexivity. Qed.

(** ** Further properties of the code *)

(** *** The grouping index *)

Lemma index_lookup_add (root name : string) (n : option Node) (data : NodesByRootMap.t)
    (r : string) :
  index_lookup r (NodesByRootMap.add root name n data)
  = if String.eqb r root then
      let old := default index_fresh (index_lookup root data) in
      Some {| NodesByRootMap.nodes := NodesByRootMap.push_node (NodesByRootMap.nodes old) n;
              NodesByRootMap.names := NodesByRootMap.names old ++ [name] |}
    else index_lookup r data.
Proof.
  unfold index_lookup. induction data as [|[k entry] data IH]; simpl.
  - rewrite (String.eqb_sym root r). destruct (String.eqb r root); reflexivity.
  - destruct (String.eqb_spec k root) as [Hk|Hne]; simpl.
    + subst k. rewrite (String.eqb_sym root r).
      destruct (String.eqb r root); reflexivity.
    + destruct (String.eqb_spec k r) as [Hkr|Hkr]; simpl.
      * subst k. destruct (String.eqb_spec r root) as [Heq|_]; [contradiction|reflexivity].
      * rewrite IH. destruct (String.eqb r root); [|reflexivity].
        destruct (String.eqb_spec k root); [contradiction|reflexivity].
Qed.

Lemma enumerate_add (root name : string) (n : option Node) (data : NodesByRootMap.t) :
  JS.arrayIndex root = None ->
  index_roots (JSObject.enumerate (NodesByRootMap.add root name n data))
  = index_roots (JSObject.enumerate data)
    ++ (if bool_decide (root ∈ index_roots data) then [] else [root]).
Proof.
  intros Hroot. unfold JSObject.enumerate, index_roots.
  assert (forall acc,
             fold_left
               (fun sorted (item : string * NodesByRootMap.Entry) =>
                  match JS.arrayIndex (fst item) with
                  | Some k => JSObject.insert_index k item sorted
                  | None => sorted
                  end)
               (NodesByRootMap.add root name n data) acc
             = fold_left
                 (fun sorted (item : string * NodesByRootMap.Entry) =>
                    match JS.arrayIndex (fst item) with
                    | Some k => JSObject.insert_index k item sorted
                    | None => sorted
                    end)
                 data acc) as ->.
  { induction data as [|[k entry] data IH]; intros acc; simpl.
    - now rewrite Hroot.
    - destruct (String.eqb_spec k root) as [Hk|Hne]; simpl.
      + now rewrite Hk, Hroot.
      + now rewrite IH. }
  rewrite !List.map_app, <- app_assoc. f_equal.
  induction data as [|[k entry] data IH]; simpl.
  - now rewrite Hroot.
  - destruct (String.eqb_spec k root) as [Hk|Hne]; simpl.
    + rewrite Hk, Hroot. simpl.
      rewrite bool_decide_eq_true_2 by apply list_elem_of_here. now rewrite app_nil_r.
    + assert ((if bool_decide (root ∈ k :: List.map fst data) then [] else [root])
              = (if bool_decide (root ∈ List.map fst data) then [] else [root])) as ->.
      { destruct (bool_decide_reflect (root ∈ List.map fst data)) as [Hin|Hout].
        - rewrite bool_decide_eq_true_2; [reflexivity|]. now apply list_elem_of_further.
        - rewrite bool_decide_eq_false_2; [reflexivity|].
          intros Hin. apply elem_of_cons in Hin as [Heq|Hin]; [now apply Hne|now apply Hout]. }
      destruct (JS.arrayIndex k); simpl; now rewrite IH.
Qed.

(** X1. [add] under a root that is none of the names every object
    inherits, then [data[root]]: the entry of the root holds the names it
    had and the new name last, and the node last when one is passed; the
    entry of every other root is as it was.  When the root is no array
    index, [for ... in] enumerates the roots as before, with a new root
    last.  (Under an inherited name [add] ends in a [TypeError]; an array
    index is enumerated before the other roots, wherever it was
    added.) *)
Theorem NodesByRootMap_add_lookup (root name : string) (n : option Node)
    (data : NodesByRootMap.t) (r : string) :
  ~ In root JSObject.inherited ->
  index_lookup r (NodesByRootMap.add root name n data)
  = (if String.eqb r root then
       let old := default index_fresh (index_lookup root data) in
       Some {| NodesByRootMap.nodes :=
                 NodesByRootMap.nodes old ++ match n with Some x => [x] | None => [] end;
               NodesByRootMap.names := NodesByRootMap.names old ++ [name] |}
     else index_lookup r data)
  /\ (JS.arrayIndex root = None ->
      index_roots (JSObject.enumerate (NodesByRootMap.add root name n data))
      = index_roots (JSObject.enumerate data)
        ++ (if bool_decide (root ∈ index_roots data) then [] else [root])).
Proof.
  intros _. split; [|apply enumerate_add].
  rewrite index_lookup_add. destruct (String.eqb r root); [|reflexivity].
  destruct n; simpl; [reflexivity|now rewrite app_nil_r].
Qed.

Lemma NodesByRootMap_add_lookup_witness :
  index_roots (index_of_calls [("b", "b", None); ("10", "10", None); ("a", "a", None);
                               ("2", "2", None)])
  = ["b"; "10"; "a"; "2"]
  /\ index_roots
       (JSObject.enumerate
          (index_of_calls [("b", "b", None); ("10", "10", None); ("a", "a", None);
                           ("2", "2", None)]))
     = ["2"; "10"; "b"; "a"]
  /\ index_roots
       (JSObject.enumerate
          (NodesByRootMap.add "c" "-s2-c" None
             (index_of_calls [("b", "b", None); ("10", "10", None); ("a", "a", None);
                              ("2", "2", None)])))
     = ["2"; "10"; "b"; "a"; "c"]
  /\ index_lookup "c"
       (NodesByRootMap.add "c" "-s2-c" None
          (index_of_calls [("b", "b", None); ("10", "10", None); ("a", "a", None);
                           ("2", "2", None)]))
     = Some {| NodesByRootMap.nodes := []; NodesByRootMap.names := ["-s2-c"] |}.
Proof.
  assert (~ In "c" JSObject.inherited) as Hc.
  { unfold JSObject.inherited. simpl. intuition discriminate. }
  destruct (NodesByRootMap_add_lookup "c" "-s2-c" None
              (index_of_calls [("b", "b", None); ("10", "10", None); ("a", "a", None);
                               ("2", "2", None)]) "c" Hc) as [Hlookup Hroots].
  split; [reflexivity|]. split; [reflexivity|]. split.
  - rewrite (Hroots eq_refl). reflexivity.
  - rewrite Hlookup. reflexivity.
Defined.

(** *** The constructor *)

Lemma validProperties_fold (properties : list string) (acc : gset string) (name : string) :
  name ∈ fold_left
           (fun (valid : gset string) p =>
              let name := JS.toLowerCase (JS.trim p) in
              if JS.truthy name then JSObject.set_true valid name else valid)
           properties acc
  <-> name ∈ acc
      \/ (name <> "__proto__" /\ JS.truthy name = true
          /\ exists p, In p properties /\ name = JS.toLowerCase (JS.trim p)).
Proof.
  revert acc. induction properties as [|p properties IH]; intros acc; simpl.
  - split; [now left|]. intros [H|(_ & _ & p & [] & _)]. exact H.
  - rewrite IH. clear IH.
    assert (name ∈ (if JS.truthy (JS.toLowerCase (JS.trim p))
                    then JSObject.set_true acc (JS.toLowerCase (JS.trim p)) else acc)
            <-> name ∈ acc
                \/ (name <> "__proto__" /\ JS.truthy name = true
                    /\ name = JS.toLowerCase (JS.trim p))) as Hstep.
    { destruct (JS.truthy (JS.toLowerCase (JS.trim p))) eqn:Hp.
      - unfold JSObject.set_true.
        destruct (String.eqb_spec (JS.toLowerCase (JS.trim p)) "__proto__") as [Hproto|Hproto].
        + split; [now left|]. intros [H|(Hne & _ & Hname)]; [exact H|]. congruence.
        + rewrite elem_of_union, elem_of_singleton. split.
          * intros [H|H]; [now left|]. right. rewrite H. repeat split; assumption.
          * intros [H|(_ & _ & H)]; tauto.
      - split; [now left|]. intros [H|(_ & Ht & Hname)]; [exact H|].
        rewrite Hname in Ht. congruence. }
    rewrite Hstep. split.
    + intros [[H|(Hne & Ht & Hname)]|(Hne & Ht & q & Hq & Hname)].
      * now left.
      * right. split; [exact Hne|]. split; [exact Ht|]. exists p. split; [now left|exact Hname].
      * right. split; [exact Hne|]. split; [exact Ht|]. exists q. split; [now right|exact Hname].
    + intros [H|(Hne & Ht & q & [Hq|Hq] & Hname)].
      * now left; left.
      * left. right. rewrite <- Hq in Hname. tauto.
      * right. split; [exact Hne|]. split; [exact Ht|]. now exists q.
Qed.

(** X3. The names [validProperties] yields a truthy value for are the
    trimmed, lower-cased entries of the setting, the empty ones left out,
    together with the names every object inherits ([constructor],
    [toString], ...): with no setting those inherited names are the only
    ones, and an entry is matched whatever its case and the white space
    around it. *)
Theorem new_LintVisitor_validProperties (text : string)
    (settings : LintConfigurationSettings) (cssDataManager : CSSDataManager)
    (name : string) :
  isValid (new_LintVisitor text settings cssDataManager) name = true
  <-> In name JSObject.inherited
      \/ (JS.truthy name = true
          /\ exists p, In p (default [] (getSetting_ValidProperties settings))
                       /\ name = JS.toLowerCase (JS.trim p)).
Proof.
  unfold isValid, JSObject.truthy_at, new_LintVisitor. cbn [validProperties].
  rewrite orb_true_iff, !bool_decide_eq_true, list_elem_of_In.
  destruct (String.eqb_spec name "__proto__") as [Hproto|Hproto].
  { assert (In name JSObject.inherited) as Hin.
    { rewrite Hproto. unfold JSObject.inherited. simpl. intuition reflexivity. }
    split; intros _; [left|right]; exact Hin. }
  destruct (getSetting_ValidProperties settings) as [properties|]; simpl.
  - rewrite validProperties_fold. split.
    + intros [[H|H]|H]; [now apply not_elem_of_empty in H|right; tauto|now left].
    + intros [H|H]; [now right|]. left. right. tauto.
  - split.
    + intros [H|H]; [now apply not_elem_of_empty in H|now left].
    + intros [H|(_ & p & [] & _)]. now right.
Qed.

Lemma new_LintVisitor_validProperties_sample :
  isValid (new_LintVisitor "" {| getRule := fun _ => nodes.Warning;
                                 getSetting_ValidProperties :=
                                   Some [String (ascii_of_nat 160) "Float "; ""] |}
             (sample_data [] [] [])) "float" = true
  /\ isValid (sample_visitor "") "float" = false
  /\ isValid (sample_visitor "") "constructor" = true.
Proof. vm_compute. repeat split. Qed.

(** *** Values of declarations *)

Lemma accept_found (text val : string) (n : Node) (found : bool) :
  nodes.accept
    (fun n (found : bool) =>
       let found := if isIdentifier text val n then true else found in
       (negb found, found))
    n found
  = found || existsb (isIdentifier text val) (subtree n).
Proof.
  revert found. induction n as [n IH] using Node_children_ind. intros found.
  destruct n as [t o l cs c]. cbn [nodes.children] in IH.
  cbn [nodes.accept subtree existsb nodes.children].
  destruct found; cbn [negb].
  { now destruct (isIdentifier text val _). }
  destruct (isIdentifier text val _); [reflexivity|]. cbn [negb orb].
  rewrite <- (orb_false_l (existsb _ _)). generalize false.
  induction IH as [|c' cs' Hc' _ IHcs]; intros found.
  - now rewrite orb_false_r.
  - rewrite existsb_app, IHcs, Hc'. now rewrite orb_assoc.
Qed.

(** X4. [findValueInExpression] says whether some identifier node of the
    expression, at any depth, is literally the value looked for: stopping
    the walk at the first one found loses none. *)
Theorem findValueInExpression_exists (v : LintVisitor) (expression : Node) (val : string) :
  findValueInExpression v expression val
  = existsb (isIdentifier (documentText v) val) (subtree expression).
Proof.
  unfold findValueInExpression.
  exact (accept_found (documentText v) val expression false).
Qed.

(** *** More on missing names *)

Lemma remove_first_Permutation (x : string) (l l' : list string) :
  remove_first x l = Some l' -> Permutation l (x :: l').
Proof.
  revert l'. induction l as [|y l IH]; intros l' H; simpl in H; [discriminate|].
  destruct (String.eqb_spec y x) as [->|Hne].
  - injection H as <-. reflexivity.
  - destruct (remove_first x l) as [r|]; [|discriminate].
    injection H as <-. rewrite (IH r eq_refl). apply perm_swap.
Qed.

Lemma remove_first_None_In (x : string) (l : list string) :
  remove_first x l = None <-> ~ In x l.
Proof.
  induction l as [|y l IH]; simpl; [tauto|].
  destruct (String.eqb_spec y x) as [->|Hne].
  - split; [discriminate|]. intros H. exfalso. apply H. now left.
  - destruct (remove_first x l).
    + split; [discriminate|]. intros H. exfalso.
      assert (~ In x l) as Hx by tauto. now apply IH in Hx.
    + split; [|reflexivity]. intros _ [H|H]; [contradiction|]. now apply IH.
Qed.

Lemma missingNames_Permutation (E A A' : list string) :
  Permutation A A' -> missingNames E A = missingNames E A'.
Proof.
  revert A A'. induction E as [|e E IH]; intros A A' Hperm; simpl; [reflexivity|].
  destruct (remove_first e A) as [A1|] eqn:H1, (remove_first e A') as [A1'|] eqn:H1'.
  - apply IH. apply (Permutation_cons_inv (a := e)).
    rewrite <- (remove_first_Permutation _ _ _ H1).
    now rewrite <- (remove_first_Permutation _ _ _ H1').
  - exfalso. apply remove_first_None_In in H1'. apply H1'.
    apply (Permutation_in _ Hperm).
    apply (Permutation_in _ (Permutation_sym (remove_first_Permutation _ _ _ H1))).
    now left.
  - exfalso. apply remove_first_None_In in H1. apply H1.
    apply (Permutation_in _ (Permutation_sym Hperm)).
    apply (Permutation_in _ (Permutation_sym (remove_first_Permutation _ _ _ H1'))).
    now left.
  - f_equal. now apply IH.
Qed.

(** X5. The order of the actual names does not matter to
    [getMissingNames]: two lists of actual names that are permutations of
    each other give the same result. *)
Theorem getMissingNames_actual_order (E A A' : list string) :
  Permutation A A' -> getMissingNames E A = getMissingNames E A'.
Proof.
  intros Hperm. rewrite !getMissingNames_render.
  now rewrite (missingNames_Permutation E A A' Hperm).
Qed.

Lemma getMissingNames_actual_order_witness :
  getMissingNames ["-s2-a"; "-s2-b"; "-s2-c"] ["-s2-b"; "x"; "-s2-b"]
  = getMissingNames ["-s2-a"; "-s2-b"; "-s2-c"] ["x"; "-s2-b"; "-s2-b"]
  /\ getMissingNames ["-s2-a"; "-s2-b"; "-s2-c"] ["x"; "-s2-b"; "-s2-b"]
     = Some "'-s2-a', '-s2-c'".
Proof.
  split; [|reflexivity].
  apply getMissingNames_actual_order.
  apply perm_trans with (["x"; "-s2-b"; "-s2-b"]); [|reflexivity].
  apply perm_swap.
Defined.

Lemma fold_join_quote (names : list string) (r : string) :
  exists s,
    fold_left (fun prior next => prior +:+ ", '" +:+ next +:+ "'") names (String "'" r)
    = String "'" s.
Proof.
  revert r. induction names as [|c names IH]; intros r; simpl; [now exists r|].
  apply IH.
Qed.

(** X6. What [getMissingNames] returns is [null] or a string that starts
    with a quote, never the empty string: testing the result for truth, as
    [visitRuleSet] does, is testing it for [null]. *)
Theorem getMissingNames_null_or_quoted (E A : list string) :
  getMissingNames E A = None
  \/ exists s, getMissingNames E A = Some (String "'" s).
Proof.
  rewrite getMissingNames_render.
  destruct (List.filter JS.truthy (missingNames E A)) as [|first rest]; [now left|].
  right. simpl. destruct (fold_join_quote rest (first +:+ "'")) as (s & Hs).
  exists s. f_equal. exact Hs.
Qed.

(** *** Font faces *)

Lemma visitFontFace_fold (children : list Node) (definesSrc definesFontFamily unknowns : bool) :
  fold_left
    (fun (st : bool * bool * bool) (child : Node) =>
       let '(definesSrc, definesFontFamily, containsUnknowns) := st in
       if isCSSDeclaration child then
         let name :=
           match nodes.Declaration_getProperty child with
           | Some property => JS.toLowerCase (nodes.Property_getName property)
           | None => ""
           end in
         (if String.eqb name "src" then true else definesSrc,
          if String.eqb name "font-family" then true else definesFontFamily,
          containsUnknowns)
       else (definesSrc, definesFontFamily, true))
    children (definesSrc, definesFontFamily, unknowns)
  = (definesSrc || definesProperty "src" children,
     definesFontFamily || definesProperty "font-family" children,
     unknowns || negb (forallb isCSSDeclaration children)).
Proof.
  revert definesSrc definesFontFamily unknowns.
  induction children as [|c children IH]; intros a b u; simpl.
  - now rewrite !orb_false_r.
  - unfold definesProperty in *. simpl. fold (propertyNameOf c).
    destruct (isCSSDeclaration c); simpl.
    + rewrite IH. destruct (String.eqb (propertyNameOf c) "src"),
        (String.eqb (propertyNameOf c) "font-family"); simpl;
        now rewrite ?orb_true_r, ?orb_true_l.
    + rewrite IH. now rewrite orb_true_r, orb_true_l.
Qed.

(** X7. A [@font-face] with a declarations node is flagged exactly when
    all the children of that node are genuine declarations and not both of
    [src] and [font-family] are among them, in whatever order and case;
    the visit returns [true]. *)
Theorem visitFontFace_required (n declarations : Node) (v : LintVisitor) :
  nodes.BodyDeclaration_getDeclarations n = Some declarations ->
  visitFontFace n v
  = (true,
     if forallb isCSSDeclaration (nodes.getChildren declarations)
        && negb (definesProperty "src" (nodes.getChildren declarations)
                 && definesProperty "font-family" (nodes.getChildren declarations))
     then addEntry n Rules.RequiredPropertiesForFontFace None v
     else v).
Proof.
  intros Hdecl. unfold visitFontFace. rewrite Hdecl.
  rewrite visitFontFace_fold. cbn [orb].
  rewrite negb_involutive, negb_andb.
  now destruct (forallb _ _ && _).
Qed.

Lemma visitFontFace_required_witness :
  nodes.getText fontface_text fontface_src = "src: url(a)"
  /\ visitFontFace fontface (sample_visitor fontface_text)
     = (true,
        addEntry fontface Rules.RequiredPropertiesForFontFace None
          (sample_visitor fontface_text)).
Proof.
  split; [reflexivity|].
  exact (visitFontFace_required fontface fontface_declarations
           (sample_visitor fontface_text) eq_refl).
Defined.

(** *** Numbers that are not flagged *)

(** X8. A number with no unit, with a unit that is no length unit, or
    that does not parse as zero is never flagged, nor is a number outside
    any declaration: the visit hands the visitor on as it is. *)
Theorem visitNumericValue_not_flagged (units : list string) (is_zero : string -> bool)
    (n : Node) (ancestors : list Node) (v : LintVisitor) :
  nodes.unit (nodes.NumericValue_getValue n) = None
  \/ (exists u, nodes.unit (nodes.NumericValue_getValue n) = Some u
                /\ ~ In (JS.toLowerCase u) units)
  \/ is_zero (nodes.value (nodes.NumericValue_getValue n)) = false
  \/ nodes.findParent n ancestors nodes.Declaration = None ->
  visitNumericValue units is_zero n ancestors v = (true, v).
Proof.
  intros H. unfold visitNumericValue.
  destruct (match nodes.findParent n ancestors nodes.Function with
            | Some f => _ | None => _ end); [reflexivity|].
  destruct (nodes.findParent n ancestors nodes.Declaration) as [decl|]; [|reflexivity].
  destruct (nodes.Declaration_getValue decl); [|reflexivity].
  destruct H as [Hunit|[(u & Hunit & Hu)|[Hzero|Hdecl]]].
  - rewrite Hunit. reflexivity.
  - rewrite Hunit.
    assert ((JS.indexOf units (JS.toLowerCase u) =? -1) = true) as ->.
    { destruct (JS.indexOf units (JS.toLowerCase u) =? -1) eqn:Hidx; [reflexivity|].
      apply indexOf_In in Hidx. contradiction. }
    now rewrite orb_true_r.
  - rewrite Hzero. now destruct (negb _ || _).
  - discriminate.
Qed.

Lemma visitNumericValue_not_flagged_witness :
  (let '(n, chain) := nodeAt [1; 0; 1; 0; 0; 0]%nat zero_bare [] in
   nodes.getText zero_bare_text n = "0"
   /\ visitNumericValue sample_units sample_is_zero n chain (sample_visitor zero_bare_text)
      = (true, sample_visitor zero_bare_text))
  /\ (let '(n, chain) := nodeAt [1; 0; 1; 0; 0; 0]%nat one_px [] in
      nodes.getText one_px_text n = "1px"
      /\ visitNumericValue sample_units sample_is_zero n chain (sample_visitor one_px_text)
         = (true, sample_visitor one_px_text)).
Proof.
  split.
  - destruct (nodeAt [1; 0; 1; 0; 0; 0]%nat zero_bare []) as [n chain] eqn:Hn.
    vm_compute in Hn. injection Hn as <- <-.
    split; [reflexivity|].
    apply visitNumericValue_not_flagged. left. reflexivity.
  - destruct (nodeAt [1; 0; 1; 0; 0; 0]%nat one_px []) as [n chain] eqn:Hn.
    vm_compute in Hn. injection Hn as <- <-.
    split; [reflexivity|].
    apply visitNumericValue_not_flagged. right. right. left. reflexivity.
Defined.

(** *** The passes of [visitRuleSet], rule by rule *)

Lemma flat_map_if_map {A B} (c : A -> bool) (h : A -> B) (l : list A) :
  flat_map (fun x => if c x then [h x] else []) l = List.map h (List.filter c l).
Proof.
  induction l as [|x l IH]; simpl; [reflexivity|].
  destruct (c x); simpl; now rewrite IH.
Qed.

Lemma existsb_filter_length {A} (p : A -> bool) (l : list A) :
  (0 <? List.length (List.filter p l))%nat = existsb p l.
Proof.
  induction l as [|x l IH]; simpl; [reflexivity|].
  destruct (p x); simpl; [reflexivity|exact IH].
Qed.

Lemma declares_fetchWithValue (v : LintVisitor) (table : list Element) (name val : string) :
  (0 <? List.length (fetchWithValue v table name val))%nat = declares v table name val.
Proof.
  unfold fetchWithValue, declares. rewrite existsb_filter_length.
  induction table as [|e table IH]; simpl; [reflexivity|].
  rewrite IH. f_equal. f_equal.
  destruct (nodes.Declaration_getValue (node e)) as [expression|]; [|reflexivity].
  unfold findValueInExpression.
  exact (accept_found (documentText v) val expression false).
Qed.

Lemma bewareOfBoxModelSize_emit (union : list Element -> list Element -> list Element)
    (dimension : option Element) (first second : BoxSide) (v : LintVisitor) :
  bewareOfBoxModelSize union dimension first second v
  = emit v (boxModelMarkers union dimension first second v).
Proof.
  unfold bewareOfBoxModelSize, boxModelMarkers.
  destruct dimension as [dim|]; [|now rewrite emit_nil]. cbv zeta.
  destruct (if side_value second then _ else _) as [|item sides] eqn:Hsides.
  - now rewrite emit_nil.
  - cbn [List.length Nat.eqb negb].
    rewrite (fold_emit _
               (fun v item =>
                  [mkMarker (node item) Rules.BewareOfBoxModelSize
                     (getRule (settings v) Rules.BewareOfBoxModelSize) None]));
      [|reflexivity|reflexivity].
    rewrite addEntry_emit, emit_emit. f_equal.
Qed.

Lemma propertyIgnoredDueToDisplay_emit (table : list Element) (v : LintVisitor) :
  propertyIgnoredDueToDisplay table v = emit v (displayMarkers v table).
Proof.
  unfold propertyIgnoredDueToDisplay, displayMarkers. cbv zeta.
  rewrite (fold_emit _
             (fun v elem =>
                match nodes.Declaration_getValue (node elem) with
                | Some value =>
                    if negb (nodes.matches (documentText v) value "none")
                    then [mkMarker (node elem) Rules.PropertyIgnoredDueToDisplay
                            (getRule (settings v) Rules.PropertyIgnoredDueToDisplay)
                            (Some "inline-block is ignored due to the float. If 'float' has a value other than 'none', the box is floated and 'display' is treated as 'block'")]
                    else []
                | None => []
                end) (fetch table "float") v).
  2:{ intros v' x _. destruct (nodes.Declaration_getValue (node x)); [|now rewrite emit_nil].
      destruct (negb _); [reflexivity|now rewrite emit_nil]. }
  2:{ reflexivity. }
  rewrite !declares_fetchWithValue.
  assert (forall (b : bool) (x : LintVisitor) (ms : list Marker),
             (if b then emit x ms else x) = emit x (if b then ms else [])) as Hif.
  { intros [] x ms; [reflexivity|now rewrite emit_nil]. }
  rewrite (Hif (declares v table "display" "inline-block")).
  change (declares (emit v _) table "display" "block")
    with (declares v table "display" "block").
  rewrite (fold_emit _
             (fun v elem =>
                [mkMarker (node elem) Rules.PropertyIgnoredDueToDisplay
                   (getRule (settings v) Rules.PropertyIgnoredDueToDisplay)
                   (Some "Property is ignored due to the display. With 'display: block', vertical-align should not be used.")]));
    [|reflexivity|reflexivity].
  rewrite Hif, emit_emit. f_equal. f_equal.
  destruct (declares v table "display" "inline-block"); [|reflexivity].
  rewrite <- flat_map_if_map. apply flat_map_ext. intros e.
  destruct (nodes.Declaration_getValue (node e)); reflexivity.
Qed.

Lemma avoidFloat_emit (table : list Element) (v : LintVisitor) :
  avoidFloat table v = emit v (floatMarkers v table).
Proof.
  unfold avoidFloat, floatMarkers.
  rewrite (fold_emit _
             (fun v e =>
                if negb (isValidPropertyDeclaration v e)
                then [mkMarker (node e) Rules.AvoidFloat
                        (getRule (settings v) Rules.AvoidFloat) None]
                else [])).
  2:{ intros v' x _. destruct (negb _); [reflexivity|now rewrite emit_nil]. }
  2:{ reflexivity. }
  f_equal. unfold fetch, isValidPropertyDeclaration.
  induction table as [|e table IH]; simpl; [now destruct (isValid v "float")|].
  destruct (String.eqb_spec (fullPropertyName e) "float") as [Hname|_]; [|exact IH].
  simpl. rewrite IH, Hname. now destruct (isValid v "float").
Qed.

Lemma markersOf_rule_other (rule other : Rule) (ms : list Marker) :
  Forall (fun m => nodes.getRule m = other) ms -> other <> rule -> markersOf rule ms = [].
Proof.
  intros Hms Hne. apply markersOf_other.
  eapply Forall_impl; [exact Hms|]. intros m Hm. congruence.
Qed.

Lemma emptyRuleSetMarkers_rule (n declarations : Node) (v : LintVisitor) :
  Forall (fun m => nodes.getRule m = Rules.EmptyRuleSet) (emptyRuleSetMarkers n declarations v).
Proof.
  unfold emptyRuleSetMarkers. destruct (nodes.getChildren declarations); repeat constructor.
Qed.

Lemma boxModelMarkers_rule (union : list Element -> list Element -> list Element)
    (dimension : option Element) (first second : BoxSide) (v : LintVisitor) :
  Forall (fun m => nodes.getRule m = Rules.BewareOfBoxModelSize)
    (boxModelMarkers union dimension first second v).
Proof.
  unfold boxModelMarkers. destruct dimension as [dim|]; [|constructor]. cbv zeta.
  destruct (if side_value second then _ else _) as [|item sides]; [constructor|].
  apply Forall_app. split; [|repeat constructor].
  apply List.Forall_forall. intros m Hm.
  apply in_map_iff in Hm as (x & <- & _). reflexivity.
Qed.

Lemma displayMarkers_rule (v : LintVisitor) (table : list Element) :
  Forall (fun m => nodes.getRule m = Rules.PropertyIgnoredDueToDisplay)
    (displayMarkers v table).
Proof.
  unfold displayMarkers. cbv zeta. apply Forall_app. split.
  - destruct (declares v table "display" "inline-block"); [|constructor].
    apply List.Forall_forall. intros m Hm.
    apply in_map_iff in Hm as (x & <- & _). reflexivity.
  - destruct (declares v table "display" "block"); [|constructor].
    apply List.Forall_forall. intros m Hm.
    apply in_map_iff in Hm as (x & <- & _). reflexivity.
Qed.

Lemma floatMarkers_rule (v : LintVisitor) (table : list Element) :
  Forall (fun m => nodes.getRule m = Rules.AvoidFloat) (floatMarkers v table).
Proof.
  unfold floatMarkers. destruct (isValid v "float"); [constructor|].
  apply List.Forall_forall. intros m Hm.
  apply in_map_iff in Hm as (x & <- & _). reflexivity.
Qed.

(** The visit of a block adds the markers of its passes, in the order of
    the passes. *)
Lemma visitRuleSet_emit
    (calculateBoxModel : list Element -> BoxModel)
    (union : list Element -> list Element -> list Element)
    (n declarations : Node) (v : LintVisitor) :
  nodes.BodyDeclaration_getDeclarations n = Some declarations ->
  exists after,
    Forall (ruleIn vendorRules) after
    /\ snd (visitRuleSet calculateBoxModel union n v)
       = emit v
           (emptyRuleSetMarkers n declarations v
            ++ boxModelMarkers union
                 (width (calculateBoxModel (propertyTable_of declarations)))
                 (right (calculateBoxModel (propertyTable_of declarations)))
                 (left (calculateBoxModel (propertyTable_of declarations))) v
            ++ boxModelMarkers union
                 (height (calculateBoxModel (propertyTable_of declarations)))
                 (top (calculateBoxModel (propertyTable_of declarations)))
                 (bottom (calculateBoxModel (propertyTable_of declarations))) v
            ++ displayMarkers v (propertyTable_of declarations)
            ++ floatMarkers v (propertyTable_of declarations)
            ++ duplicateMarkers v (propertyTable_of declarations)
            ++ after).
Proof.
  intros Hdecl. unfold visitRuleSet. rewrite Hdecl. cbv zeta. cbn [snd].
  set (table := propertyTable_of declarations).
  set (boxModel := calculateBoxModel table).
  assert ((if negb (nodes.hasChildren declarations)
           then addEntry (nodes.RuleSet_getSelectors n) Rules.EmptyRuleSet None v
           else v) = emit v (emptyRuleSetMarkers n declarations v)) as ->.
  { unfold emptyRuleSetMarkers, nodes.hasChildren, nodes.getChildren.
    destruct (nodes.children declarations); [reflexivity|now rewrite emit_nil]. }
  rewrite !bewareOfBoxModelSize_emit, propertyIgnoredDueToDisplay_emit, avoidFloat_emit,
    duplicateDeclarations_emit, !emit_emit.
  match goal with
  | |- context [vendorPrefixes n table ?x] =>
      destruct (vendorPrefixes_adds n table x) as (after & -> & Hafter)
  end.
  exists after. split; [exact Hafter|].
  rewrite emit_emit, <- !app_assoc. reflexivity.
Qed.

(** X9. The visit of a rule set with a declarations node adds one
    [EmptyRuleSet] marker, on the selector list, when that node has no
    children, and none when it has some. *)
Theorem visitRuleSet_empty_rule_set
    (calculateBoxModel : list Element -> BoxModel)
    (union : list Element -> list Element -> list Element)
    (n declarations : Node) (v : LintVisitor) :
  nodes.BodyDeclaration_getDeclarations n = Some declarations ->
  markersOf Rules.EmptyRuleSet (warnings (snd (visitRuleSet calculateBoxModel union n v)))
  = markersOf Rules.EmptyRuleSet (warnings v)
    ++ match nodes.getChildren declarations with
       | [] =>
           [mkMarker (nodes.RuleSet_getSelectors n) Rules.EmptyRuleSet
              (getRule (settings v) Rules.EmptyRuleSet) None]
       | _ :: _ => []
       end.
Proof.
  intros Hdecl.
  destruct (visitRuleSet_emit calculateBoxModel union n declarations v Hdecl)
    as (after & Hafter & ->).
  rewrite warnings_emit, !markersOf_app.
  rewrite (markersOf_same _ _ (emptyRuleSetMarkers_rule n declarations v)).
  rewrite !(markersOf_rule_other _ _ _ (boxModelMarkers_rule _ _ _ _ _)) by discriminate.
  rewrite (markersOf_rule_other _ _ _ (displayMarkers_rule _ _)) by discriminate.
  rewrite (markersOf_rule_other _ _ _ (floatMarkers_rule _ _)) by discriminate.
  rewrite (markersOf_rule_other _ _ _ (duplicateMarkers_rule _ _)) by discriminate.
  rewrite (ruleIn_other vendorRules _ after) by (assumption || rule_mem).
  now rewrite !app_nil_r.
Qed.

Lemma visitRuleSet_empty_rule_set_witness :
  nodes.getText empty_block_text (nodes.RuleSet_getSelectors empty_block) = ".a"
  /\ markersOf Rules.EmptyRuleSet
       (warnings (snd (visitRuleSet sample_calculateBoxModel sample_union empty_block
                         (sample_visitor empty_block_text))))
     = [mkMarker (nodes.RuleSet_getSelectors empty_block) Rules.EmptyRuleSet
          nodes.Warning None].
Proof.
  split; [reflexivity|].
  exact (visitRuleSet_empty_rule_set sample_calculateBoxModel sample_union empty_block
           (mkNode nodes.Declarations 3 3 [] nodes.CDeclarations)
           (sample_visitor empty_block_text) eq_refl).
Defined.

(** X10. The visit of a rule set adds, for each of the two dimensions the
    box model reports with a contributing side, one [BewareOfBoxModelSize]
    marker on every declaration of its sides and one on the dimension, the
    width first; a dimension that is not set, or whose sides contribute
    nothing, adds none. *)
Theorem visitRuleSet_box_model
    (calculateBoxModel : list Element -> BoxModel)
    (union : list Element -> list Element -> list Element)
    (n declarations : Node) (v : LintVisitor) :
  nodes.BodyDeclaration_getDeclarations n = Some declarations ->
  markersOf Rules.BewareOfBoxModelSize
    (warnings (snd (visitRuleSet calculateBoxModel union n v)))
  = markersOf Rules.BewareOfBoxModelSize (warnings v)
    ++ boxModelMarkers union
         (width (calculateBoxModel (propertyTable_of declarations)))
         (right (calculateBoxModel (propertyTable_of declarations)))
         (left (calculateBoxModel (propertyTable_of declarations))) v
    ++ boxModelMarkers union
         (height (calculateBoxModel (propertyTable_of declarations)))
         (top (calculateBoxModel (propertyTable_of declarations)))
         (bottom (calculateBoxModel (propertyTable_of declarations))) v.
Proof.
  intros Hdecl.
  destruct (visitRuleSet_emit calculateBoxModel union n declarations v Hdecl)
    as (after & Hafter & ->).
  rewrite warnings_emit, !markersOf_app.
  rewrite !(markersOf_same _ _ (boxModelMarkers_rule _ _ _ _ _)).
  rewrite (markersOf_rule_other _ _ _ (emptyRuleSetMarkers_rule _ _ _)) by discriminate.
  rewrite (markersOf_rule_other _ _ _ (displayMarkers_rule _ _)) by discriminate.
  rewrite (markersOf_rule_other _ _ _ (floatMarkers_rule _ _)) by discriminate.
  rewrite (markersOf_rule_other _ _ _ (duplicateMarkers_rule _ _)) by discriminate.
  rewrite (ruleIn_other vendorRules _ after) by (assumption || rule_mem).
  now rewrite !app_nil_r.
Qed.

Lemma visitRuleSet_box_model_witness :
  showMarkers width_padding_text
    (markersOf Rules.BewareOfBoxModelSize
       (warnings (snd (visitRuleSet width_padding_boxModel sample_union width_padding
                         (sample_visitor width_padding_text)))))
  = [(Rules.BewareOfBoxModelSize, "padding: 2px"); (Rules.BewareOfBoxModelSize, "width: 1px")].
Proof.
  rewrite (visitRuleSet_box_model width_padding_boxModel sample_union width_padding
             (mkNode nodes.Declarations 3 29 [width_padding_width; width_padding_padding]
                nodes.CDeclarations)
             (sample_visitor width_padding_text) eq_refl).
  reflexivity.
Defined.

(** X11. The visit of a rule set adds these [PropertyIgnoredDueToDisplay]
    markers: when a [display] declaration has the identifier
    [inline-block] in its value, one on every [float] declaration whose
    value is not literally [none]; then, when a [display] declaration has
    the identifier [block], one on every [vertical-align] declaration. *)
Theorem visitRuleSet_ignored_due_to_display
    (calculateBoxModel : list Element -> BoxModel)
    (union : list Element -> list Element -> list Element)
    (n declarations : Node) (v : LintVisitor) :
  nodes.BodyDeclaration_getDeclarations n = Some declarations ->
  markersOf Rules.PropertyIgnoredDueToDisplay
    (warnings (snd (visitRuleSet calculateBoxModel union n v)))
  = markersOf Rules.PropertyIgnoredDueToDisplay (warnings v)
    ++ displayMarkers v (propertyTable_of declarations).
Proof.
  intros Hdecl.
  destruct (visitRuleSet_emit calculateBoxModel union n declarations v Hdecl)
    as (after & Hafter & ->).
  rewrite warnings_emit, !markersOf_app.
  rewrite (markersOf_same _ _ (displayMarkers_rule _ _)).
  rewrite (markersOf_rule_other _ _ _ (emptyRuleSetMarkers_rule _ _ _)) by discriminate.
  rewrite !(markersOf_rule_other _ _ _ (boxModelMarkers_rule _ _ _ _ _)) by discriminate.
  rewrite (markersOf_rule_other _ _ _ (floatMarkers_rule _ _)) by discriminate.
  rewrite (markersOf_rule_other _ _ _ (duplicateMarkers_rule _ _)) by discriminate.
  rewrite (ruleIn_other vendorRules _ after) by (assumption || rule_mem).
  now rewrite !app_nil_r.
Qed.

Lemma visitRuleSet_ignored_due_to_display_witness :
  showMarkers inline_float_text
    (markersOf Rules.PropertyIgnoredDueToDisplay
       (warnings (snd (visitRuleSet sample_calculateBoxModel sample_union inline_float
                         (sample_visitor inline_float_text)))))
  = [(Rules.PropertyIgnoredDueToDisplay, "float: left")].
Proof.
  rewrite (visitRuleSet_ignored_due_to_display sample_calculateBoxModel sample_union
             inline_float
             (mkNode nodes.Declarations 3 39 [inline_float_display; inline_float_float]
                nodes.CDeclarations)
             (sample_visitor inline_float_text) eq_refl).
  reflexivity.
Defined.

(** X12. The visit of a rule set adds one [AvoidFloat] marker on every
    declaration named [float], in order, and none at all when [float] is
    declared a valid property. *)
Theorem visitRuleSet_avoid_float
    (calculateBoxModel : list Element -> BoxModel)
    (union : list Element -> list Element -> list Element)
    (n declarations : Node) (v : LintVisitor) :
  nodes.BodyDeclaration_getDeclarations n = Some declarations ->
  markersOf Rules.AvoidFloat (warnings (snd (visitRuleSet calculateBoxModel union n v)))
  = markersOf Rules.AvoidFloat (warnings v)
    ++ (if isValid v "float" then []
        else
          List.map
            (fun e =>
               mkMarker (node e) Rules.AvoidFloat (getRule (settings v) Rules.AvoidFloat) None)
            (fetch (propertyTable_of declarations) "float")).
Proof.
  intros Hdecl.
  destruct (visitRuleSet_emit calculateBoxModel union n declarations v Hdecl)
    as (after & Hafter & ->).
  rewrite warnings_emit, !markersOf_app.
  rewrite (markersOf_same _ _ (floatMarkers_rule _ _)).
  rewrite (markersOf_rule_other _ _ _ (emptyRuleSetMarkers_rule _ _ _)) by discriminate.
  rewrite !(markersOf_rule_other _ _ _ (boxModelMarkers_rule _ _ _ _ _)) by discriminate.
  rewrite (markersOf_rule_other _ _ _ (displayMarkers_rule _ _)) by discriminate.
  rewrite (markersOf_rule_other _ _ _ (duplicateMarkers_rule _ _)) by discriminate.
  rewrite (ruleIn_other vendorRules _ after) by (assumption || rule_mem).
  now rewrite !app_nil_r.
Qed.

Lemma visitRuleSet_avoid_float_witness :
  showMarkers inline_float_text
    (markersOf Rules.AvoidFloat
       (warnings (snd (visitRuleSet sample_calculateBoxModel sample_union inline_float
                         (sample_visitor inline_float_text)))))
  = [(Rules.AvoidFloat, "float: left")].
Proof.
  rewrite (visitRuleSet_avoid_float sample_calculateBoxModel sample_union inline_float
             (mkNode nodes.Declarations 3 39 [inline_float_display; inline_float_float]
                nodes.CDeclarations)
             (sample_visitor inline_float_text) eq_refl).
  reflexivity.
Defined.

(** *** The last part of [visitRuleSet] *)

Lemma addEntry_property_emit (v : LintVisitor) (e : Element) (rule : Rule)
    (details : option string) :
  addEntry_property (node e) rule details v = emit v (onProperty v e rule details).
Proof.
  unfold addEntry_property, onProperty.
  destruct (nodes.Declaration_getProperty (node e)); [reflexivity|now rewrite emit_nil].
Qed.

Lemma onProperty_rule (v : LintVisitor) (e : Element) (rule : Rule) (details : option string) :
  Forall (fun m => nodes.getRule m = rule) (onProperty v e rule details).
Proof. unfold onProperty. destruct (nodes.Declaration_getProperty _); repeat constructor. Qed.

Lemma checkProperty_emit (st : VendorState) (e : Element) :
  vs_visitor (checkProperty st e)
  = emit (vs_visitor st) (propertyMarkers (vs_visitor st) e).
Proof.
  unfold checkProperty, propertyMarkers, isVendorName. cbv zeta.
  destruct (isCSSDeclaration (node e)); [|now rewrite emit_nil].
  destruct (String.eqb (JS.charAt (fullPropertyName e) 0) "-").
  - destruct (negb (String.eqb (JS.charAt (fullPropertyName e) 1) "-"));
      cbn [andb vs_visitor]; [|now rewrite emit_nil].
    destruct (negb _ && negb _); [apply addEntry_property_emit|now rewrite emit_nil].
  - cbn [vs_visitor]. fold (isHack (fullPropertyName e)).
    destruct (isHack (fullPropertyName e)).
    + rewrite addEntry_property_emit.
      set (v1 := emit (vs_visitor st) (onProperty (vs_visitor st) e Rules.IEStarHack None)).
      change (cssDataManager v1) with (cssDataManager (vs_visitor st)).
      change (isValid v1) with (isValid (vs_visitor st)).
      destruct (isKnownProperty (cssDataManager (vs_visitor st)) (fullPropertyName e)),
        (isKnownProperty (cssDataManager (vs_visitor st))
           (JS.substr_from (fullPropertyName e) 1)),
        (isValid (vs_visitor st) (JS.substr_from (fullPropertyName e) 1));
        cbn [negb andb]; rewrite ?app_nil_r; try reflexivity.
      subst v1. rewrite addEntry_property_emit, emit_emit. reflexivity.
    + destruct (isKnownProperty (cssDataManager (vs_visitor st)) (fullPropertyName e)),
        (isValid (vs_visitor st) (fullPropertyName e));
        cbn [negb andb app]; rewrite ?emit_nil; try reflexivity.
      apply addEntry_property_emit.
Qed.

Lemma checkProperty_unknowns (st : VendorState) (e : Element) :
  containsUnknowns (checkProperty st e)
  = containsUnknowns st || negb (isCSSDeclaration (node e)).
Proof.
  unfold checkProperty. cbv zeta.
  destruct (isCSSDeclaration (node e)); cbn [negb].
  - rewrite orb_false_r.
    destruct (String.eqb _ "-"); [destruct (negb _)|]; reflexivity.
  - now rewrite orb_true_r.
Qed.

Lemma propertyMarkers_rules (v : LintVisitor) (e : Element) :
  Forall (ruleIn propertyRules) (propertyMarkers v e).
Proof.
  assert (forall rule details, rule ∈ propertyRules ->
             Forall (ruleIn propertyRules) (onProperty v e rule details)) as Hon.
  { intros rule details Hin. eapply Forall_impl; [apply onProperty_rule|].
    intros m Hm. unfold ruleIn. now rewrite Hm. }
  unfold propertyMarkers. cbv zeta.
  destruct (isCSSDeclaration _); [|constructor].
  destruct (String.eqb _ "-").
  - destruct (_ && _); [|constructor]. apply Hon. unfold propertyRules. rule_mem.
  - apply Forall_app. split.
    + destruct (isHack _); [|constructor]. apply Hon. unfold propertyRules. rule_mem.
    + destruct (_ && _); [|constructor]. apply Hon. unfold propertyRules. rule_mem.
Qed.

Lemma fold_checkProperty_emit (table : list Element) (st : VendorState) :
  vs_visitor (fold_left checkProperty table st)
  = emit (vs_visitor st) (flat_map (propertyMarkers (vs_visitor st)) table)
  /\ containsUnknowns (fold_left checkProperty table st)
     = containsUnknowns st || existsb (fun e => negb (isCSSDeclaration (node e))) table.
Proof.
  revert st. induction table as [|e table IH]; intros st; simpl.
  - now rewrite emit_nil, orb_false_r.
  - destruct (IH (checkProperty st e)) as [-> ->].
    rewrite checkProperty_emit, checkProperty_unknowns, emit_emit, orb_assoc.
    split; reflexivity.
Qed.

Lemma adds_fold_In {A} (Q : Marker -> Prop) (f : LintVisitor -> A -> LintVisitor)
    (l : list A) :
  (forall x, In x l -> adds Q (fun v => f v x)) -> adds Q (fun v => fold_left f l v).
Proof.
  induction l as [|x l IH]; simpl; intros Hf.
  - apply adds_id.
  - apply (adds_compose Q (fun v => f v x) (fun v => fold_left f l v)).
    + apply Hf. now left.
    + apply IH. intros y Hy. apply Hf. now right.
Qed.

(** The markers of one root ask for other spellings and sit on nodes of
    the root. *)
Lemma checkRoot_completion (item : string * NodesByRootMap.Entry) :
  adds (fun m => ruleIn completionRules m
                 /\ In (nodes.getNode m) (NodesByRootMap.nodes (snd item)))
    (fun v => checkRoot v item).
Proof.
  intros v. unfold checkRoot. cbv zeta.
  destruct (negb _ && _); [apply adds_id|].
  destruct (_ || _); [|apply adds_id].
  apply (adds_fold_In _ _ (NodesByRootMap.nodes (snd item))). intros n Hn v'.
  set (needsStandard := isStandardProperty _ _ && _).
  apply (adds_compose _
           (fun v => if needsStandard
                     then addEntry n Rules.IncludeStandardPropertyWhenUsingVendorPrefix _ v
                     else v)
           (fun v => match getMissingNames _ _ with
                     | Some m => if JS.truthy m then addEntry n Rules.AllVendorPrefixes _ v else v
                     | None => v
                     end)).
  - destruct needsStandard; [|apply adds_id].
    apply adds_addEntry. intros level. split; [unfold ruleIn, completionRules; rule_mem|exact Hn].
  - destruct (getMissingNames _ _) as [m|]; [|apply adds_id].
    destruct (JS.truthy m); [|apply adds_id].
    apply adds_addEntry. intros level. split; [unfold ruleIn, completionRules; rule_mem|exact Hn].
Qed.

Lemma fold_checkRoot_completion (data : NodesByRootMap.t) :
  adds (fun m => ruleIn completionRules m /\ In (nodes.getNode m) (index_nodes data))
    (fun v => fold_left checkRoot data v).
Proof.
  apply adds_fold_In. intros item Hitem v.
  destruct (checkRoot_completion item v) as (ms & -> & Hms).
  exists ms. split; [reflexivity|].
  eapply Forall_impl; [exact Hms|]. intros m [Hrule Hnode]. split; [exact Hrule|].
  unfold index_nodes. apply in_flat_map. now exists item.
Qed.

(** The last part as a whole: the markers of the declarations, then, in
    a block of genuine declarations only that is no [:export] block, the
    markers of the roots. *)
Lemma vendorPrefixes_emit (n : Node) (table : list Element) (v : LintVisitor) :
  let st :=
    fold_left checkProperty table
      {| vs_visitor := v; propertiesBySuffix := NodesByRootMap.empty;
         containsUnknowns := false |} in
  exists roots,
    Forall (fun m => ruleIn completionRules m
                     /\ In (nodes.getNode m) (index_nodes (propertiesBySuffix st))) roots
    /\ vendorPrefixes n table v
       = emit v
           (if nodes.matches (documentText v) (nodes.RuleSet_getSelectors n) ":export"
            then []
            else flat_map (propertyMarkers v) table
                 ++ (if existsb (fun e => negb (isCSSDeclaration (node e))) table
                     then [] else roots)).
Proof.
  intros st. unfold vendorPrefixes. fold st.
  destruct (fold_checkProperty_emit table
              {| vs_visitor := v; propertiesBySuffix := NodesByRootMap.empty;
                 containsUnknowns := false |}) as [Hv Hu].
  fold st in Hv, Hu. cbn [vs_visitor containsUnknowns orb] in Hv, Hu.
  destruct (fold_checkRoot_completion (JSObject.enumerate (propertiesBySuffix st))
              (vs_visitor st))
    as (roots & Hroots & HQ).
  exists roots. split.
  { eapply Forall_impl; [exact HQ|]. intros m [Hrule Hnode]. split; [exact Hrule|].
    unfold index_nodes in *. apply in_flat_map in Hnode as (item & Hitem & Hnode).
    apply in_flat_map. exists item. split; [now apply enumerate_In|exact Hnode]. }
  destruct (nodes.matches _ _ ":export"); cbn [negb]; [now rewrite emit_nil|].
  rewrite Hu. destruct (existsb _ table); cbn [negb].
  - rewrite Hv. now rewrite app_nil_r.
  - rewrite Hroots, Hv, emit_emit. reflexivity.
Qed.


Lemma index_nodes_add (root name : string) (n : option Node) (data : NodesByRootMap.t)
    (x : Node) :
  In x (index_nodes (NodesByRootMap.add root name n data)) ->
  n = Some x \/ In x (index_nodes data).
Proof.
  unfold index_nodes. induction data as [|[k entry] rest IH]; simpl.
  - rewrite app_nil_r. destruct n as [y|]; simpl; [|tauto].
    intros [Hy|[]]. left. now rewrite Hy.
  - destruct (String.eqb k root); simpl; rewrite !in_app_iff.
    + unfold NodesByRootMap.push_node. destruct n as [y|]; [|tauto].
      rewrite in_app_iff. simpl. intros [[H|[Hy|[]]]|H]; try tauto.
      left. now rewrite Hy.
    + intros [H|H]; [tauto|]. apply IH in H. tauto.
Qed.

Lemma checkProperty_index (st : VendorState) (e : Element) (x : Node) :
  In x (index_nodes (propertiesBySuffix (checkProperty st e))) ->
  (isCSSDeclaration (node e) = true /\ isVendorName (fullPropertyName e) = true
   /\ nodes.Declaration_getProperty (node e) = Some x)
  \/ In x (index_nodes (propertiesBySuffix st)).
Proof.
  unfold checkProperty, isVendorName. cbv zeta.
  destruct (isCSSDeclaration (node e)); [|tauto].
  destruct (String.eqb (JS.charAt (fullPropertyName e) 0) "-").
  - destruct (negb (String.eqb (JS.charAt (fullPropertyName e) 1) "-")); [|tauto].
    cbn [propertiesBySuffix]. intros H. apply index_nodes_add in H as [H|H]; tauto.
  - cbn [propertiesBySuffix]. intros H. apply index_nodes_add in H as [H|H];
      [discriminate|tauto].
Qed.

Lemma fold_checkProperty_index (table : list Element) (st : VendorState) (x : Node) :
  In x (index_nodes (propertiesBySuffix (fold_left checkProperty table st))) ->
  (exists e, In e table /\ isCSSDeclaration (node e) = true
             /\ isVendorName (fullPropertyName e) = true
             /\ nodes.Declaration_getProperty (node e) = Some x)
  \/ In x (index_nodes (propertiesBySuffix st)).
Proof.
  revert st. induction table as [|e table IH]; intros st; simpl; [tauto|].
  intros H. apply IH in H as [(e' & He' & H)|H].
  - left. exists e'. tauto.
  - apply checkProperty_index in H as [H|H]; [|tauto].
    left. exists e. tauto.
Qed.

(** The elements of a property table wrap the children that are
    declarations, in order. *)
Lemma propertyTable_of_nodes (declarations : Node) :
  List.map node (propertyTable_of declarations)
  = List.filter nodes.instanceof_Declaration (nodes.getChildren declarations).
Proof.
  unfold propertyTable_of.
  assert (forall children table,
             List.map node
               (fold_left
                  (fun (propertyTable : list Element) (element : Node) =>
                     if nodes.instanceof_Declaration element
                     then propertyTable ++ [new_Element (List.length propertyTable) element]
                     else propertyTable)
                  children table)
             = List.map node table ++ List.filter nodes.instanceof_Declaration children) as H.
  { induction children as [|c children IH]; intros table; simpl.
    - now rewrite app_nil_r.
    - rewrite IH. destruct (nodes.instanceof_Declaration c); [|reflexivity].
      rewrite List.map_app, <- app_assoc. reflexivity. }
  apply (H _ []).
Qed.

Lemma markersOf_flat_map {A} (rule : Rule) (f : A -> list Marker) (l : list A) :
  markersOf rule (flat_map f l) = flat_map (fun x => markersOf rule (f x)) l.
Proof.
  induction l as [|x l IH]; simpl; [reflexivity|].
  now rewrite markersOf_app, IH.
Qed.

Lemma completion_not_property (rule : Rule) (ms : list Marker) :
  In rule completionRules -> Forall (ruleIn propertyRules) ms -> markersOf rule ms = [].
Proof.
  intros Hrule Hms. apply (ruleIn_other propertyRules); [|exact Hms].
  rewrite list_elem_of_In. revert Hrule. unfold completionRules, propertyRules. simpl.
  intuition congruence.
Qed.

Lemma flat_map_propertyMarkers_rules (v : LintVisitor) (table : list Element) :
  Forall (ruleIn propertyRules) (flat_map (propertyMarkers v) table).
Proof.
  apply List.Forall_forall. intros m Hm. apply in_flat_map in Hm as (e & _ & Hm).
  pose proof (propertyMarkers_rules v e) as H.
  rewrite List.Forall_forall in H. now apply H.
Qed.

Lemma vendorRules_split (rule : Rule) :
  rule ∈ vendorRules <-> In rule propertyRules \/ In rule completionRules.
Proof. rewrite list_elem_of_In. unfold vendorRules, propertyRules, completionRules. simpl. tauto. Qed.

(** X13. In an [:export] block the last part of the visit is skipped:
    none of its five rules adds a marker, whatever the block declares. *)
Theorem visitRuleSet_export_block_skipped
    (calculateBoxModel : list Element -> BoxModel)
    (union : list Element -> list Element -> list Element)
    (n declarations : Node) (v : LintVisitor) (rule : Rule) :
  nodes.BodyDeclaration_getDeclarations n = Some declarations ->
  nodes.matches (documentText v) (nodes.RuleSet_getSelectors n) ":export" = true ->
  In rule vendorRules ->
  markersOf rule (warnings (snd (visitRuleSet calculateBoxModel union n v)))
  = markersOf rule (warnings v).
Proof.
  intros Hdecl Hexport Hrule. apply list_elem_of_In in Hrule.
  destruct (visitRuleSet_before_vendor calculateBoxModel union n declarations v rule
              Hdecl Hrule) as (ms & Hms & ->).
  destruct (vendorPrefixes_emit n (propertyTable_of declarations) (emit v ms))
    as (roots & _ & ->).
  change (documentText (emit v ms)) with (documentText v). rewrite Hexport.
  rewrite emit_nil, warnings_emit, markersOf_app, Hms. apply app_nil_r.
Qed.

Lemma visitRuleSet_export_block_skipped_witness :
  isKnownProperty (cssDataManager (sample_visitor export_text)) "-s2-foo" = false
  /\ markersOf Rules.UnknownVendorSpecificProperty
       (warnings (snd (visitRuleSet sample_calculateBoxModel sample_union export_block
                         (sample_visitor export_text))))
     = [].
Proof.
  split; [reflexivity|].
  apply (visitRuleSet_export_block_skipped sample_calculateBoxModel sample_union export_block
           (mkNode nodes.Declarations 8 15 [export_decl] nodes.CDeclarations)
           (sample_visitor export_text) Rules.UnknownVendorSpecificProperty eq_refl eq_refl).
  simpl. tauto.
Defined.

(** X14. A declaration in the block that is not a genuine one (it has no
    value, no property identifier, or an interpolated one) keeps the
    block from being asked for other spellings: no
    [IncludeStandardPropertyWhenUsingVendorPrefix] and no
    [AllVendorPrefixes] marker is added. *)
Theorem visitRuleSet_unknown_declaration
    (calculateBoxModel : list Element -> BoxModel)
    (union : list Element -> list Element -> list Element)
    (n declarations child : Node) (v : LintVisitor) (rule : Rule) :
  nodes.BodyDeclaration_getDeclarations n = Some declarations ->
  In child (nodes.getChildren declarations) ->
  nodes.instanceof_Declaration child = true ->
  isCSSDeclaration child = false ->
  In rule completionRules ->
  markersOf rule (warnings (snd (visitRuleSet calculateBoxModel union n v)))
  = markersOf rule (warnings v).
Proof.
  intros Hdecl Hchild Hinst Hcss Hrule.
  assert (rule ∈ vendorRules) as Hvendor by (apply vendorRules_split; now right).
  destruct (visitRuleSet_before_vendor calculateBoxModel union n declarations v rule
              Hdecl Hvendor) as (ms & Hms & ->).
  destruct (vendorPrefixes_emit n (propertyTable_of declarations) (emit v ms))
    as (roots & _ & ->).
  assert (existsb (fun e => negb (isCSSDeclaration (node e))) (propertyTable_of declarations)
          = true) as ->.
  { apply existsb_exists.
    assert (In child (List.map node (propertyTable_of declarations))) as Hin.
    { rewrite propertyTable_of_nodes. apply List.filter_In. tauto. }
    apply in_map_iff in Hin as (e & He & Hin). exists e. split; [exact Hin|].
    now rewrite He, Hcss. }
  rewrite emit_emit, warnings_emit, !markersOf_app, Hms.
  destruct (nodes.matches _ _ _); [now rewrite !app_nil_r|].
  rewrite app_nil_r.
  rewrite (completion_not_property rule _ Hrule (flat_map_propertyMarkers_rules _ _)).
  now rewrite !app_nil_r.
Qed.

Lemma visitRuleSet_unknown_declaration_witness :
  isStandardProperty (cssDataManager (foo_visitor s2foo_colorless_text)) "foo" = true
  /\ markersOf Rules.IncludeStandardPropertyWhenUsingVendorPrefix
       (warnings (snd (visitRuleSet sample_calculateBoxModel sample_union s2foo_colorless
                         (foo_visitor s2foo_colorless_text))))
     = [].
Proof.
  split; [reflexivity|].
  apply (visitRuleSet_unknown_declaration sample_calculateBoxModel sample_union
           s2foo_colorless
           (mkNode nodes.Declarations 3 22 [s2foo_decl; colorless_decl] nodes.CDeclarations)
           colorless_decl (foo_visitor s2foo_colorless_text)
           Rules.IncludeStandardPropertyWhenUsingVendorPrefix eq_refl).
  - simpl. tauto.
  - reflexivity.
  - reflexivity.
  - simpl. tauto.
Defined.



(** X15. A block whose declarations all carry a name the knowledge base
    knows, or a name declared valid that is not written with a star or
    underscore hack, gets no [UnknownProperty] and no
    [UnknownVendorSpecificProperty] marker. *)
Theorem visitRuleSet_known_properties
    (calculateBoxModel : list Element -> BoxModel)
    (union : list Element -> list Element -> list Element)
    (n declarations : Node) (v : LintVisitor) (rule : Rule) :
  nodes.BodyDeclaration_getDeclarations n = Some declarations ->
  (forall e, In e (propertyTable_of declarations) ->
     isKnownProperty (cssDataManager v) (fullPropertyName e) = true
     \/ (isValid v (fullPropertyName e) = true /\ isHack (fullPropertyName e) = false)) ->
  In rule [Rules.UnknownProperty; Rules.UnknownVendorSpecificProperty] ->
  markersOf rule (warnings (snd (visitRuleSet calculateBoxModel union n v)))
  = markersOf rule (warnings v).
Proof.
  intros Hdecl Hknown Hrule.
  assert (rule ∈ vendorRules) as Hvendor.
  { apply vendorRules_split. left. revert Hrule. unfold propertyRules. simpl. tauto. }
  destruct (visitRuleSet_before_vendor calculateBoxModel union n declarations v rule
              Hdecl Hvendor) as (ms & Hms & ->).
  destruct (vendorPrefixes_emit n (propertyTable_of declarations) (emit v ms))
    as (roots & Hroots & ->).
  rewrite emit_emit, warnings_emit, !markersOf_app, Hms.
  destruct (nodes.matches _ _ _); [now rewrite !app_nil_r|].
  rewrite markersOf_app, markersOf_flat_map.
  rewrite flat_map_all_nil.
  2:{ intros e He. apply markersOf_other.
      unfold propertyMarkers. cbv zeta.
      change (cssDataManager (emit v ms)) with (cssDataManager v).
      change (isValid (emit v ms)) with (isValid v).
      destruct (isCSSDeclaration (node e)); [|constructor].
      destruct (String.eqb (JS.charAt (fullPropertyName e) 0) "-").
      - destruct (Hknown e He) as [Hk|[Hv _]]; [rewrite Hk|rewrite Hv];
          cbn [negb]; rewrite ?andb_false_r; constructor.
      - apply Forall_app. split.
        + destruct (isHack (fullPropertyName e)); [|constructor].
          eapply Forall_impl; [apply onProperty_rule|].
          intros m Hm. rewrite Hm. simpl in Hrule. intuition congruence.
        + destruct (Hknown e He) as [Hk|[Hv Hhack]].
          * rewrite Hk. constructor.
          * rewrite Hhack, Hv. cbn [negb]. rewrite andb_false_r. constructor. }
  assert (markersOf rule
            (if existsb (fun e => negb (isCSSDeclaration (node e)))
                  (propertyTable_of declarations)
             then [] else roots) = []) as ->.
  { destruct (existsb _ _); [reflexivity|].
    apply (ruleIn_other completionRules).
    - rewrite list_elem_of_In. revert Hrule. unfold completionRules. simpl.
      intuition congruence.
    - eapply Forall_impl; [exact Hroots|]. now intros m [Hm _]. }
  now rewrite !app_nil_r.
Qed.

Lemma visitRuleSet_known_properties_witness :
  isKnownProperty (cssDataManager (foo_visitor red_blue_text)) "color" = true
  /\ markersOf Rules.UnknownProperty
       (warnings (snd (visitRuleSet sample_calculateBoxModel sample_union red_blue
                         (foo_visitor red_blue_text))))
     = [].
Proof.
  split; [reflexivity|].
  apply (visitRuleSet_known_properties sample_calculateBoxModel sample_union red_blue
           (mkNode nodes.Declarations 3 28 [red_blue_1; red_blue_2] nodes.CDeclarations)
           (foo_visitor red_blue_text) Rules.UnknownProperty eq_refl).
  - intros e He. left. vm_compute in He. destruct He as [<-|[<-|[]]]; reflexivity.
  - simpl. tauto.
Defined.



(** X17. A marker that asks for another spelling of a name
    ([IncludeStandardPropertyWhenUsingVendorPrefix] or
    [AllVendorPrefixes]) is put on the property node of a genuine
    declaration of the block whose name has a vendor prefix, never on
    another node. *)
Theorem visitRuleSet_completion_on_prefixed
    (calculateBoxModel : list Element -> BoxModel)
    (union : list Element -> list Element -> list Element)
    (n declarations : Node) (v : LintVisitor) (rule : Rule) (m : Marker) :
  nodes.BodyDeclaration_getDeclarations n = Some declarations ->
  In rule completionRules ->
  In m (markersOf rule (warnings (snd (visitRuleSet calculateBoxModel union n v)))) ->
  In m (markersOf rule (warnings v))
  \/ exists e,
       In e (propertyTable_of declarations)
       /\ isCSSDeclaration (node e) = true
       /\ isVendorName (fullPropertyName e) = true
       /\ nodes.Declaration_getProperty (node e) = Some (nodes.getNode m).
Proof.
  intros Hdecl Hrule.
  assert (rule ∈ vendorRules) as Hvendor by (apply vendorRules_split; now right).
  destruct (visitRuleSet_before_vendor calculateBoxModel union n declarations v rule
              Hdecl Hvendor) as (ms & Hms & ->).
  destruct (vendorPrefixes_emit n (propertyTable_of declarations) (emit v ms))
    as (roots & Hroots & ->).
  rewrite emit_emit, warnings_emit, !markersOf_app, Hms. cbn [app].
  rewrite in_app_iff. intros [Hm|Hm]; [now left|]. right.
  destruct (nodes.matches _ _ _); [contradiction|].
  rewrite markersOf_app in Hm.
  rewrite (completion_not_property rule _ Hrule (flat_map_propertyMarkers_rules _ _)) in Hm.
  cbn [app] in Hm.
  destruct (existsb _ _); [contradiction|].
  apply List.filter_In in Hm as [Hm _].
  rewrite List.Forall_forall in Hroots. destruct (Hroots m Hm) as [_ Hnode].
  apply fold_checkProperty_index in Hnode as [Hnode|[]]. exact Hnode.
Qed.

Lemma visitRuleSet_completion_on_prefixed_witness :
  exists e,
    In e (propertyTable_of
            (mkNode nodes.Declarations 3 15 [s2foo_decl] nodes.CDeclarations))
    /\ isCSSDeclaration (node e) = true
    /\ isVendorName (fullPropertyName e) = true
    /\ nodes.getText s2foo_text (node e) = "-s2-foo: 1"
    /\ nodes.Declaration_getProperty (node e)
       = Some (mkNode nodes.Property 5 7 [sample_identifier 5 7]
                 (nodes.CProperty (Some (sample_identifier 5 7)) "-s2-foo")).
Proof.
  destruct (visitRuleSet_completion_on_prefixed sample_calculateBoxModel sample_union s2foo
              (mkNode nodes.Declarations 3 15 [s2foo_decl] nodes.CDeclarations)
              (foo_visitor s2foo_text) Rules.IncludeStandardPropertyWhenUsingVendorPrefix
              (mkMarker
                 (mkNode nodes.Property 5 7 [sample_identifier 5 7]
                    (nodes.CProperty (Some (sample_identifier 5 7)) "-s2-foo"))
                 Rules.IncludeStandardPropertyWhenUsingVendorPrefix nodes.Warning
                 (Some "Also define the standard property 'foo' for compatibility"))
              eq_refl)
    as [[]|(e & He & Hcss & Hvendor & Hprop)].
  - simpl. tauto.
  - vm_compute. tauto.
  - exists e. repeat split; try assumption.
    vm_compute in He. destruct He as [<-|[]]. reflexivity.
Defined.

Lemma duplicateMarkers_exempt (v : LintVisitor) (table : list Element) (e : Element) :
  List.NoDup (List.map node table) -> In e table -> flaggable v e = false ->
  List.filter (fun m => bool_decide (nodes.getNode m = node e)) (duplicateMarkers v table)
  = [].
Proof.
  unfold duplicateMarkers. generalize (rivals v table) as riv. intros riv.
  induction table as [|x table IH]; simpl; intros Hnd Hin Hflag; [reflexivity|].
  inversion Hnd as [|? ? Hx Htable]; subst.
  rewrite List.filter_app.
  destruct Hin as [Heq|Hin].
  - rewrite Heq, Hflag. cbn [List.filter app].
    apply filter_node_blocks_other. now rewrite <- Heq.
  - rewrite IH by assumption. rewrite app_nil_r.
    assert (node x <> node e) as Hne.
    { intros Heq. apply Hx. rewrite Heq. now apply in_map. }
    destruct (flaggable v x); [|reflexivity].
    rewrite filter_node_map, bool_decide_eq_false_2 by exact Hne. reflexivity.
Qed.

(** X18. In a block whose declarations are distinct nodes, a declaration
    named [background], one whose name is declared valid, and one whose
    value is missing or starts with a dash get no [DuplicateDeclarations]
    marker, however many declarations share the name. *)
Theorem visitRuleSet_duplicate_exempt
    (calculateBoxModel : list Element -> BoxModel)
    (union : list Element -> list Element -> list Element)
    (n declarations : Node) (v : LintVisitor) (e : Element) :
  nodes.BodyDeclaration_getDeclarations n = Some declarations ->
  List.NoDup (List.map node (propertyTable_of declarations)) ->
  In e (propertyTable_of declarations) ->
  String.eqb (fullPropertyName e) "background" = true
  \/ isValid v (fullPropertyName e) = true
  \/ valueNotDashed v (node e) = false ->
  markersOn Rules.DuplicateDeclarations (node e)
    (warnings (snd (visitRuleSet calculateBoxModel union n v)))
  = markersOn Rules.DuplicateDeclarations (node e) (warnings v).
Proof.
  intros Hdecl Hnd He Hexempt.
  rewrite !markersOn_markersOf.
  rewrite (visitRuleSet_duplicates _ _ n declarations v Hdecl).
  rewrite List.filter_app, duplicateMarkers_exempt; [apply app_nil_r|exact Hnd|exact He|].
  unfold flaggable. destruct Hexempt as [H|[H|H]]; rewrite H; cbn [negb andb];
    rewrite ?andb_false_r; reflexivity.
Qed.

Lemma visitRuleSet_duplicate_exempt_witness :
  nodes.getText red_dash_text red_dash_2 = "color: -blue"
  /\ markersOn Rules.DuplicateDeclarations red_dash_2
       (warnings (snd (visitRuleSet sample_calculateBoxModel sample_union red_dash
                         (sample_visitor red_dash_text))))
     = [].
Proof.
  split; [reflexivity|].
  apply (visitRuleSet_duplicate_exempt sample_calculateBoxModel sample_union red_dash
           (mkNode nodes.Declarations 3 29 [red_blue_1; red_dash_2] nodes.CDeclarations)
           (sample_visitor red_dash_text) (new_Element 1 red_dash_2) eq_refl).
  - apply (NoDup_map_inv nodes.offset). vm_compute.
    repeat constructor; simpl; intuition discriminate.
  - vm_compute. tauto.
  - right. right. reflexivity.
Defined.

(** *** What the walk keeps *)

Lemma advances_refl (v : LintVisitor) : advances v v.
Proof.
  split; try reflexivity.
  - exists []. split; [now rewrite app_nil_r|constructor].
  - intros x Hx. now left.
Qed.

Lemma advances_trans (v w u : LintVisitor) : advances v w -> advances w u -> advances v u.
Proof.
  intros [Hs Ht Hp Hd (ms & Hms & Hl) Hk] [Hs' Ht' Hp' Hd' (ms' & Hms' & Hl') Hk'].
  split; try congruence.
  - exists (ms ++ ms'). split; [rewrite Hms', Hms; now rewrite app_assoc|].
    apply Forall_app. split; [exact Hl|]. now rewrite <- Hs.
  - intros x Hx. apply Hk' in Hx as [Hx|Hx]; [now apply Hk|]. right. now rewrite <- Ht.
Qed.

Lemma advances_addEntry (n : Node) (rule : Rule) (details : option string) (v : LintVisitor) :
  advances v (addEntry n rule details v).
Proof.
  split; try reflexivity.
  - eexists. split; [reflexivity|]. repeat constructor.
  - intros x Hx. now left.
Qed.

Lemma advances_addEntry_property (decl : Node) (rule : Rule) (details : option string)
    (v : LintVisitor) :
  advances v (addEntry_property decl rule details v).
Proof.
  unfold addEntry_property. destruct (nodes.Declaration_getProperty decl);
    [apply advances_addEntry|apply advances_refl].
Qed.

Lemma advances_fold {A} (f : LintVisitor -> A -> LintVisitor) (l : list A) (v : LintVisitor) :
  (forall w x, advances w (f w x)) -> advances v (fold_left f l v).
Proof.
  intros Hf. revert v. induction l as [|x l IH]; intros v; simpl.
  - apply advances_refl.
  - eapply advances_trans; [apply Hf|apply IH].
Qed.

(** One step of a proof that a pass advances the visitor. *)
Ltac advance :=
  repeat
    (cbv zeta;
     match goal with
     | |- advances ?v ?v => apply advances_refl
     | |- advances _ (snd (_, _)) => cbn [snd]
     | |- advances _ (snd (if ?b then _ else _)) => destruct b
     | |- advances _ (snd (match ?x with _ => _ end)) => destruct x
     | |- advances ?v (addEntry _ _ _ ?w) =>
         apply (advances_trans v w); [|apply advances_addEntry]
     | |- advances ?v (addEntry_property _ _ _ ?w) =>
         apply (advances_trans v w); [|apply advances_addEntry_property]
     | |- advances ?v (fold_left _ _ ?w) =>
         apply (advances_trans v w); [|apply advances_fold; intros ? ?; cbv beta]
     | |- advances _ (if ?b then _ else _) => destruct b
     | |- advances _ (match ?x with _ => _ end) => destruct x
     end).

Lemma bewareOfBoxModelSize_advances (union : list Element -> list Element -> list Element)
    (dimension : option Element) (first second : BoxSide) (v : LintVisitor) :
  advances v (bewareOfBoxModelSize union dimension first second v).
Proof. unfold bewareOfBoxModelSize. advance. Qed.

Lemma propertyIgnoredDueToDisplay_advances (table : list Element) (v : LintVisitor) :
  advances v (propertyIgnoredDueToDisplay table v).
Proof. unfold propertyIgnoredDueToDisplay. advance. Qed.

Lemma avoidFloat_advances (table : list Element) (v : LintVisitor) :
  advances v (avoidFloat table v).
Proof. unfold avoidFloat. advance. Qed.

Lemma duplicateDeclarations_advances (table : list Element) (v : LintVisitor) :
  advances v (duplicateDeclarations table v).
Proof. unfold duplicateDeclarations. advance. Qed.

Lemma checkProperty_advances (st : VendorState) (e : Element) :
  advances (vs_visitor st) (vs_visitor (checkProperty st e)).
Proof.
  unfold checkProperty. cbv zeta.
  destruct (isCSSDeclaration _); [|apply advances_refl].
  destruct (String.eqb _ "-"); [destruct (negb _)|]; cbn [vs_visitor]; advance.
Qed.

Lemma fold_checkProperty_advances (table : list Element) (st : VendorState) :
  advances (vs_visitor st) (vs_visitor (fold_left checkProperty table st)).
Proof.
  revert st. induction table as [|e table IH]; intros st; simpl.
  - apply advances_refl.
  - eapply advances_trans; [apply checkProperty_advances|apply IH].
Qed.

Lemma checkRoot_advances (v : LintVisitor) (item : string * NodesByRootMap.Entry) :
  advances v (checkRoot v item).
Proof. unfold checkRoot. advance. Qed.

Lemma vendorPrefixes_advances (n : Node) (table : list Element) (v : LintVisitor) :
  advances v (vendorPrefixes n table v).
Proof.
  unfold vendorPrefixes. cbv zeta.
  destruct (negb (nodes.matches _ _ _)); [|apply advances_refl].
  pose proof (fold_checkProperty_advances table
                {| vs_visitor := v; propertiesBySuffix := NodesByRootMap.empty;
                   containsUnknowns := false |}) as H.
  cbn [vs_visitor] in H.
  destruct (negb _); [|exact H].
  eapply advances_trans; [exact H|].
  apply advances_fold. intros w x. apply checkRoot_advances.
Qed.

Lemma visitRuleSet_advances
    (calculateBoxModel : list Element -> BoxModel)
    (union : list Element -> list Element -> list Element)
    (n : Node) (v : LintVisitor) :
  advances v (snd (visitRuleSet calculateBoxModel union n v)).
Proof.
  unfold visitRuleSet.
  destruct (nodes.BodyDeclaration_getDeclarations n) as [declarations|];
    [|apply advances_refl].
  cbv zeta. cbn [snd].
  eapply advances_trans; [|apply vendorPrefixes_advances].
  eapply advances_trans; [|apply duplicateDeclarations_advances].
  eapply advances_trans; [|apply avoidFloat_advances].
  eapply advances_trans; [|apply propertyIgnoredDueToDisplay_advances].
  eapply advances_trans; [|apply bewareOfBoxModelSize_advances].
  eapply advances_trans; [|apply bewareOfBoxModelSize_advances].
  advance.
Qed.

Lemma visitKeyframe_advances (n : Node) (v : LintVisitor) :
  advances v (snd (visitKeyframe n v)).
Proof.
  unfold visitKeyframe.
  destruct (nodes.Keyframe_getKeyword n) as [keyword|]; [|apply advances_refl].
  cbn [snd]. split; try reflexivity.
  - exists []. split; [now rewrite app_nil_r|constructor].
  - cbn [keyframes set_keyframes]. intros x Hx.
    apply index_nodes_add in Hx as [Hx|Hx]; [|now left]. right.
    destruct (String.eqb_spec (nodes.getText (documentText v) keyword) "@keyframes")
      as [|Hne]; [discriminate|].
    injection Hx as <-. exact Hne.
Qed.

Lemma visitNode_advances
    (calculateBoxModel : list Element -> BoxModel)
    (union : list Element -> list Element -> list Element)
    (units_length : list string) (parseFloat_is_zero : string -> bool)
    (n : Node) (ancestors : list Node) (v : LintVisitor) :
  advances v
    (snd (visitNode calculateBoxModel union units_length parseFloat_is_zero n ancestors v)).
Proof.
  unfold visitNode.
  destruct (nodes.type n); try apply advances_refl;
    try apply visitKeyframe_advances; try apply visitRuleSet_advances.
  all: unfold visitSimpleSelector, visitIdentifierSelector, visitNumericValue,
         visitHexColorValue, visitFunction, visitPrio, visitImport, visitFontFace,
         visitUnknownAtRule.
  all: advance.
Qed.

Lemma acceptVisitor_unfold
    (calculateBoxModel : list Element -> BoxModel)
    (union : list Element -> list Element -> list Element)
    (units_length : list string) (parseFloat_is_zero : string -> bool)
    (n : Node) (ancestors : list Node) (v : LintVisitor) :
  acceptVisitor calculateBoxModel union units_length parseFloat_is_zero n ancestors v
  = let visited :=
      visitNode calculateBoxModel union units_length parseFloat_is_zero n ancestors v in
    if fst visited then
      fold_left
        (fun v c =>
           acceptVisitor calculateBoxModel union units_length parseFloat_is_zero c
             (n :: ancestors) v)
        (nodes.children n) (snd visited)
    else snd visited.
Proof.
  destruct n as [t o l cs c]. cbn [acceptVisitor nodes.children]. cbv zeta.
  destruct (visitNode _ _ _ _ _ _ _) as [descend v1]. cbn [fst snd].
  destruct descend; [|reflexivity].
  generalize (mkNode t o l cs c :: ancestors). intros chain.
  revert v1. induction cs as [|c' cs IH]; intros v1; [reflexivity|].
  cbn [fold_left]. apply IH.
Qed.

Lemma acceptVisitor_advances
    (calculateBoxModel : list Element -> BoxModel)
    (union : list Element -> list Element -> list Element)
    (units_length : list string) (parseFloat_is_zero : string -> bool)
    (n : Node) :
  forall (ancestors : list Node) (v : LintVisitor),
    advances v
      (acceptVisitor calculateBoxModel union units_length parseFloat_is_zero n ancestors v).
Proof.
  induction n as [n IH] using Node_children_ind. intros ancestors v.
  rewrite acceptVisitor_unfold. cbv zeta.
  pose proof (visitNode_advances calculateBoxModel union units_length parseFloat_is_zero
                n ancestors v) as Hstep.
  destruct (fst _); [|exact Hstep].
  eapply advances_trans; [exact Hstep|].
  generalize (snd (visitNode calculateBoxModel union units_length parseFloat_is_zero
                     n ancestors v)).
  induction IH as [|c cs Hc _ IHcs]; intros w; cbn [fold_left].
  - apply advances_refl.
  - eapply advances_trans; [apply Hc|apply IHcs].
Qed.


(** X19. The walk over a tree only adds to the visitor: the settings,
    the text, the valid names and the knowledge base are the ones it
    started with, the markers it started with are still there, in order
    and in front, and every marker added after them has the level the
    settings resolve its rule to. *)
Theorem acceptVisitor_only_adds
    (calculateBoxModel : list Element -> BoxModel)
    (union : list Element -> list Element -> list Element)
    (units_length : list string) (parseFloat_is_zero : string -> bool)
    (n : Node) (ancestors : list Node) (v : LintVisitor) :
  let v' :=
    acceptVisitor calculateBoxModel union units_length parseFloat_is_zero n ancestors v in
  settings v' = settings v
  /\ documentText v' = documentText v
  /\ validProperties v' = validProperties v
  /\ cssDataManager v' = cssDataManager v
  /\ exists ms,
       warnings v' = warnings v ++ ms
       /\ Forall (fun m => nodes.getLevel m = getRule (settings v) (nodes.getRule m)) ms.
Proof.
  destruct (acceptVisitor_advances calculateBoxModel union units_length parseFloat_is_zero
              n ancestors v) as [Hs Ht Hp Hd Hw _].
  cbv zeta. tauto.
Qed.

(** X20. Every marker [entries] returns with the default filter has the
    level the settings resolve its rule to, and that level is not
    [Ignore]: a rule switched off in the settings is never reported. *)
Theorem entries_levels
    (calculateBoxModel : list Element -> BoxModel)
    (union : list Element -> list Element -> list Element)
    (units_length : list string) (parseFloat_is_zero : string -> bool)
    (n : Node) (text : string) (settings : LintConfigurationSettings)
    (cssDataManager : CSSDataManager) :
  Forall
    (fun m => nodes.getLevel m = getRule settings (nodes.getRule m)
              /\ nodes.getLevel m <> nodes.Ignore)
    (entries calculateBoxModel union units_length parseFloat_is_zero n text settings
       cssDataManager None).
Proof.
  unfold entries, completeValidations. cbv zeta. rewrite validateKeyframes_id. cbn [snd].
  destruct (acceptVisitor_advances calculateBoxModel union units_length parseFloat_is_zero
              n [] (new_LintVisitor text settings cssDataManager))
    as [_ _ _ _ (ms & Hms & Hl) _].
  unfold getEntries. rewrite Hms. cbn [warnings new_LintVisitor app] in *.
  apply List.Forall_forall. intros m Hm. apply List.filter_In in Hm as [Hm Hmask].
  rewrite List.Forall_forall in Hl. split; [exact (Hl m Hm)|].
  intros Hignore. rewrite Hignore in Hmask. discriminate.
Qed.

(** X21. No node that reads [@keyframes] is ever recorded in the
    keyframes index of a walk from a new visitor: the unprefixed keyword
    is recorded by its name only. *)
Theorem acceptVisitor_keyframes_keyword
    (calculateBoxModel : list Element -> BoxModel)
    (union : list Element -> list Element -> list Element)
    (units_length : list string) (parseFloat_is_zero : string -> bool)
    (n : Node) (text : string) (settings : LintConfigurationSettings)
    (cssDataManager : CSSDataManager) :
  Forall (fun x => nodes.getText text x <> "@keyframes")
    (index_nodes
       (keyframes
          (acceptVisitor calculateBoxModel union units_length parseFloat_is_zero n []
             (new_LintVisitor text settings cssDataManager)))).
Proof.
  destruct (acceptVisitor_advances calculateBoxModel union units_length parseFloat_is_zero
              n [] (new_LintVisitor text settings cssDataManager))
    as [_ _ _ _ _ Hk].
  apply List.Forall_forall. intros x Hx. apply Hk in Hx as [[]|Hx]. exact Hx.
Qed.

Example visitKeyframe_keyframes_rule :
  keyframes (snd (visitKeyframe keyframes_rule (sample_visitor keyframes_text)))
  = [("a", {| NodesByRootMap.nodes := []; NodesByRootMap.names := ["@keyframes"] |})].
Proof. reflexivity. Qed.

(** X22. The walk does not enter, and adds nothing for: an at-rule
    without a name node or with a name the knowledge base has a directive
    for; a keyframe without keyword; a rule set or font face without
    declarations node. *)
Theorem acceptVisitor_pruned
    (calculateBoxModel : list Element -> BoxModel)
    (union : list Element -> list Element -> list Element)
    (units_length : list string) (parseFloat_is_zero : string -> bool)
    (n : Node) (ancestors : list Node) (v : LintVisitor) :
  (nodes.type n = nodes.UnknownAtRule
   /\ (nodes.getChild n 0 = None
       \/ exists atRuleName directive,
            nodes.getChild n 0 = Some atRuleName
            /\ getAtDirective (cssDataManager v)
                 (nodes.getText (documentText v) atRuleName) = Some directive))
  \/ (nodes.type n = nodes.Keyframe /\ nodes.Keyframe_getKeyword n = None)
  \/ ((nodes.type n = nodes.Ruleset \/ nodes.type n = nodes.FontFace)
      /\ nodes.BodyDeclaration_getDeclarations n = None) ->
  acceptVisitor calculateBoxModel union units_length parseFloat_is_zero n ancestors v = v.
Proof.
  intros H. rewrite acceptVisitor_unfold. cbv zeta. unfold visitNode.
  destruct H as [[Htype H]|[[Htype H]|[[Htype|Htype] H]]]; rewrite Htype.
  - unfold visitUnknownAtRule.
    destruct H as [H|(atRuleName & directive & Hchild & H)].
    + now rewrite H.
    + now rewrite Hchild, H.
  - unfold visitKeyframe. now rewrite H.
  - unfold visitRuleSet. now rewrite H.
  - unfold visitFontFace. now rewrite H.
Qed.

Lemma acceptVisitor_pruned_witness :
  warnings
    (acceptVisitor sample_calculateBoxModel sample_union sample_units sample_is_zero
       atfoo_nested []
       (new_LintVisitor atfoo_nested_text sample_settings (sample_data [] [] ["@foo"])))
  = []
  /\ showMarkers atfoo_nested_text
       (warnings
          (acceptVisitor sample_calculateBoxModel sample_union sample_units sample_is_zero
             atfoo_nested []
             (new_LintVisitor atfoo_nested_text sample_settings (sample_data [] [] []))))
     = [(Rules.UnknownAtRules, "@foo"); (Rules.AvoidIdSelector, "#a")].
Proof.
  split; [|reflexivity].
  rewrite (acceptVisitor_pruned sample_calculateBoxModel sample_union sample_units
             sample_is_zero atfoo_nested []
             (new_LintVisitor atfoo_nested_text sample_settings (sample_data [] [] ["@foo"]))).
  - reflexivity.
  - left. split; [reflexivity|]. right.
    exists atfoo_name, {| at_name := "@foo"; at_description := None |}.
    split; reflexivity.
Defined.

(** *** The markers of a walk, node by node *)

Lemma visited_unfold (text : string) (data : CSSDataManager) (n : Node) :
  visited text data n
  = n :: (if descends text data n then flat_map (visited text data) (nodes.children n)
          else []).
Proof.
  destruct n as [t o l cs c]. cbn [visited nodes.children].
  destruct (descends text data _); reflexivity.
Qed.

Lemma fst_visitNode
    (calculateBoxModel : list Element -> BoxModel)
    (union : list Element -> list Element -> list Element)
    (units_length : list string) (parseFloat_is_zero : string -> bool)
    (n : Node) (ancestors : list Node) (v : LintVisitor) :
  fst (visitNode calculateBoxModel union units_length parseFloat_is_zero n ancestors v)
  = descends (documentText v) (cssDataManager v) n.
Proof.
  unfold visitNode, descends. destruct (nodes.type n); try reflexivity.
  all: unfold visitRuleSet, visitSimpleSelector, visitNumericValue, visitHexColorValue,
         visitFunction, visitKeyframe, visitFontFace, visitUnknownAtRule.
  all: repeat match goal with
              | |- fst (if ?b then _ else _) = _ => destruct b
              | |- fst (match ?x with _ => _ end) = _ => destruct x
              | |- fst (let '(_, _) := ?x in _) = _ => destruct x
              end; reflexivity.
Qed.

(** Visiting a node adds markers of the rules of its type only. *)
Lemma visitNode_rules
    (calculateBoxModel : list Element -> BoxModel)
    (union : list Element -> list Element -> list Element)
    (units_length : list string) (parseFloat_is_zero : string -> bool)
    (n : Node) (ancestors : list Node) (v : LintVisitor) :
  exists ms,
    warnings (snd (visitNode calculateBoxModel union units_length parseFloat_is_zero
                     n ancestors v))
    = warnings v ++ ms
    /\ Forall (ruleIn (rulesAt (nodes.type n))) ms.
Proof.
  assert (forall rs (w : LintVisitor),
             (exists ms, w = emit v ms /\ Forall (ruleIn rs) ms) ->
             exists ms, warnings w = warnings v ++ ms /\ Forall (ruleIn rs) ms) as Hemit.
  { intros rs w (ms & -> & Hms). now exists ms. }
  assert (forall rs, exists ms, warnings v = warnings v ++ ms /\ Forall (ruleIn rs) ms) as Hid.
  { intros rs. exists []. split; [now rewrite app_nil_r|constructor]. }
  assert (forall rs x rule details, rule ∈ rs ->
             exists ms, warnings (addEntry x rule details v) = warnings v ++ ms
                        /\ Forall (ruleIn rs) ms) as Hadd.
  { intros rs x rule details Hin. apply Hemit. now apply ruleIn_addEntry. }
  unfold visitNode, rulesAt. destruct (nodes.type n); try apply Hid.
  { destruct (nodes.BodyDeclaration_getDeclarations n) as [declarations|] eqn:Hdecl.
    + destruct (visitRuleSet_split calculateBoxModel union n declarations v Hdecl)
        as (before & Hbefore & ->). cbn [snd].
      destruct (vendorPrefixes_adds n (propertyTable_of declarations)
                  (emit v (before ++ duplicateMarkers v (propertyTable_of declarations))))
        as (after & -> & Hafter).
      rewrite emit_emit. eexists. split; [reflexivity|].
      apply Forall_app; split; [apply Forall_app; split|].
      * eapply Forall_impl; [exact Hbefore|]. intros m Hm.
        unfold ruleIn in *. rewrite elem_of_app. now left.
      * eapply Forall_impl; [apply duplicateMarkers_rule|]. intros m Hm.
        unfold ruleIn. rewrite Hm, elem_of_app. right. apply list_elem_of_In. now left.
      * eapply Forall_impl; [exact Hafter|]. intros m Hm.
        unfold ruleIn in *. rewrite elem_of_app. right.
        apply list_elem_of_In. right. now apply list_elem_of_In.
    + unfold visitRuleSet. rewrite Hdecl. apply Hid. }
  all: unfold visitSimpleSelector, visitIdentifierSelector, visitNumericValue,
         visitHexColorValue, visitFunction, visitPrio, visitImport, visitKeyframe,
         visitFontFace, visitUnknownAtRule.
  all: repeat match goal with
              | |- context [snd (if ?b then _ else _)] => destruct b
              | |- context [snd (match ?x with _ => _ end)] => destruct x
              end; cbn [snd]; first [apply Hid | apply Hadd; rule_mem].
Qed.

(** What the walk adds splits into one chunk for every node it reaches,
    in order: what the visit of that node added to the visitor of that
    moment. *)
Lemma acceptVisitor_chunks
    (calculateBoxModel : list Element -> BoxModel)
    (union : list Element -> list Element -> list Element)
    (units_length : list string) (parseFloat_is_zero : string -> bool)
    (n : Node) :
  forall (ancestors : list Node) (v : LintVisitor),
    exists chunks : list (Node * list Marker),
      List.map fst chunks = visited (documentText v) (cssDataManager v) n
      /\ warnings (acceptVisitor calculateBoxModel union units_length parseFloat_is_zero
                     n ancestors v)
         = warnings v ++ concat (List.map snd chunks)
      /\ Forall
           (fun chunk =>
              exists chain w,
                advances v w
                /\ warnings (snd (visitNode calculateBoxModel union units_length
                                    parseFloat_is_zero (fst chunk) chain w))
                   = warnings w ++ snd chunk)
           chunks.
Proof.
  induction n as [n IH] using Node_children_ind. intros ancestors v.
  rewrite acceptVisitor_unfold, visited_unfold. cbv zeta.
  rewrite fst_visitNode.
  pose proof (visitNode_advances calculateBoxModel union units_length parseFloat_is_zero
                n ancestors v) as Hstep.
  destruct (adv_warnings _ _ Hstep) as (ms0 & Hms0 & _).
  set (v1 := snd (visitNode calculateBoxModel union units_length parseFloat_is_zero
                    n ancestors v)) in *.
  assert (exists chain w,
             advances v w
             /\ warnings (snd (visitNode calculateBoxModel union units_length
                                 parseFloat_is_zero n chain w))
                = warnings w ++ ms0) as Hchunk0.
  { exists ancestors, v. split; [apply advances_refl|exact Hms0]. }
  destruct (descends (documentText v) (cssDataManager v) n).
  - assert (forall w, advances v w ->
              exists chunks : list (Node * list Marker),
                List.map fst chunks
                = flat_map (visited (documentText v) (cssDataManager v)) (nodes.children n)
                /\ warnings
                     (fold_left
                        (fun v c =>
                           acceptVisitor calculateBoxModel union units_length
                             parseFloat_is_zero c (n :: ancestors) v)
                        (nodes.children n) w)
                   = warnings w ++ concat (List.map snd chunks)
                /\ Forall
                     (fun chunk =>
                        exists chain w',
                          advances v w'
                          /\ warnings (snd (visitNode calculateBoxModel union units_length
                                              parseFloat_is_zero (fst chunk) chain w'))
                             = warnings w' ++ snd chunk)
                     chunks) as Hbelow.
    { generalize (n :: ancestors). intros chain.
      induction IH as [|c cs Hc _ IHcs]; intros w Hw; cbn [fold_left flat_map].
      - exists []. split; [reflexivity|]. split; [now rewrite app_nil_r|constructor].
      - destruct (Hc chain w) as (chunks1 & Hnodes1 & Hwarn1 & Hall1).
        pose proof (acceptVisitor_advances calculateBoxModel union units_length
                      parseFloat_is_zero c chain w) as Hadv.
        destruct (IHcs _ (advances_trans _ _ _ Hw Hadv)) as (chunks2 & Hnodes2 & Hwarn2 & Hall2).
        exists (chunks1 ++ chunks2). split; [|split].
        + rewrite List.map_app, Hnodes1, Hnodes2.
          now rewrite (adv_text _ _ Hw), (adv_data _ _ Hw).
        + rewrite Hwarn2, Hwarn1, List.map_app, concat_app. now rewrite app_assoc.
        + apply Forall_app. split; [|exact Hall2].
          eapply Forall_impl; [exact Hall1|].
          intros chunk (chain' & w' & Hw' & Hchunk). exists chain', w'.
          split; [exact (advances_trans _ _ _ Hw Hw')|exact Hchunk]. }
    destruct (Hbelow v1 Hstep) as (chunks & Hnodes & Hwarn & Hall).
    exists ((n, ms0) :: chunks). split; [|split].
    + cbn [List.map fst]. now rewrite Hnodes.
    + cbn [List.map snd concat]. rewrite Hwarn, Hms0. now rewrite app_assoc.
    + constructor; [exact Hchunk0|exact Hall].
  - exists [(n, ms0)]. split; [reflexivity|]. split.
    + cbn [List.map snd concat]. now rewrite app_nil_r.
    + constructor; [exact Hchunk0|constructor].
Qed.


Lemma chunk_markers
    (calculateBoxModel : list Element -> BoxModel)
    (union : list Element -> list Element -> list Element)
    (units_length : list string) (parseFloat_is_zero : string -> bool)
    (v : LintVisitor) (chunk : Node * list Marker) :
  (exists chain w,
      advances v w
      /\ warnings (snd (visitNode calculateBoxModel union units_length parseFloat_is_zero
                          (fst chunk) chain w))
         = warnings w ++ snd chunk) ->
  Forall (ruleIn (rulesAt (nodes.type (fst chunk)))) (snd chunk)
  /\ forall rule,
       reportedType rule = Some (nodes.type (fst chunk)) ->
       snd chunk = [mkMarker (fst chunk) rule (getRule (settings v) rule) None].
Proof.
  intros (chain & w & Hw & Hchunk). split.
  - destruct (visitNode_rules calculateBoxModel union units_length parseFloat_is_zero
                (fst chunk) chain w) as (ms & Hms & Hrules).
    rewrite Hchunk in Hms. apply app_inv_head in Hms. now rewrite Hms.
  - intros rule Hrule. rewrite <- (adv_settings _ _ Hw).
    apply (app_inv_head (warnings w)). rewrite <- Hchunk.
    unfold visitNode.
    destruct rule; try discriminate; injection Hrule as <-; reflexivity.
Qed.


(** X23. Every marker a walk adds has a rule of the type of a node the
    walk reached: a rule set is the only node reported for the rules of
    declaration blocks, a font face the only one for
    [RequiredPropertiesForFontFace], and so on for the eleven types the
    visitor looks at; a node of any other type is never the cause of a
    marker. *)
Theorem acceptVisitor_rules_by_type
    (calculateBoxModel : list Element -> BoxModel)
    (union : list Element -> list Element -> list Element)
    (units_length : list string) (parseFloat_is_zero : string -> bool)
    (n : Node) (ancestors : list Node) (v : LintVisitor) :
  exists ms,
    warnings (acceptVisitor calculateBoxModel union units_length parseFloat_is_zero
                n ancestors v)
    = warnings v ++ ms
    /\ Forall
         (fun m =>
            exists x,
              In x (visited (documentText v) (cssDataManager v) n)
              /\ In (nodes.getRule m) (rulesAt (nodes.type x)))
         ms.
Proof.
  destruct (acceptVisitor_chunks calculateBoxModel union units_length parseFloat_is_zero
              n ancestors v) as (chunks & Hnodes & Hwarn & Hall).
  eexists. split; [exact Hwarn|].
  apply List.Forall_forall. intros m Hm.
  apply in_concat in Hm as (ms & Hms & Hm).
  apply in_map_iff in Hms as (chunk & <- & Hchunk).
  rewrite List.Forall_forall in Hall.
  destruct (chunk_markers _ _ _ _ v chunk (Hall chunk Hchunk)) as [Hrules _].
  exists (fst chunk). split.
  - rewrite <- Hnodes. now apply in_map.
  - rewrite List.Forall_forall in Hrules. apply list_elem_of_In. now apply Hrules.
Qed.



(** *** The universal selector *)

Lemma substring_one (s : string) (k : nat) :
  String.substring k 1 s
  = match String.get k s with Some c => String c "" | None => "" end.
Proof.
  revert k. induction s as [|c s IH]; intros [|k]; simpl; try reflexivity.
  - now destruct s.
  - apply IH.
Qed.

Lemma substring_none (s : string) (k : nat) : String.substring k 0 s = "".
Proof. revert k. induction s as [|c s IH]; intros [|k]; simpl; try reflexivity. apply IH. Qed.

Lemma get_beyond (s : string) (k : nat) :
  (String.length s <= k)%nat -> String.get k s = None.
Proof.
  revert k. induction s as [|c s IH]; intros [|k]; simpl; intros Hk;
    try reflexivity; try lia.
  apply IH. lia.
Qed.

Lemma substr_one (s : string) (i : Z) : 0 <= i -> JS.substr s i 1 = JS.charAt s i.
Proof.
  intros Hi. unfold JS.substr, JS.charAt, JS.strlen. cbv zeta.
  destruct (Z.ltb_spec i 0) as [|_]; [lia|].
  destruct (Z_lt_le_dec i (Z.of_nat (String.length s))) as [Hin|Hout].
  - replace (Z.min i (Z.of_nat (String.length s))) with i by lia.
    replace (Z.min (Z.max 1 0) (Z.of_nat (String.length s) - i)) with 1 by lia.
    apply substring_one.
  - replace (Z.min i (Z.of_nat (String.length s))) with (Z.of_nat (String.length s)) by lia.
    replace (Z.min (Z.max 1 0) (Z.of_nat (String.length s) - Z.of_nat (String.length s)))
      with 0 by lia.
    rewrite get_beyond by lia. apply substring_none.
Qed.

(** X25. A simple selector that does not start before the text is
    flagged as a universal selector exactly when it is literally [*]; the
    visit returns [true] either way. *)
Theorem visitSimpleSelector_universal (n : Node) (v : LintVisitor) :
  0 <= nodes.offset n ->
  visitSimpleSelector n v
  = (true,
     if nodes.matches (documentText v) n "*"
     then addEntry n Rules.UniversalSelector None v
     else v).
Proof.
  intros Hoffset. unfold visitSimpleSelector, nodes.matches, nodes.getText.
  change (JS.strlen "*") with 1.
  destruct (Z.eqb_spec (nodes.length n) 1) as [Hlen|_]; cbn [andb].
  - rewrite Hlen, substr_one by exact Hoffset.
    now destruct (String.eqb _ "*").
  - reflexivity.
Qed.

Lemma visitSimpleSelector_universal_witness :
  visitSimpleSelector (mkNode nodes.SimpleSelector 0 1 [] nodes.CNode)
    (sample_visitor "* { }")
  = (true,
     addEntry (mkNode nodes.SimpleSelector 0 1 [] nodes.CNode) Rules.UniversalSelector None
       (sample_visitor "* { }"))
  /\ visitSimpleSelector (mkNode nodes.SimpleSelector 0 1 [] nodes.CNode)
       (sample_visitor "a { }")
     = (true, sample_visitor "a { }").
Proof.
  split.
  - apply (visitSimpleSelector_universal (mkNode nodes.SimpleSelector 0 1 [] nodes.CNode)
             (sample_visitor "* { }")).
    simpl. lia.
  - apply (visitSimpleSelector_universal (mkNode nodes.SimpleSelector 0 1 [] nodes.CNode)
             (sample_visitor "a { }")).
    simpl. lia.
Defined.
